(** * Androguard DAD decompiler: the orchestration layer of
      [androguard/decompiler/dad/decompile.py]

    A shallow embedding of [get_field_ast], the extraction of the
    annotations, [DvMethod], [DvClass] and [DvMachine].  Python objects that are mutated in place are threaded
    explicitly; a raised exception is a value of type [exn] and the store
    reached when it was raised is kept, as mutation persists in Python.
    The collaborators that live in other modules of the package (graph,
    dataflow, control_flow, writer, dast, util) are the fields of one
    record, [Collab], and every statement is proved for all of them.
    What the module prints on the standard output and logs at the debug
    level is left out; the warnings of [DvClass.process] are kept. *)

From Stdlib Require Import ZArith List Bool Lia Ascii String.
From Stdlib Require Import DecimalString HexadecimalString.
From stdpp Require Import gmap strings list sorting.

Local Open Scope string_scope.
Local Open Scope Z_scope.

(** ** Python values and exceptions *)

Module Py.

(** What [except Exception] catches, and what it lets through
    ([KeyboardInterrupt], [SystemExit] and the like derive from
    [BaseException] only). *)
Inductive exn : Type :=
  | Exception (msg : string)
  | BaseException (msg : string).

Definition is_Exception (e : exn) : bool :=
  match e with Exception _ => true | BaseException _ => false end.

(** The dynamically typed payload of an [EncodedValue]. *)
Inductive pyval : Type :=
  | PyNone
  | PyBool (b : bool)
  | PyInt (z : Z)
  | PyStr (s : string).

(** [bool(v)] *)
Definition truthy (v : pyval) : bool :=
  match v with
  | PyNone => false
  | PyBool b => b
  | PyInt z => negb (z =? 0)
  | PyStr s => negb (String.eqb s "")
  end.

(** [v == w]; [bool] is a subclass of [int], a [str] equals only a [str]. *)
Definition py_eq (v w : pyval) : bool :=
  match v, w with
  | PyNone, PyNone => true
  | PyBool a, PyBool b => Bool.eqb a b
  | PyBool a, PyInt z | PyInt z, PyBool a => (if a then 1 else 0) =? z
  | PyInt a, PyInt b => a =? b
  | PyStr a, PyStr b => String.eqb a b
  | _, _ => false
  end.

(** [str(n)] for an [int] *)
Definition str_int (z : Z) : string :=
  DecimalString.NilZero.string_of_int (Z.to_int z).

(** [hex(n)]: sign, [0x], lower-case digits without leading zeros. *)
Definition hex_digits (z : Z) : string :=
  HexadecimalString.NilZero.string_of_uint (N.to_hex_uint (Z.to_N z)).

Definition hex (z : Z) : string :=
  if z <? 0 then "-0x" +:+ hex_digits (- z) else "0x" +:+ hex_digits z.

(** [str(v)] *)
Definition str (v : pyval) : string :=
  match v with
  | PyNone => "None"
  | PyBool true => "True"
  | PyBool false => "False"
  | PyInt z => str_int z
  | PyStr s => s
  end.

(** An [int] argument as the C level sees it ([bool] is a subclass). *)
Definition as_int (v : pyval) : option Z :=
  match v with
  | PyInt z => Some z
  | PyBool b => Some (if b then 1 else 0)
  | _ => None
  end.

(** [struct.pack("B", v)]: one unsigned byte; [struct.error] when [v] is
    not an integer in [0, 255]. *)
Definition struct_pack_B (v : pyval) : exn + list Byte.byte :=
  match as_int v with
  | Some z =>
      if (0 <=? z) && (z <=? 255) then
        match Byte.of_N (Z.to_N z) with
        | Some b => inr [b]
        | None => inl (Exception "struct.error")
        end
      else inl (Exception "struct.error: ubyte format requires 0 <= number <= 255")
  | None => inl (Exception "struct.error: required argument is not an integer")
  end.

(** [struct.unpack("b", bs)] (also with the ["<b"] format): a tuple of one
    signed byte. *)
Definition struct_unpack_b (bs : list Byte.byte) : exn + list Z :=
  match bs with
  | [b] =>
      let n := Z.of_N (Byte.to_N b) in
      inr [if n <? 128 then n else n - 256]
  | _ => inl (Exception "struct.error: unpack requires a buffer of 1 bytes")
  end.

(** [struct.unpack("b", struct.pack("B", v))[0]] *)
Definition signed_byte (v : pyval) : exn + Z :=
  match struct_pack_B v with
  | inl e => inl e
  | inr bs =>
      match struct_unpack_b bs with
      | inl e => inl e
      | inr (z :: _) => inr z
      | inr [] => inl (Exception "IndexError: tuple index out of range")
      end
  end.

End Py.

(** ** String operations of the Python code

    Strings are sequences of characters of the Standard Library's [string];
    the operations below are the slices and methods the module uses. *)

Module Str.

(** [s[1:]] *)
Definition drop_first (s : string) : string :=
  match s with
  | EmptyString => EmptyString
  | String _ r => r
  end.

(** [s[:-1]] *)
Fixpoint drop_last (s : string) : string :=
  match s with
  | EmptyString => EmptyString
  | String a EmptyString => EmptyString
  | String a r => String a (drop_last r)
  end.

(** [s[1:-1]] *)
Definition strip_ends (s : string) : string := drop_last (drop_first s).

(** [s.replace(a, b)] for one-character [a] and [b] *)
Fixpoint replace (a b : ascii) (s : string) : string :=
  match s with
  | EmptyString => EmptyString
  | String c r => String (if Ascii.eqb c a then b else c) (replace a b r)
  end.

(** [sep.join(l)] *)
Fixpoint join (sep : string) (l : list string) : string :=
  match l with
  | [] => ""
  | [x] => x
  | x :: r => x +:+ sep +:+ join sep r
  end.

(** [needle in hay] *)
Fixpoint contains (needle hay : string) : bool :=
  String.prefix needle hay ||
  match hay with
  | EmptyString => false
  | String _ r => contains needle r
  end.

(** [s.find(c)] for a one-character [c]: the first index, or [-1]. *)
Fixpoint find (c : ascii) (s : string) : Z :=
  match s with
  | EmptyString => -1
  | String a r =>
      if Ascii.eqb a c then 0
      else let i := find c r in if i <? 0 then -1 else i + 1
  end.

(** [s.rsplit(c, 1)]: split at the last [c]; the whole string alone when
    [c] does not occur. *)
Fixpoint rsplit1 (c : ascii) (s : string) : list string :=
  match s with
  | EmptyString => [EmptyString]
  | String a r =>
      match rsplit1 c r with
      | [p; n] => [String a p; n]
      | _ => if Ascii.eqb a c then [EmptyString; r] else [s]
      end
  end.

(** [s.split(c)[-1]]: what follows the last [c], the whole string when
    there is none. *)
Definition after_last (c : ascii) (s : string) : string :=
  match rsplit1 c s with
  | [_; n] => n
  | _ => s
  end.

(** [s.upper()], on ASCII letters *)
Definition upper_char (a : ascii) : ascii :=
  let n := N_of_ascii a in
  if ((97 <=? n) && (n <=? 122))%N then ascii_of_N (n - 32) else a.

Fixpoint upper (s : string) : string :=
  match s with
  | EmptyString => EmptyString
  | String a r => String (upper_char a) (upper r)
  end.

(** [x in l] for a list of strings *)
Definition mem (x : string) (l : list string) : bool :=
  existsb (String.eqb x) l.

End Str.

Import Py.

(** ** Comprehensions *)

(** A list comprehension whose body may raise: the first exception ends it. *)
Fixpoint collect {A B} (f : A -> exn + B) (l : list A) : exn + list B :=
  match l with
  | [] => inr []
  | x :: r =>
      match f x with
      | inl e => inl e
      | inr y =>
          match collect f r with
          | inl e => inl e
          | inr ys => inr (y :: ys)
          end
      end
  end.

(** ** The values of annotation elements

    [get_annotation_arg], [get_annotation_value] and
    [get_annotation_type] dispatch on the class of the object they are
    given, so the objects of the frontend are one type with a constructor
    per class; the results are nested lists, strings and the pairs that
    [typen] builds. *)

Module AnnotationValue.

(** The value types of [dvm], and any other tag. *)
Inductive value_type : Type :=
  | VALUE_BYTE | VALUE_SHORT | VALUE_CHAR | VALUE_INT | VALUE_LONG
  | VALUE_FLOAT | VALUE_DOUBLE | VALUE_BOOLEAN | VALUE_NULL | VALUE_STRING
  | VALUE_TYPE | VALUE_ARRAY | VALUE_ANNOTATION | VALUE_FIELD | VALUE_METHOD
  | VALUE_ENUM
  | VALUE_OTHER (tag : Z).

#[local] Unset Elimination Schemes.

Inductive obj : Type :=
  | EncodedValue (value_type : value_type) (value : obj)
  | EncodedArray (values : list obj)
  | EncodedAnnotation (type_idx : Z) (elements : list obj)
  | AnnotationElement (name_idx : Z) (value : obj)
  | PyList (items : list obj)
  | Plain (v : pyval).

Inductive result : Type :=
  | RStr (s : string)
  | RList (l : list result)
  | typen (baset : string) (dim : Z).

#[local] Set Elimination Schemes.

(** The two look-ups of the class manager that the functions use. *)
Record CM : Type := {
  get_type : Z -> string;
  get_string : Z -> string
}.

Fixpoint get_annotation_type (encoded_value : obj) (dim : Z) : exn + result :=
  match encoded_value with
  | EncodedValue val_type value =>
      match val_type with
      | VALUE_BYTE => inr (typen ".byte" dim)
      | VALUE_SHORT => inr (typen ".short" dim)
      | VALUE_CHAR => inr (typen ".char" dim)
      | VALUE_INT => inr (typen ".int" dim)
      | VALUE_LONG => inr (typen ".long" dim)
      | VALUE_FLOAT => inr (typen ".float" dim)
      | VALUE_DOUBLE => inr (typen ".double" dim)
      | VALUE_BOOLEAN => inr (typen ".boolean" dim)
      | VALUE_NULL => inr (typen ".null" dim)
      | VALUE_STRING => inr (typen "java/lang/String" dim)
      | VALUE_TYPE => inr (typen "java/lang/Class" dim)
      | VALUE_ARRAY =>
          match value with
          | EncodedArray (first :: _) => get_annotation_type first (dim + 1)
          | EncodedArray [] => inr (typen ".null" dim)
          | _ => inl (Exception "AttributeError: get_size")
          end
      | VALUE_ANNOTATION => inr (typen "java/lang/annotation/Annotation" dim)
      | VALUE_FIELD => inr (typen "java/lang/Field" dim)
      | VALUE_METHOD => inr (typen "java/lang/Method" dim)
      | VALUE_ENUM => inr (typen "java/lang/Enum" dim)
      | VALUE_OTHER _ => inr (typen ".null" dim)
      end
  | _ => inl (Exception "AttributeError: get_value_type")
  end.

Fixpoint get_annotation_value (cm : CM) (value : obj) : exn + result :=
  match value with
  | EncodedAnnotation type_idx elements =>
      match collect (get_annotation_arg cm) elements with
      | inl e => inl e
      | inr args => inr (RList [RStr (get_type cm type_idx); RList args])
      end
  | EncodedArray values =>
      match collect (get_annotation_value cm) values with
      | inl e => inl e
      | inr l => inr (RList l)
      end
  | EncodedValue _ value | AnnotationElement _ value =>
      get_annotation_value cm value
  | PyList items =>
      match collect (get_annotation_value cm) items with
      | inl e => inl e
      | inr l => inr (RList l)
      end
  | Plain v => inr (RStr (Py.str v))
  end
with get_annotation_arg (cm : CM) (anno_element : obj) : exn + result :=
  match anno_element with
  | AnnotationElement name_idx encoded_value =>
      let arg_name := get_string cm name_idx in
      match encoded_value with
      | EncodedValue _ _ =>
          match get_annotation_value cm encoded_value with
          | inl e => inl e
          | inr arg_value =>
              match get_annotation_type encoded_value 0 with
              | inl e => inl e
              | inr arg_type => inr (RList [RStr arg_name; arg_type; arg_value])
              end
          end
      | _ => inl (Exception "UnboundLocalError: arg_type")
      end
  | _ => inl (Exception "AttributeError: get_name_idx")
  end.

(** The values as the frontend builds them: the payload of an encoded
    value has the class that its type says, and the elements of an
    annotation hold encoded values. *)
Fixpoint well_formed (o : obj) : bool :=
  match o with
  | EncodedValue VALUE_ARRAY (EncodedArray values) => forallb well_formed values
  | EncodedValue VALUE_ANNOTATION (EncodedAnnotation _ elements) =>
      forallb
        (fun x =>
           match x with
           | AnnotationElement _ (EncodedValue _ _ as v) => well_formed v
           | _ => false
           end)
        elements
  | EncodedValue VALUE_ARRAY _ | EncodedValue VALUE_ANNOTATION _ => false
  | EncodedValue _ (Plain _) => true
  | _ => false
  end.

(** An array value that holds [first] and then [others], [depth] times
    over. *)
Fixpoint nest (depth : nat) (others : list obj) (first : obj) : obj :=
  match depth with
  | O => first
  | S d => EncodedValue VALUE_ARRAY (EncodedArray (nest d others first :: others))
  end.

(** An annotation element as the frontend builds it: it holds an
    encoded value whose payloads have the class that their type says. *)
Definition element_ok (x : obj) : bool :=
  match x with
  | AnnotationElement _ (EncodedValue _ _ as v) => well_formed v
  | _ => false
  end.

(** [typen(baset, dim + k)] for [typen(baset, dim)] *)
Definition shift (k : Z) (r : result) : result :=
  match r with
  | typen baset dim => typen baset (dim + k)
  | _ => r
  end.

End AnnotationValue.

(** ** Data model *)

(** A key of [var_to_name] and of the def/use maps: a register number, or
    the name of a temporary that a dataflow pass created. *)
Inductive var : Type :=
  | Reg (n : Z)
  | Tmp (s : string).

#[global] Instance var_eq_dec : EqDecision var.
Proof. solve_decision. Defined.

#[global] Instance var_countable : Countable var :=
  inj_countable'
    (fun v => match v with Reg n => inl n | Tmp s => inr s end)
    (fun x => match x with inl n => Reg n | inr s => Tmp s end)
    (fun v => match v with Reg _ | Tmp _ => eq_refl end).

(** [isinstance(var, int)] *)
Definition is_int (v : var) : bool :=
  match v with Reg _ => true | Tmp _ => false end.

(** The types of the objects that the other modules of the package and
    the Dalvik frontend hand to this one. *)
Class ExtTypes : Type := {
  BasicBlock : Type;
  Exceptions : Type;
  Analysis : Type;
  Graph : Type;
  UseDefs : Type;
  DefUses : Type;
  Idoms : Type;
  VarObj : Type;
  Writer : Type;
  JSONWriter : Type;
  AstNode : Type;
  TypeName : Type;
  Token : Type
}.

Section Data.
Context {T : ExtTypes}.

(** The values of [var_to_name]. *)
Inductive var_entry : Type :=
  | ThisParam (reg : Z) (cls : string)
  | Param (reg : Z) (ptype : string)
  | Upper (s : string)
  | Var (v : VarObj).

Record DalvikCode : Type := {
  registers_size : Z;
  ins_size : Z
}.

(** An encoded annotation of an [AnnotationItem]: the index of its type
    and its elements, objects of the frontend. *)
Record EncodedAnnotation : Type := {
  get_type_idx : Z;
  get_obj : list AnnotationValue.obj
}.

(** The class manager, [cm.get_obj_by_offset] split by the kind of item
    each call site reads: an [AnnotationSetRefList] (the [annotations_off]
    of its items), an [AnnotationSetItem] (the [annotation_off] of its
    items) and an [AnnotationItem] (its encoded annotation). *)
Record ClassManager : Type := {
  set_ref_list_at : Z -> list Z;
  set_item_at : Z -> list Z;
  annotation_at : Z -> EncodedAnnotation;
  cm_get_type : Z -> string;
  cm_get_string : Z -> string
}.

(** A [FieldAnnotation], [MethodAnnotation] or [ParameterAnnotation] of
    the annotations directory: the index it is about and an offset. *)
Record AnnotationOff : Type := {
  get_idx : Z;
  get_annotations_off : Z
}.

Record AnnotationsDirectoryItem : Type := {
  adi_class_annotations_off : Z;
  adi_field_annotations : list AnnotationOff;
  adi_method_annotations : list AnnotationOff;
  adi_parameter_annotations : list AnnotationOff
}.

Record EncodedMethod : Type := {
  em_class_name : string;
  em_name : string;
  em_access_flags : Z;
  em_descriptor : string;
  em_triple : string * string * string;
  em_code : option DalvikCode;
  em_method_idx : Z;
  em_CM : ClassManager
}.

Record MethodAnalysis : Type := {
  get_method : EncodedMethod;
  get_basic_blocks : list BasicBlock;
  ma_exceptions : Exceptions
}.

Record EncodedValue : Type := { value : pyval }.

Record EncodedField : Type := {
  ef_class_name : string;
  ef_name : string;
  ef_descriptor : string;
  proto : string;
  ef_access_flags : Z;
  init_value : option EncodedValue;
  ef_field_idx : Z
}.

Record ClassDefItem : Type := {
  cd_name : string;
  cd_access_flags : Z;
  cd_methods : list EncodedMethod;
  cd_fields : list EncodedField;
  cd_interfaces : list string;
  cd_superclassname : option string;
  annotations_directory_item : option AnnotationsDirectoryItem;
  cd_CM : ClassManager
}.

(** [[annotation_type, annotation_objs]] *)
Definition annotation : Type := string * list AnnotationValue.result.

(** The per-method AST: the dictionary that the docstring of
    [DvMethod.get_ast] describes, one field per key. *)
Record method_ast : Type := {
  ast_triple : string * string * string;
  ast_flags : list string;
  ast_ret : TypeName;
  ast_params : list AstNode;
  ast_comments : list AstNode;
  ast_body : list AstNode
}.

Record DvMethod : Type := {
  m_method : EncodedMethod;
  m_start_block : option BasicBlock;
  m_cls_name : string;
  m_name : string;
  m_lparams : list Z;
  m_var_to_name : gmap var var_entry;
  m_adi : option AnnotationsDirectoryItem;
  m_writer : option Writer;
  m_graph : option Graph;
  m_ast : option method_ast;
  m_access : list string;
  m_type : string;
  m_params_type : list string;
  m_triple : string * string * string;
  m_exceptions : Exceptions;
  m_method_annotations : list annotation;
  m_param_annotations : list (list annotation)
}.

(** An element of [DvClass.methods]: the frontend's method, replaced by
    its [DvMethod] once it has been processed. *)
Inductive method_slot : Type :=
  | Encoded (m : EncodedMethod)
  | Decompiled (m : DvMethod).

Record DvClass : Type := {
  c_package : string;
  c_name : string;
  c_vma : Analysis;
  c_methods : list method_slot;
  c_fields : list EncodedField;
  c_inner : bool;
  c_access : list string;
  c_prototype : string;
  c_interfaces : list string;
  c_superclass : option string;
  c_thisclass : string;
  c_adi : option AnnotationsDirectoryItem;
  c_class_annotations : list annotation;
  c_field_annotations : gmap Z (list annotation)
}.

(** A call of one of the builders of [dast], with its argument: what
    [get_field_ast] asks for.  What the builder returns, or raises, is
    the collaborator's ([dast] below). *)
Inductive expr : Type :=
  | literal_string (v : pyval)
  | literal_class (v : pyval)
  | literal_bool (b : bool)
  | literal_int (v : pyval)
  | literal_hex_int (z : Z)
  | literal_long (v : pyval)
  | literal_float (v : pyval)
  | literal_double (v : pyval)
  | dummy (s : string).

(** The dictionary that [get_field_ast] returns. *)
Record field_ast : Type := {
  fa_triple : string * string * string;
  fa_type : TypeName;
  fa_flags : list string;
  fa_annotations : list annotation;
  fa_expr : option AstNode
}.

End Data.

(** ** Collaborators *)

(** The outcome of a call that may mutate the objects [S] it is handed:
    its result or the exception it raised, and the objects as it left
    them. *)
Definition outcome (A S : Type) : Type := (exn + A) * S.

Class Collab {T : ExtTypes} : Type := {
  (* the interpreter *)
  debug : bool;
  unicode_escape : string -> string;
  (* androguard.decompiler.dad.util *)
  get_access_class : Z -> list string;
  get_access_method : Z -> list string;
  get_access_field : Z -> list string;
  ACCESS_FLAGS_FIELDS : list (Z * string);
  get_params_type : string -> list string;
  get_type_size : string -> Z;
  get_type : string -> string;
  create_png : string -> string -> Graph -> string -> option exn;
  (* androguard.core *)
  method2png : string -> MethodAnalysis -> option exn;
  vma_get_method : Analysis -> EncodedMethod -> exn + MethodAnalysis;
  (* androguard.decompiler.dad.graph *)
  construct :
    BasicBlock -> gmap var var_entry -> Exceptions ->
    outcome Graph (gmap var var_entry);
  split_if_nodes : Graph -> outcome unit Graph;
  simplify : Graph -> outcome unit Graph;
  compute_rpo : Graph -> outcome unit Graph;
  immediate_dominators : Graph -> outcome Idoms Graph;
  (* androguard.decompiler.dad.dataflow *)
  build_def_use : Graph -> list Z -> outcome (UseDefs * DefUses) Graph;
  split_variables :
    Graph -> gmap var var_entry -> DefUses -> UseDefs ->
    outcome unit (Graph * gmap var var_entry * DefUses * UseDefs);
  dead_code_elimination :
    Graph -> DefUses -> UseDefs -> outcome unit (Graph * DefUses * UseDefs);
  register_propagation :
    Graph -> DefUses -> UseDefs -> outcome unit (Graph * DefUses * UseDefs);
  resolve_variables_type :
    Graph -> gmap var var_entry -> DefUses -> UseDefs ->
    outcome unit (Graph * gmap var var_entry * DefUses * UseDefs);
  new_instance_propgation :
    Graph -> DefUses -> UseDefs -> outcome unit (Graph * DefUses * UseDefs);
  place_declarations :
    Graph -> gmap var var_entry -> DefUses -> UseDefs ->
    outcome unit (Graph * gmap var var_entry * DefUses * UseDefs);
  def_uses_keys : DefUses -> list (var * Z);
  (* androguard.decompiler.dad.control_flow *)
  identify_structures : Graph -> Idoms -> outcome unit Graph;
  (* androguard.decompiler.dad.writer and dast *)
  Writer_new : option Graph -> DvMethod -> exn + Writer;
  write_method : Writer -> outcome unit Writer;
  Writer_str : Writer -> string;
  str_ext : Writer -> list Token;
  JSONWriter_new : option Graph -> DvMethod -> exn + JSONWriter;
  JSONWriter_get_ast : JSONWriter -> exn + method_ast;
  parse_descriptor : option string -> TypeName;
  (* androguard.decompiler.dad.dast: the node that the builder called
     returns, or the exception that it raises on its argument *)
  dast : expr -> exn + AstNode
}.

(** ** Annotations *)

Section Annotations.
Context {T : ExtTypes} {C : Collab}.

(** The two look-ups of the class manager that the decoding of the
    annotation values uses. *)
Definition names_of (cm : ClassManager) : AnnotationValue.CM :=
  {| AnnotationValue.get_type := cm_get_type cm;
     AnnotationValue.get_string := cm_get_string cm |}.

(** The annotation elements that the class manager holds are the
    frontend's: each holds an encoded value whose payloads have the class
    that their type says. *)
Definition frontend_elements (cm : ClassManager) : Prop :=
  forall off x,
    x ∈ get_obj (annotation_at cm off) -> AnnotationValue.element_ok x = true.

(** One encoded annotation as the pair [[annotation_type, annotation_objs]];
    the decoding of an element may raise. *)
Definition annotation_of (cm : ClassManager) (ea : EncodedAnnotation)
  : exn + annotation :=
  match collect (AnnotationValue.get_annotation_arg (names_of cm))
                (get_obj ea) with
  | inl e => inl e
  | inr annotation_objs => inr (cm_get_type cm (get_type_idx ea), annotation_objs)
  end.

(** The annotations of the [AnnotationSetItem] at offset [off]. *)
Definition annotations_of_set (cm : ClassManager) (off : Z)
  : exn + list annotation :=
  collect (fun a => annotation_of cm (annotation_at cm a)) (set_item_at cm off).

Definition get_annotations (cm : ClassManager) (annotation_offsets : list Z)
  : exn + list annotation :=
  match collect (annotations_of_set cm)
                (List.filter (fun x => negb (x =? 0)) annotation_offsets) with
  | inl e => inl e
  | inr sets => inr (concat sets)
  end.

Definition get_parameter_annotations (cm : ClassManager)
    (annotations : list AnnotationOff) : exn + list (list annotation) :=
  match collect
          (fun a =>
             collect
               (fun off =>
                  if negb (off =? 0) then annotations_of_set cm off else inr [])
               (set_ref_list_at cm (get_annotations_off a)))
          annotations with
  | inl e => inl e
  | inr lists => inr (concat lists)
  end.

End Annotations.

(** ** Field initialisers in the AST *)

Section FieldAst.
Context {T : ExtTypes} {C : Collab}.

(** The call that [get_field_ast] makes for its [expr] entry, if any: the
    chain of tests on the descriptor, in the order of the source.  The
    exception is that of [struct.pack]. *)
Definition field_expr (field : EncodedField) : exn + option expr :=
  match init_value field with
  | None => inr None
  | Some iv =>
      let val := value iv in
      match val with
      | PyNone => inr None
      | _ =>
          let descriptor := ef_descriptor field in
          if String.eqb descriptor "Ljava/lang/String;" then
            inr (Some (literal_string val))
          else if String.eqb descriptor "Z" then
            inr (Some (literal_bool (py_eq val (PyStr "True"))))
          else if Str.contains descriptor "ISC" then
            inr (Some (literal_int val))
          else if String.eqb (proto field) "B" then
            match signed_byte val with
            | inl e => inl e
            | inr z => inr (Some (literal_hex_int z))
            end
          else if Str.contains descriptor "J" then
            inr (Some (literal_long val))
          else if Str.contains descriptor "F" then
            inr (Some (literal_float val))
          else if Str.contains descriptor "D" then
            inr (Some (literal_double val))
          else if String.eqb descriptor "Ljava/lang/Class;" then
            inr (Some (literal_class val))
          else inr (Some (dummy (Py.str val)))
      end
  end.

Definition get_field_ast (field : EncodedField) (annotations : list annotation)
  : exn + field_ast :=
  let result expr :=
    {| fa_triple :=
         (Str.strip_ends (ef_class_name field), ef_name field,
          ef_descriptor field);
       fa_type := parse_descriptor (Some (ef_descriptor field));
       fa_flags := get_access_field (ef_access_flags field);
       fa_annotations := annotations;
       fa_expr := expr |} in
  match field_expr field with
  | inl e => inl e
  | inr None => inr (result None)
  | inr (Some call) =>
      match dast call with
      | inl e => inl e
      | inr node => inr (result (Some node))
      end
  end.

End FieldAst.

(** ** DvMethod *)

(** The steps of [DvMethod.process] that call into another module, and the
    registration of the temporaries in between. *)
Inductive pass : Type :=
  | Construct
  | BuildDefUse
  | SplitVariables
  | DeadCodeElimination
  | RegisterPropagation
  | ResolveVariablesType
  | NewInstancePropagation
  | RegisterTemporaries
  | PlaceDeclarations
  | SplitIfNodes
  | Simplify
  | ComputeRpo
  | ImmediateDominators
  | IdentifyStructures.

#[global] Instance pass_eq_dec : EqDecision pass.
Proof. solve_decision. Defined.

Module DvMethod.
Section with_collab.
Context {T : ExtTypes} {C : Collab}.

Abbreviation vmap := (gmap var var_entry).

(** What [process] did, in order. *)
Inductive step : Type :=
  | Run (p : pass)
  | CreatePng (dir : string)
  | NewWriter (g : option Graph)
  | WriteMethod
  | NewJSONWriter (g : option Graph)
  | GetAst.

Definition is_run (s : step) : option pass :=
  match s with Run p => Some p | _ => None end.

(** *** [__init__] *)

(** The loop over [params_type]: register [start + num_param] is appended
    to [lparams] and bound to a [Param], and [num_param] advances by the
    size of the type. *)
Fixpoint bind_params (start num_param : Z) (ptypes : list string)
    (lparams : list Z) (var_to_name : vmap) : list Z * vmap :=
  match ptypes with
  | [] => (lparams, var_to_name)
  | ptype :: rest =>
      let param := start + num_param in
      bind_params start (num_param + get_type_size ptype) rest
                  (lparams ++ [param])
                  (<[Reg param := Param param ptype]> var_to_name)
  end.

(** [lparams] and [var_to_name] after the branch on [code]. *)
Definition bind_registers (code : option DalvikCode) (access : list string)
    (cls_name : string) (params_type : list string) : list Z * vmap :=
  match code with
  | None => ([], ∅)
  | Some code =>
      let start := registers_size code - ins_size code in
      if negb (Str.mem "static" access) then
        bind_params (start + 1) 0 params_type [start]
                    (<[Reg start := ThisParam start cls_name]> ∅)
      else bind_params start 0 params_type [] ∅
  end.

(** [self.param_annotations] once the extraction returned [extracted]:
    kept when it has one entry per parameter, given an empty first entry
    when it is one short, replaced by empty lists otherwise. *)
Definition check_param_annotations (extracted : list (list annotation))
    (params_type : list string) : list (list annotation) :=
  if negb (Z.of_nat (length extracted) =? Z.of_nat (length params_type)) then
    if Z.of_nat (length params_type) - Z.of_nat (length extracted) =? 1 then
      [] :: extracted
    else repeat [] (length params_type)
  else extracted.

(** The branch on [adi]: [(method_annotations, param_annotations)], or
    the exception that the decoding of an annotation element raised. *)
Definition extract_annotations (method : EncodedMethod)
    (adi : option AnnotationsDirectoryItem) (params_type : list string)
  : exn + (list annotation * list (list annotation)) :=
  match adi with
  | Some adi =>
      let method_idx := em_method_idx method in
      let method_annotations :=
        map get_annotations_off
            (List.filter (fun x => get_idx x =? method_idx)
                         (adi_method_annotations adi)) in
      let param_annotations :=
        List.filter (fun x => get_idx x =? method_idx)
                    (adi_parameter_annotations adi) in
      match get_annotations (em_CM method) method_annotations with
      | inl e => inl e
      | inr method_annotations =>
          if 0 <? Z.of_nat (length param_annotations) then
            match get_parameter_annotations (em_CM method) param_annotations with
            | inl e => inl e
            | inr extracted =>
                inr (method_annotations,
                     check_param_annotations extracted params_type)
            end
          else inr (method_annotations, repeat [] (length params_type))
      end
  | None => inr ([], repeat [] (length params_type))
  end.

(** The object once [__init__] has assigned its attributes, [annots]
    being the annotations that the branch on [adi] extracted. *)
Definition fresh (methanalysis : MethodAnalysis)
    (adi : option AnnotationsDirectoryItem)
    (annots : list annotation * list (list annotation)) : DvMethod :=
  let method := get_method methanalysis in
  let cls_name := em_class_name method in
  let access := get_access_method (em_access_flags method) in
  let desc := em_descriptor method in
  let params_type := get_params_type desc in
  let regs := bind_registers (em_code method) access cls_name params_type in
  {| m_method := method;
     m_start_block := head (get_basic_blocks methanalysis);
     m_cls_name := cls_name;
     m_name := em_name method;
     m_lparams := fst regs;
     m_var_to_name := snd regs;
     m_adi := adi;
     m_writer := None;
     m_graph := None;
     m_ast := None;
     m_access := access;
     m_type := Str.after_last ")" desc;
     m_params_type := params_type;
     m_triple := em_triple method;
     m_exceptions := ma_exceptions methanalysis;
     m_method_annotations := fst annots;
     m_param_annotations := snd annots |}.

(** [__init__]: the attributes, with the annotations whose extraction may
    raise, then the picture of the method behind [if not __debug__]. *)
Definition __init__ (methanalysis : MethodAnalysis)
    (adi : option AnnotationsDirectoryItem) : exn + DvMethod :=
  let method := get_method methanalysis in
  match extract_annotations method adi
                            (get_params_type (em_descriptor method)) with
  | inl e => inl e
  | inr annots =>
      let self := fresh methanalysis adi annots in
      if debug then inr self
      else
        match method2png
                ("/tmp/dad/graphs/"
                   +:+ Str.drop_last (Str.after_last "/" (m_cls_name self))
                   +:+ "#" +:+ m_name self +:+ ".png")
                methanalysis with
        | Some e => inl e
        | None => inr self
        end
  end.

(** *** Attribute assignments *)

Definition set_graph (g : option Graph) (m : DvMethod) : DvMethod :=
  {| m_method := m_method m; m_start_block := m_start_block m;
     m_cls_name := m_cls_name m; m_name := m_name m;
     m_lparams := m_lparams m; m_var_to_name := m_var_to_name m;
     m_adi := m_adi m; m_writer := m_writer m; m_graph := g;
     m_ast := m_ast m; m_access := m_access m; m_type := m_type m;
     m_params_type := m_params_type m; m_triple := m_triple m;
     m_exceptions := m_exceptions m;
     m_method_annotations := m_method_annotations m;
     m_param_annotations := m_param_annotations m |}.

Definition set_var_to_name (v : vmap) (m : DvMethod) : DvMethod :=
  {| m_method := m_method m; m_start_block := m_start_block m;
     m_cls_name := m_cls_name m; m_name := m_name m;
     m_lparams := m_lparams m; m_var_to_name := v;
     m_adi := m_adi m; m_writer := m_writer m; m_graph := m_graph m;
     m_ast := m_ast m; m_access := m_access m; m_type := m_type m;
     m_params_type := m_params_type m; m_triple := m_triple m;
     m_exceptions := m_exceptions m;
     m_method_annotations := m_method_annotations m;
     m_param_annotations := m_param_annotations m |}.

Definition set_writer (w : option Writer) (m : DvMethod) : DvMethod :=
  {| m_method := m_method m; m_start_block := m_start_block m;
     m_cls_name := m_cls_name m; m_name := m_name m;
     m_lparams := m_lparams m; m_var_to_name := m_var_to_name m;
     m_adi := m_adi m; m_writer := w; m_graph := m_graph m;
     m_ast := m_ast m; m_access := m_access m; m_type := m_type m;
     m_params_type := m_params_type m; m_triple := m_triple m;
     m_exceptions := m_exceptions m;
     m_method_annotations := m_method_annotations m;
     m_param_annotations := m_param_annotations m |}.

Definition set_ast (a : option method_ast) (m : DvMethod) : DvMethod :=
  {| m_method := m_method m; m_start_block := m_start_block m;
     m_cls_name := m_cls_name m; m_name := m_name m;
     m_lparams := m_lparams m; m_var_to_name := m_var_to_name m;
     m_adi := m_adi m; m_writer := m_writer m; m_graph := m_graph m;
     m_ast := a; m_access := m_access m; m_type := m_type m;
     m_params_type := m_params_type m; m_triple := m_triple m;
     m_exceptions := m_exceptions m;
     m_method_annotations := m_method_annotations m;
     m_param_annotations := m_param_annotations m |}.

(** *** The monad of [process]

    The state is the method object and the steps taken so far.  An
    exception stops the computation and keeps the state reached. *)

Record pstate : Type := { self : DvMethod; trace : list step }.

Definition M (A : Type) : Type := pstate -> (exn + A) * pstate.

Definition ret {A} (a : A) : M A := fun s => (inr a, s).

Definition bind {A B} (m : M A) (k : A -> M B) : M B :=
  fun s =>
    match m s with
    | (inl e, s') => (inl e, s')
    | (inr a, s') => k a s'
    end.

Notation "x <- m ;; k" := (bind m (fun x => k))
  (at level 100, m at next level, right associativity).
Notation "m ;; k" := (bind m (fun _ => k))
  (at level 100, right associativity).

Definition emit (st : step) : M unit :=
  fun s => (inr tt, {| self := self s; trace := trace s ++ [st] |}).

Definition get_self : M DvMethod := fun s => (inr (self s), s).

Definition update (f : DvMethod -> DvMethod) : M unit :=
  fun s => (inr tt, {| self := f (self s); trace := trace s |}).

Definition lift {A} (r : exn + A) : M A := fun s => (r, s).

Definition check (r : option exn) : M unit :=
  lift (match r with Some e => inl e | None => inr tt end).

(** A call that is handed the graph: [self.graph] is the same object, so
    it sees what the call did, also when the call raises. *)
Definition run_graph {A} (p : pass) (f : Graph -> outcome A Graph)
    (g : Graph) : M (A * Graph) :=
  emit (Run p) ;;
  let '(r, g') := f g in
  update (set_graph (Some g')) ;;
  a <- lift r ;;
  ret (a, g').

(** A pass over the graph and the def/use maps. *)
Definition run_du (p : pass)
    (f : Graph -> DefUses -> UseDefs -> outcome unit (Graph * DefUses * UseDefs))
    (g : Graph) (def_uses : DefUses) (use_defs : UseDefs)
  : M (Graph * DefUses * UseDefs) :=
  emit (Run p) ;;
  let '(r, (g', du', ud')) := f g def_uses use_defs in
  update (set_graph (Some g')) ;;
  lift r ;;
  ret (g', du', ud').

(** A pass that is also handed [self.var_to_name]. *)
Definition run_vdu (p : pass)
    (f : Graph -> vmap -> DefUses -> UseDefs ->
         outcome unit (Graph * vmap * DefUses * UseDefs))
    (g : Graph) (def_uses : DefUses) (use_defs : UseDefs)
  : M (Graph * DefUses * UseDefs) :=
  emit (Run p) ;;
  me <- get_self ;;
  let '(r, (g', v', du', ud')) := f g (m_var_to_name me) def_uses use_defs in
  update (set_graph (Some g')) ;;
  update (set_var_to_name v') ;;
  lift r ;;
  ret (g', du', ud').

(** [util.create_png], behind [if not __debug__]. *)
Definition png (g : Graph) (dir : string) : M unit :=
  if debug then ret tt
  else
    emit (CreatePng dir) ;;
    me <- get_self ;;
    check (create_png (m_cls_name me) (m_name me) g dir).

(** The loop over the keys of [def_uses] that adds the temporaries to
    [var_to_name] under their upper-cased name. *)
Definition register_temporaries (keys : list (var * Z)) (var_to_name : vmap)
  : vmap :=
  fold_left
    (fun v (k : var * Z) =>
       match fst k with
       | Tmp s => <[Tmp s := Upper (Str.upper s)]> v
       | Reg _ => v
       end)
    keys var_to_name.

(** [Writer(graph, self)] and [write_method()], or
    [JSONWriter(graph, self).get_ast()]. *)
Definition emit_method (doAST : bool) (g : option Graph) : M unit :=
  me <- get_self ;;
  if doAST then
    emit (NewJSONWriter g) ;;
    jw <- lift (JSONWriter_new g me) ;;
    emit GetAst ;;
    a <- lift (JSONWriter_get_ast jw) ;;
    update (set_ast (Some a))
  else
    emit (NewWriter g) ;;
    w <- lift (Writer_new g me) ;;
    update (set_writer (Some w)) ;;
    emit WriteMethod ;;
    let '(r, w') := write_method w in
    update (set_writer (Some w')) ;;
    lift r.

(** *** [process] *)

(** The body of [process] for a method with code, from the construction of
    the CFG to the structured graph that is handed to the writer. *)
Definition decompile (me : DvMethod) (start_block : BasicBlock) : M Graph :=
  emit (Run Construct) ;;
  let '(r, v) := construct start_block (m_var_to_name me) (m_exceptions me) in
  update (set_var_to_name v) ;;
  graph <- lift r ;;
  update (set_graph (Some graph)) ;;
  png graph "/tmp/dad/blocks" ;;
  r <- run_graph BuildDefUse (fun g => build_def_use g (m_lparams me)) graph ;;
  let '(uses, graph) := r in
  let '(use_defs, def_uses) := uses in
  r <- run_vdu SplitVariables split_variables graph def_uses use_defs ;;
  let '(graph, def_uses, use_defs) := r in
  r <- run_du DeadCodeElimination dead_code_elimination graph def_uses use_defs ;;
  let '(graph, def_uses, use_defs) := r in
  r <- run_du RegisterPropagation register_propagation graph def_uses use_defs ;;
  let '(graph, def_uses, use_defs) := r in
  r <- run_vdu ResolveVariablesType resolve_variables_type graph def_uses use_defs ;;
  let '(graph, def_uses, use_defs) := r in
  r <- run_du NewInstancePropagation new_instance_propgation graph def_uses use_defs ;;
  let '(graph, def_uses, use_defs) := r in
  emit (Run RegisterTemporaries) ;;
  update (fun m => set_var_to_name
            (register_temporaries (def_uses_keys def_uses) (m_var_to_name m)) m) ;;
  r <- run_vdu PlaceDeclarations place_declarations graph def_uses use_defs ;;
  let '(graph, def_uses, use_defs) := r in
  r <- run_graph SplitIfNodes split_if_nodes graph ;;
  let '(_, graph) := r in
  r <- run_graph Simplify simplify graph ;;
  let '(_, graph) := r in
  r <- run_graph ComputeRpo compute_rpo graph ;;
  let '(_, graph) := r in
  png graph "/tmp/dad/pre-structured" ;;
  r <- run_graph ImmediateDominators immediate_dominators graph ;;
  let '(idoms, graph) := r in
  r <- run_graph IdentifyStructures (fun g => identify_structures g idoms) graph ;;
  let '(_, graph) := r in
  png graph "/tmp/dad/structured" ;;
  ret graph.

Definition process (doAST : bool) : M unit :=
  me <- get_self ;;
  match m_start_block me with
  | None => emit_method doAST None
  | Some start_block =>
      graph <- decompile me start_block ;;
      emit_method doAST (Some graph)
  end.

(** [process] on a method object, from an empty list of steps. *)
Definition run (doAST : bool) (m : DvMethod) : (exn + unit) * pstate :=
  process doAST {| self := m; trace := [] |}.

(** *** The fixed pipeline of the specification

    Section 4.6 of the specification lists the steps for a method with
    code.  [fixed_pipeline] is that list as one function of the data:
    each step is applied to what the step before it left, and the first
    step that raises ends it.  [process] is compared with it below. *)

(** One step: what it returns and leaves goes to the rest. *)
Definition and_then {A S B} (o : outcome A S) (k : A -> S -> exn + B)
  : exn + B :=
  match o with
  | (inl e, _) => inl e
  | (inr a, s) => k a s
  end.

Definition fixed_pipeline (me : DvMethod) (entry : BasicBlock)
  : exn + (Graph * vmap) :=
  (* 2. the CFG from the entry block, the parameter environment and the
        exception ranges *)
  and_then (construct entry (m_var_to_name me) (m_exceptions me))
    (fun graph env =>
  (* 3. build_def_use; split_variables; dead_code_elimination;
        register_propagation; resolve_variables_type;
        new_instance_propagation *)
  and_then (build_def_use graph (m_lparams me))
    (fun '(use_defs, def_uses) graph =>
  and_then (split_variables graph env def_uses use_defs)
    (fun _ '(graph, env, def_uses, use_defs) =>
  and_then (dead_code_elimination graph def_uses use_defs)
    (fun _ '(graph, def_uses, use_defs) =>
  and_then (register_propagation graph def_uses use_defs)
    (fun _ '(graph, def_uses, use_defs) =>
  and_then (resolve_variables_type graph env def_uses use_defs)
    (fun _ '(graph, env, def_uses, use_defs) =>
  and_then (new_instance_propgation graph def_uses use_defs)
    (fun _ '(graph, def_uses, use_defs) =>
  (* 4. the new temporaries go into the naming environment *)
  let env := register_temporaries (def_uses_keys def_uses) env in
  (* 5. place_declarations *)
  and_then (place_declarations graph env def_uses use_defs)
    (fun _ '(graph, env, def_uses, use_defs) =>
  (* 6. split_if_nodes; simplify; compute_rpo *)
  and_then (split_if_nodes graph) (fun _ graph =>
  and_then (simplify graph) (fun _ graph =>
  and_then (compute_rpo graph) (fun _ graph =>
  (* 7. identify_structures(graph, immediate_dominators()) *)
  and_then (immediate_dominators graph) (fun idoms graph =>
  and_then (identify_structures graph idoms) (fun _ graph =>
  inr (graph, env)))))))))))))).

(** [m] from the state [s] against the outcome [r] of steps of the
    fixed pipeline: [m] raises when a step raises, with the same
    exception unless a picture of the graph failed first, and when [m]
    returns, the graph and the environment are those of the pipeline,
    stored in the method. *)
Definition refines (m : M Graph) (r : exn + (Graph * vmap))
    (s : pstate) : Prop :=
  match r with
  | inl e => exists e', (m s).1 = inl e' /\ (debug = true -> e' = e)
  | inr (g, env) =>
      match (m s).1 with
      | inl _ => debug = false
      | inr g' =>
          g' = g /\ m_graph (self (m s).2) = Some g
          /\ m_var_to_name (self (m s).2) = env
      end
  end.

(** [refines] from every state that has [g0] in [self.graph], the steps
    starting from the naming environment of the method. *)
Definition agrees (g0 : Graph) (m : M Graph)
    (spec : vmap -> exn + (Graph * vmap)) : Prop :=
  forall s, m_graph (self s) = Some g0 -> refines m (spec (m_var_to_name (self s))) s.

(** *** The order of the passes *)

(** The order in which [process] calls the passes. *)
Definition pipeline : list pass :=
  [Construct; BuildDefUse; SplitVariables; DeadCodeElimination;
   RegisterPropagation; ResolveVariablesType; NewInstancePropagation;
   RegisterTemporaries; PlaceDeclarations; SplitIfNodes; Simplify;
   ComputeRpo; ImmediateDominators; IdentifyStructures].

(** The passes among the steps taken. *)
Definition passes_run (t : list step) : list pass := omap is_run t.

(** [m] calls the passes [ps] in this order and no other; it calls fewer
    of them only when it raises. *)
Definition runs {A} (ps : list pass) (m : M A) : Prop :=
  forall s,
    exists done,
      passes_run (trace (m s).2) = (passes_run (trace s) ++ done)%list
      /\ done `prefix_of` ps
      /\ (forall a, (m s).1 = inr a -> done = ps).

(** [m] leaves the attribute [f] of the method as it was. *)
Definition preserves {A X} (f : DvMethod -> X) (m : M A) : Prop :=
  forall s, f (self (m s).2) = f (self s).

(** From a state that satisfies [P], when [m] returns [a] the state it
    leaves satisfies [Q a]. *)
Definition ensures {A} (P : pstate -> Prop) (m : M A)
    (Q : A -> pstate -> Prop) : Prop :=
  forall s a s', P s -> m s = (inr a, s') -> Q a s'.

(** The registers that the parameters occupy by the data model: the
    first one at [start], each next one after the registers of the
    previous type. *)
Fixpoint expected_registers (size : string -> Z) (start : Z)
    (ptypes : list string) : list Z :=
  match ptypes with
  | [] => []
  | t :: rest => start :: expected_registers size (start + size t) rest
  end.

(** The number of input registers that a receiver and parameters of the
    types [ptypes] need. *)
Definition registers_needed (size : string -> Z) (this : bool)
    (ptypes : list string) : Z :=
  (if this then 1 else 0) + foldr (fun t n => size t + n) 0 ptypes.

(** [get_ast], [get_source] and [get_source_ext] *)
Definition get_ast (m : DvMethod) : option method_ast := m_ast m.

Definition get_source (m : DvMethod) : string :=
  match m_writer m with
  | Some w => Writer_str w
  | None => ""
  end.

Definition get_source_ext (m : DvMethod) : list Token :=
  match m_writer m with
  | Some w => str_ext w
  | None => []
  end.

End with_collab.
End DvMethod.

(** ** DvClass *)

(** [l[i]] with Python's indexing: a negative index counts from the end,
    [None] stands for [IndexError]. *)
Definition py_getitem {A} (l : list A) (i : Z) : option (nat * A) :=
  let j := if i <? 0 then i + Z.of_nat (length l) else i in
  if 0 <=? j then
    match l !! Z.to_nat j with
    | Some x => Some (Z.to_nat j, x)
    | None => None
    end
  else None.

(** The line feed and the double quote of the format strings. *)
Definition nl : string := String "010"%char EmptyString.
Definition dq : string := String "034"%char EmptyString.

Module DvClass.
Section with_collab.
Context {T : ExtTypes} {C : Collab}.

(** The arguments of a [logger.warning] call of [process]:
    ['Error decompiling method %s: %s'] with the method and the exception. *)
Inductive log_record : Type :=
  | Warning (method : method_slot) (e : exn).

(** The values of the dictionary that [get_ast] returns. *)
Inductive ast_value : Type :=
  | AStr (s : string)
  | AType (t : TypeName)
  | AFlags (l : list string)
  | ABool (b : bool)
  | ATypes (l : list TypeName)
  | AAnnotations (l : list annotation)
  | AFields (l : list field_ast)
  | AMethods (l : list method_ast).

(** The tuples of [get_source_ext]. *)
Inductive tok : Type :=
  | Tok (tag text : string)
  | TokPackage (tag text package : string)
  | TokField (tag text f_type : string) (field : EncodedField).

Inductive ext_item : Type :=
  | Item (tag : string) (toks : list tok)
  | MethodItem (tag : string) (toks : list Token).

Definition set_methods (ms : list method_slot) (c : DvClass) : DvClass :=
  {| c_package := c_package c; c_name := c_name c; c_vma := c_vma c;
     c_methods := ms; c_fields := c_fields c; c_inner := c_inner c;
     c_access := c_access c; c_prototype := c_prototype c;
     c_interfaces := c_interfaces c; c_superclass := c_superclass c;
     c_thisclass := c_thisclass c; c_adi := c_adi c;
     c_class_annotations := c_class_annotations c;
     c_field_annotations := c_field_annotations c |}.

(** *** [__init__] *)

(** The dictionary comprehension over the field annotations of the
    directory, from the entries [l] that remain: a later entry for the
    same field replaces an earlier one, and the first exception ends it. *)
Fixpoint field_annotations_loop (cm : ClassManager) (field_idxes : list Z)
    (l : list AnnotationOff) (m : gmap Z (list annotation))
  : exn + gmap Z (list annotation) :=
  match l with
  | [] => inr m
  | x :: rest =>
      if existsb (Z.eqb (get_idx x)) field_idxes then
        match get_annotations cm [get_annotations_off x] with
        | inl e => inl e
        | inr a => field_annotations_loop cm field_idxes rest (<[get_idx x := a]> m)
        end
      else field_annotations_loop cm field_idxes rest m
  end.

Definition field_annotations_of (cm : ClassManager) (field_idxes : list Z)
    (l : list AnnotationOff) : exn + gmap Z (list annotation) :=
  field_annotations_loop cm field_idxes l ∅.

(** The branch on [self.adi]: [(class_annotations, field_annotations)]. *)
Definition init_annotations (dvclass : ClassDefItem)
  : exn + (list annotation * gmap Z (list annotation)) :=
  match annotations_directory_item dvclass with
  | Some adi =>
      match get_annotations (cd_CM dvclass) [adi_class_annotations_off adi] with
      | inl e => inl e
      | inr class_annotations =>
          match field_annotations_of (cd_CM dvclass)
                                     (map ef_field_idx (cd_fields dvclass))
                                     (adi_field_annotations adi) with
          | inl e => inl e
          | inr field_annotations => inr (class_annotations, field_annotations)
          end
      end
  | None => inr ([], ∅)
  end.

Definition __init__ (dvclass : ClassDefItem) (vma : Analysis) : exn + DvClass :=
  let name := cd_name dvclass in
  match (if 0 <? Str.find "/" name then Str.rsplit1 "/" name else [""; name]) with
  | [pckg; name] =>
      let name := Str.drop_last name in
      let access := cd_access_flags dvclass in
      let interface := negb (Z.land 0x200 access =? 0) in
      let access :=
        if interface && negb (Z.land access 0x400 =? 0)
        then access - 0x400 else access in
      let access := get_access_class access in
      let fields := cd_fields dvclass in
      match init_annotations dvclass with
      | inl e => inl e
      | inr annots =>
          inr {| c_package := Str.replace "/" "." (Str.drop_first pckg);
                 c_name := name;
                 c_vma := vma;
                 c_methods := map Encoded (cd_methods dvclass);
                 c_fields := fields;
                 c_inner := false;
                 c_access := access;
                 c_prototype :=
                   if interface then Str.join " " access +:+ " " +:+ name
                   else Str.join " " access +:+ " class " +:+ name;
                 c_interfaces := cd_interfaces dvclass;
                 c_superclass := cd_superclassname dvclass;
                 c_thisclass := cd_name dvclass;
                 c_adi := annotations_directory_item dvclass;
                 c_class_annotations := fst annots;
                 c_field_annotations := snd annots |}
      end
  | _ => inl (Exception "ValueError: not enough values to unpack")
  end.

Definition get_methods (c : DvClass) : list method_slot := c_methods c.

(** *** [process_method] and [process] *)

(** [process] on the method object in slot [i]: the object in the list is
    the one that is mutated, whether or not the call raises. *)
Definition run_process (doAST : bool) (i : nat) (m : DvMethod) (c : DvClass)
  : option exn * DvClass :=
  let '(r, s) := DvMethod.run doAST m in
  (match r with inl e => Some e | inr _ => None end,
   set_methods (<[i := Decompiled (DvMethod.self s)]> (c_methods c)) c).

Definition process_method (num : Z) (doAST : bool) (c : DvClass)
  : option exn * DvClass :=
  match py_getitem (c_methods c) num with
  | None => (Some (Exception "IndexError: list index out of range"), c)
  | Some (i, Encoded method) =>
      match vma_get_method (c_vma c) method with
      | inl e => (Some e, c)
      | inr methanalysis =>
          match DvMethod.__init__ methanalysis (c_adi c) with
          | inl e => (Some e, c)
          | inr m => run_process doAST i m c
          end
      end
  | Some (i, Decompiled m) => run_process doAST i m c
  end.

(** The loop of [process] over the indices [idxs] that remain. *)
Fixpoint process_loop (idxs : list nat) (doAST : bool) (c : DvClass)
    (log : list log_record) : option exn * (DvClass * list log_record) :=
  match idxs with
  | [] => (None, (c, log))
  | i :: rest =>
      let '(r, c') := process_method (Z.of_nat i) doAST c in
      match r with
      | None => process_loop rest doAST c' log
      | Some e =>
          if is_Exception e then
            match c_methods c' !! i with
            | Some m => process_loop rest doAST c' (log ++ [Warning m e])
            | None =>
                (Some (Exception "IndexError: list index out of range"),
                 (c', log))
            end
          else (Some e, (c', log))
      end
  end.

Definition process (doAST : bool) (c : DvClass)
  : option exn * (DvClass * list log_record) :=
  process_loop (seq 0 (length (c_methods c))) doAST c [].

(** *** [get_ast] *)

(** [isinstance(m, DvMethod) and m.ast]: the method's AST when it has one.
    An AST is a dictionary with six keys, hence true. *)
Definition ast_of_slot (m : method_slot) : option method_ast :=
  match m with
  | Decompiled m => DvMethod.get_ast m
  | Encoded _ => None
  end.

Definition get_ast (c : DvClass) : exn + list (string * ast_value) :=
  match collect
          (fun f => get_field_ast f
                      (default [] (c_field_annotations c !! ef_field_idx f)))
          (c_fields c) with
  | inl e => inl e
  | inr fields =>
      let methods := omap ast_of_slot (c_methods c) in
      let isInterface := Str.mem "interface" (c_access c) in
      inr [ ("rawname", AStr (Str.strip_ends (c_thisclass c)));
            ("name", AType (parse_descriptor (Some (c_thisclass c))));
            ("super", AType (parse_descriptor (c_superclass c)));
            ("flags", AFlags (c_access c));
            ("isInterface", ABool isInterface);
            ("interfaces",
             ATypes (map (fun i => parse_descriptor (Some i)) (c_interfaces c)));
            ("annotations", AAnnotations (c_class_annotations c));
            ("fields", AFields fields);
            ("methods", AMethods methods) ]
  end.

(** *** [get_source] *)

(** [n[1:-1].replace('/', '.')] *)
Definition dotted (n : string) : string :=
  Str.replace "/" "." (Str.strip_ends n).

(** The prototype with its [extends] and [implements] clauses. *)
Definition full_prototype (c : DvClass) : string :=
  let prototype :=
    match c_superclass c with
    | Some superclass =>
        if negb (String.eqb superclass "Ljava/lang/Object;")
        then c_prototype c +:+ " extends " +:+ dotted superclass
        else c_prototype c
    | None => c_prototype c
    end in
  if 0 <? Z.of_nat (length (c_interfaces c))
  then prototype +:+ " implements " +:+ Str.join ", " (map dotted (c_interfaces c))
  else prototype.

(** The text of the initial value [v] of a field, as [get_source] puts it
    after the [=]. *)
Definition value_source (f_type : string) (field : EncodedField) (v : pyval)
  : exn + string :=
  if String.eqb f_type "String" then
    if truthy v then inr (dq +:+ unicode_escape (Py.str v) +:+ dq)
    else inr (dq +:+ dq)
  else if String.eqb (proto field) "B" then
    match signed_byte v with
    | inl e => inl e
    | inr z => inr (Py.hex z)
    end
  else inr (Py.str v).

(** What the loop body of [get_source] appends for one field. *)
Definition field_source (field : EncodedField) : exn + string :=
  let name := ef_name field in
  let access := get_access_field (ef_access_flags field) in
  let f_type := get_type (ef_descriptor field) in
  let indent :=
    match access with
    | [] => "    "
    | _ => "    " +:+ Str.join " " access +:+ " "
    end in
  match init_value field with
  | Some iv =>
      match value_source f_type field (value iv) with
      | inl e => inl e
      | inr v =>
          inr (indent +:+ f_type +:+ " " +:+ name +:+ " = " +:+ v +:+ ";" +:+ nl)
      end
  | None => inr (indent +:+ f_type +:+ " " +:+ name +:+ ";" +:+ nl)
  end.

(** What the second loop appends for one entry of [methods]. *)
Definition method_source (m : method_slot) : string :=
  match m with
  | Decompiled m => DvMethod.get_source m
  | Encoded _ => ""
  end.

Definition get_source (c : DvClass) : exn + string :=
  let package :=
    if negb (c_inner c) && negb (String.eqb (c_package c) "")
    then "package " +:+ c_package c +:+ ";" +:+ nl
    else "" in
  match collect field_source (c_fields c) with
  | inl e => inl e
  | inr fields =>
      inr (package +:+ full_prototype c +:+ " {" +:+ nl
             +:+ String.concat "" fields
             +:+ String.concat "" (map method_source (c_methods c))
             +:+ "}" +:+ nl)
  end.

(** *** [get_source_ext] *)

(** The [FIELD_VALUE] text of the initial value [v]; the [encode] of a
    true value that is not a [str] raises [AttributeError]. *)
Definition value_source_ext (f_type : string) (field : EncodedField) (v : pyval)
  : exn + string :=
  if String.eqb f_type "String" then
    if truthy v then
      match v with
      | PyStr s => inr (" = " +:+ dq +:+ unicode_escape s +:+ dq)
      | _ => inl (Exception "AttributeError: object has no attribute 'encode'")
      end
    else inr (" = " +:+ dq +:+ dq)
  else if String.eqb (proto field) "B" then
    match signed_byte v with
    | inl e => inl e
    | inr z => inr (" = " +:+ Py.hex z)
    end
  else inr (" = " +:+ Py.str v).

Definition field_source_ext (field : EncodedField) : exn + ext_item :=
  let access :=
    map snd
        (List.filter (fun e => negb (Z.land (fst e) (ef_access_flags field) =? 0))
                     ACCESS_FLAGS_FIELDS) in
  let f_type := get_type (ef_descriptor field) in
  let name := ef_name field in
  let access_str :=
    match access with
    | [] => "    "
    | _ => "    " +:+ Str.join " " access +:+ " "
    end in
  let value :=
    match init_value field with
    | Some iv =>
        match value_source_ext f_type field (value iv) with
        | inl e => inl e
        | inr v => inr (Some v)
        end
    | None => inr None
    end in
  match value with
  | inl e => inl e
  | inr (Some v) =>
      if negb (String.eqb v "") then
        inr (Item "FIELD"
               [Tok "FIELD_ACCESS" access_str; Tok "FIELD_TYPE" f_type;
                Tok "SPACE" " "; TokField "NAME_FIELD" name f_type field;
                Tok "FIELD_VALUE" v; Tok "FIELD_END" (";" +:+ nl)])
      else
        inr (Item "FIELD"
               [Tok "FIELD_ACCESS" access_str; Tok "FIELD_TYPE" f_type;
                Tok "SPACE" " "; TokField "NAME_FIELD" name f_type field;
                Tok "FIELD_END" (";" +:+ nl)])
  | inr None =>
      inr (Item "FIELD"
             [Tok "FIELD_ACCESS" access_str; Tok "FIELD_TYPE" f_type;
              Tok "SPACE" " "; TokField "NAME_FIELD" name f_type field;
              Tok "FIELD_END" (";" +:+ nl)])
  end.

(** The [NAME_INTERFACE] entries, a [COMMA] before all but the first. *)
Fixpoint interface_toks (first : bool) (l : list string) : list tok :=
  match l with
  | [] => []
  | i :: r =>
      ((if first then [] else [Tok "COMMA" ", "])
         ++ Tok "NAME_INTERFACE" (dotted i) :: interface_toks false r)%list
  end.

Definition method_source_ext (m : method_slot) : list ext_item :=
  match m with
  | Decompiled m => [MethodItem "METHOD" (DvMethod.get_source_ext m)]
  | Encoded _ => []
  end.

Definition get_source_ext (c : DvClass) : exn + list ext_item :=
  let package :=
    if negb (c_inner c) && negb (String.eqb (c_package c) "")
    then [Item "PACKAGE"
            [Tok "PACKAGE_START" "package "; Tok "NAME_PACKAGE" (c_package c);
             Tok "PACKAGE_END" (";" +:+ nl)]]
    else [] in
  let extend :=
    match c_superclass c with
    | Some superclass =>
        if negb (String.eqb superclass "Ljava/lang/Object;")
        then [Tok "EXTEND" " extends ";
              Tok "NAME_SUPERCLASS" (dotted superclass)]
        else []
    | None => []
    end in
  let implements :=
    if 0 <? Z.of_nat (length (c_interfaces c))
    then Tok "IMPLEMENTS" " implements " :: interface_toks true (c_interfaces c)
    else [] in
  let list_proto :=
    ([Tok "PROTOTYPE_ACCESS" (Str.join " " (c_access c) +:+ " class ");
      TokPackage "NAME_PROTOTYPE" (c_name c) (c_package c)]
       ++ extend ++ implements ++ [Tok "PROTOTYPE_END" (" {" +:+ nl)])%list in
  match collect field_source_ext (c_fields c) with
  | inl e => inl e
  | inr fields =>
      inr (package ++ [Item "PROTOTYPE" list_proto] ++ fields
             ++ flat_map method_source_ext (c_methods c)
             ++ [Item "CLASS_END" [Tok "CLASS_END" ("}" +:+ nl)]])%list
  end.

(** *** The loop of [process], call by call *)

(** The class after [process_method] on each index of [idxs] in turn,
    whatever the calls raise. *)
Definition process_all (idxs : list nat) (doAST : bool) (c : DvClass) : DvClass :=
  fold_left (fun c i => (process_method (Z.of_nat i) doAST c).2) idxs c.

(** The warnings for the calls that raise, in the order of [idxs]. *)
Fixpoint warnings (idxs : list nat) (doAST : bool) (c : DvClass)
  : list log_record :=
  match idxs with
  | [] => []
  | i :: rest =>
      let '(r, c') := process_method (Z.of_nat i) doAST c in
      match r, c_methods c' !! i with
      | Some e, Some m => Warning m e :: warnings rest doAST c'
      | _, _ => warnings rest doAST c'
      end
  end.

(** No call on the indices [idxs] raises anything that [except Exception]
    lets through. *)
Fixpoint raises_only_Exception (idxs : list nat) (doAST : bool) (c : DvClass)
  : bool :=
  match idxs with
  | [] => true
  | i :: rest =>
      let '(r, c') := process_method (Z.of_nat i) doAST c in
      match r with
      | Some e => is_Exception e
      | None => true
      end && raises_only_Exception rest doAST c'
  end.


(** The keys of the dictionary of [get_ast]. *)
Definition ast_keys : list string :=
  ["rawname"; "name"; "super"; "flags"; "isInterface"; "interfaces";
   "annotations"; "fields"; "methods"].

(** [d.get(k)] on a dictionary kept as the list of its items. *)
Fixpoint dict_get {V} (k : string) (d : list (string * V)) : option V :=
  match d with
  | [] => None
  | (k', v) :: r => if String.eqb k' k then Some v else dict_get k r
  end.

(** The text of a token of [get_source_ext], its second component. *)
Definition tok_text (t : tok) : string :=
  match t with
  | Tok _ text | TokPackage _ text _ | TokField _ text _ _ => text
  end.

End with_collab.
End DvClass.

(** ** DvMachine *)

Module DvMachine.
Section with_collab.
Context {T : ExtTypes} {C : Collab}.

(** A value of [classes]: the frontend's class, replaced by its [DvClass]
    once it has been asked for. *)
Inductive class_slot : Type :=
  | Raw (klass : ClassDefItem)
  | Wrapped (klass : DvClass).

(** The machine: [classes] is a dictionary, kept as the list of its items
    in insertion order. *)
Record DvMachine : Type := {
  vma : Analysis;
  classes : list (string * class_slot)
}.

(** [d[name] = v] for a key that may be in the dictionary: the entry keeps
    its place, a new key goes last. *)
Fixpoint dict_set {V} (name : string) (v : V) (d : list (string * V))
  : list (string * V) :=
  match d with
  | [] => [(name, v)]
  | (k, x) :: r =>
      if String.eqb k name then (k, v) :: r else (k, x) :: dict_set name v r
  end.

Definition get_classes (machine : DvMachine) : list string :=
  map fst (classes machine).

(** The loop of [get_class] over the items that remain; [None] is the
    [None] that Python returns when the loop ends without a [return]. *)
Fixpoint get_class_loop (class_name : string) (items : list (string * class_slot))
    (machine : DvMachine) : (exn + option DvClass) * DvMachine :=
  match items with
  | [] => (inr None, machine)
  | (name, klass) :: rest =>
      if Str.contains class_name name then
        match klass with
        | Wrapped klass => (inr (Some klass), machine)
        | Raw klass =>
            match DvClass.__init__ klass (vma machine) with
            | inl e => (inl e, machine)
            | inr dvclass =>
                (inr (Some dvclass),
                 {| vma := vma machine;
                    classes := dict_set name (Wrapped dvclass) (classes machine) |})
            end
        end
      else get_class_loop class_name rest machine
  end.

Definition get_class (class_name : string) (machine : DvMachine)
  : (exn + option DvClass) * DvMachine :=
  get_class_loop class_name (classes machine) machine.

(** *** [process] and [get_ast] *)

(** [DvClass(klass, self.vma)], for a value that is not a [DvClass] yet. *)
Definition wrap (machine : DvMachine) (klass : class_slot) : exn + DvClass :=
  match klass with
  | Wrapped klass => inr klass
  | Raw klass => DvClass.__init__ klass (vma machine)
  end.

(** The loop of [process] over the items that remain: the class is put
    in the map before it is processed, and it is the object in the map
    that [DvClass.process] works on. *)
Fixpoint process_loop (items : list (string * class_slot)) (machine : DvMachine)
    (log : list DvClass.log_record)
  : option exn * (DvMachine * list DvClass.log_record) :=
  match items with
  | [] => (None, (machine, log))
  | (name, klass) :: rest =>
      match wrap machine klass with
      | inl e => (Some e, (machine, log))
      | inr dvclass =>
          let '(r, (dvclass, warnings)) := DvClass.process false dvclass in
          let machine :=
            {| vma := vma machine;
               classes := dict_set name (Wrapped dvclass) (classes machine) |} in
          match r with
          | Some e => (Some e, (machine, (log ++ warnings)%list))
          | None => process_loop rest machine (log ++ warnings)%list
          end
      end
  end.

Definition process (machine : DvMachine)
  : option exn * (DvMachine * list DvClass.log_record) :=
  process_loop (classes machine) machine [].

(** [sorted(d.items())]: the items by increasing name.  The names of a
    dictionary are distinct, so the order of the names decides. *)
Definition sorted_items {V} (d : list (string * V)) : list (string * V) :=
  merge_sort (fun a b => String.le a.1 b.1) d.

(** The loop of [get_ast] over the sorted items that remain: a class that
    is wrapped here is not put in the map; one that was in the map is
    processed where it is. *)
Fixpoint get_ast_loop (items : list (string * class_slot)) (machine : DvMachine)
    (ret : list (string * list (string * DvClass.ast_value)))
    (log : list DvClass.log_record)
  : (exn + list (string * list (string * DvClass.ast_value)))
    * (DvMachine * list DvClass.log_record) :=
  match items with
  | [] => (inr ret, (machine, log))
  | (name, klass) :: rest =>
      match wrap machine klass with
      | inl e => (inl e, (machine, log))
      | inr cls =>
          let '(r, (cls, warnings)) := DvClass.process true cls in
          let machine :=
            match klass with
            | Wrapped _ =>
                {| vma := vma machine;
                   classes := dict_set name (Wrapped cls) (classes machine) |}
            | Raw _ => machine
            end in
          match r with
          | Some e => (inl e, (machine, (log ++ warnings)%list))
          | None =>
              match DvClass.get_ast cls with
              | inl e => (inl e, (machine, (log ++ warnings)%list))
              | inr ast =>
                  get_ast_loop rest machine (dict_set name ast ret)
                               (log ++ warnings)%list
              end
          end
      end
  end.

Definition get_ast (machine : DvMachine)
  : (exn + list (string * list (string * DvClass.ast_value)))
    * (DvMachine * list DvClass.log_record) :=
  get_ast_loop (sorted_items (classes machine)) machine [] [].

End with_collab.
End DvMachine.

(** ** A concrete instance of the collaborators

    Used by the examples: passes that only count their calls on the graph,
    a writer that prints a prototype, and a choice of the passes that
    raise. *)

Module Sample.

Definition types : ExtTypes := {|
  BasicBlock := unit;
  Exceptions := unit;
  Analysis := unit;
  Graph := list pass;
  UseDefs := unit;
  DefUses := list (var * Z);
  Idoms := unit;
  VarObj := unit;
  Writer := string;
  JSONWriter := (string * string * string) * list string;
  AstNode := string;
  TypeName := option string;
  Token := string
|}.

#[local] Existing Instance types.

(** The names of the flags set in [flags], from a table. *)
Definition flag_names (table : list (Z * string)) (flags : Z) : list string :=
  map snd (List.filter (fun e => negb (Z.land (fst e) flags =? 0)) table).

Definition access_table : list (Z * string) :=
  [(0x1, "public"); (0x2, "private"); (0x8, "static"); (0x10, "final");
   (0x200, "interface"); (0x400, "abstract")].

(** The text before the first [c]: [s.split(c)[0]]. *)
Fixpoint before (c : ascii) (s : string) : string :=
  match s with
  | EmptyString => EmptyString
  | String a r => if Ascii.eqb a c then EmptyString else String a (before c r)
  end.

(** [util.get_params_type]: the types between the parentheses of the
    descriptor, which white space separates. *)
Definition params_of (desc : string) : list string :=
  String.words (Str.drop_first (before ")" desc)).

Definition size_of (t : string) : Z :=
  if String.eqb t "J" || String.eqb t "D" then 2 else 1.

Definition type_of (desc : string) : string :=
  if String.eqb desc "B" then "byte"
  else if String.eqb desc "Z" then "boolean"
  else if String.eqb desc "I" then "int"
  else if String.eqb desc "Ljava/lang/String;" then "String"
  else desc.

(** The builders of [dast] as text; [literal_string] encodes its
    argument, which only a [str] can do. *)
Definition build (e : expr) : exn + string :=
  match e with
  | literal_string (PyStr s) => inr (dq +:+ s +:+ dq)
  | literal_string _ =>
      inl (Exception "AttributeError: object has no attribute 'encode'")
  | literal_class v => inr (Py.str v)
  | literal_bool b => inr (if b then "true" else "false")
  | literal_int v => inr (Py.str v)
  | literal_hex_int z => inr (Py.hex z)
  | literal_long v => inr (Py.str v +:+ "L")
  | literal_float v => inr (Py.str v +:+ "f")
  | literal_double v => inr (Py.str v)
  | dummy s => inr s
  end.

(** The graph of the sample is the list of the passes that it went
    through.  A pass raises what [fails] says, and writes its name on the
    graph otherwise. *)
Definition step_graph (fails : pass -> option exn) (p : pass) (g : list pass)
  : outcome unit (list pass) :=
  match fails p with
  | Some e => (inl e, g)
  | None => (inr tt, (g ++ [p])%list)
  end.

Definition step_du (fails : pass -> option exn) (p : pass)
    (g : list pass) (du : list (var * Z)) (ud : unit)
  : outcome unit (list pass * list (var * Z) * unit) :=
  match fails p with
  | Some e => (inl e, (g, du, ud))
  | None => (inr tt, ((g ++ [p])%list, du, ud))
  end.

(** A pass that is handed the naming environment also writes
    [RegisterTemporaries] before its name when it finds the temporary
    [tmp0] registered. *)
Definition step_vdu (fails : pass -> option exn) (p : pass)
    (g : list pass) (v : gmap var var_entry) (du : list (var * Z)) (ud : unit)
  : outcome unit (list pass * gmap var var_entry * list (var * Z) * unit) :=
  match fails p with
  | Some e => (inl e, (g, v, du, ud))
  | None =>
      (inr tt,
       ((g ++ (if decide (is_Some (v !! Tmp "tmp0"))
               then [RegisterTemporaries; p] else [p]))%list,
        v, du, ud))
  end.

Definition collab (fails : pass -> option exn) : Collab := {|
  debug := true;
  unicode_escape := fun s => s;
  get_access_class := flag_names access_table;
  get_access_method := flag_names access_table;
  get_access_field := flag_names access_table;
  ACCESS_FLAGS_FIELDS := access_table;
  get_params_type := params_of;
  get_type_size := size_of;
  get_type := type_of;
  create_png := fun _ _ _ _ => None;
  method2png := fun _ _ => None;
  vma_get_method := fun _ method =>
    inr {| get_method := method;
           get_basic_blocks :=
             match em_code method with Some _ => [tt] | None => [] end;
           ma_exceptions := tt |};
  construct := fun _ v _ =>
    match fails Construct with
    | Some e => (inl e, v)
    | None => (inr [Construct], v)
    end;
  split_if_nodes := step_graph fails SplitIfNodes;
  simplify := step_graph fails Simplify;
  compute_rpo := step_graph fails ComputeRpo;
  immediate_dominators := fun g =>
    match fails ImmediateDominators with
    | Some e => (inl e, g)
    | None => (inr tt, (g ++ [ImmediateDominators])%list)
    end;
  build_def_use := fun g _ =>
    match fails BuildDefUse with
    | Some e => (inl e, g)
    | None => (inr (tt, [(Tmp "tmp0", 3)]), (g ++ [BuildDefUse])%list)
    end;
  split_variables := step_vdu fails SplitVariables;
  dead_code_elimination := step_du fails DeadCodeElimination;
  register_propagation := step_du fails RegisterPropagation;
  resolve_variables_type := step_vdu fails ResolveVariablesType;
  new_instance_propgation := step_du fails NewInstancePropagation;
  place_declarations := step_vdu fails PlaceDeclarations;
  def_uses_keys := fun du => du;
  identify_structures := fun g _ => step_graph fails IdentifyStructures g;
  Writer_new := fun _ m => inr (m_type m +:+ " " +:+ m_name m +:+ "()");
  write_method := fun w => (inr tt, w +:+ " { }" +:+ nl);
  Writer_str := fun w => w;
  str_ext := fun w => [w];
  JSONWriter_new := fun _ m => inr (m_triple m, m_access m);
  JSONWriter_get_ast := fun jw =>
    inr {| ast_triple := fst jw; ast_flags := snd jw; ast_ret := None;
           ast_params := []; ast_comments := []; ast_body := [] |};
  parse_descriptor := fun d => d;
  dast := build
|}.

(** No pass raises. *)
Definition sound : pass -> option exn := fun _ => None.

(** [simplify] raises a [ValueError]. *)
Definition broken : pass -> option exn :=
  fun p => match p with
           | Simplify => Some (Exception "ValueError")
           | _ => None
           end.

Definition cm : ClassManager := {|
  set_ref_list_at := fun off => if off =? 7 then [0] else [0; 0];
  set_item_at := fun _ => [];
  annotation_at := fun _ => {| get_type_idx := 0; get_obj := [] |};
  cm_get_type := fun _ => "Ljava/lang/Deprecated;";
  cm_get_string := fun _ => "value"
|}.

Definition code : DalvikCode := {| registers_size := 7; ins_size := 5 |}.

(** [long sum(int, long, int)], an instance method with five input
    registers. *)
Definition sum : EncodedMethod := {|
  em_class_name := "Lfoo/Bar;";
  em_name := "sum";
  em_access_flags := 0x1;
  em_descriptor := "(I J I)J";
  em_triple := ("Lfoo/Bar;", "sum", "(I J I)J");
  em_code := Some code;
  em_method_idx := 4;
  em_CM := cm
|}.

(** [native void poke()] *)
Definition poke : EncodedMethod := {|
  em_class_name := "Lfoo/Bar;";
  em_name := "poke";
  em_access_flags := 0x1;
  em_descriptor := "()V";
  em_triple := ("Lfoo/Bar;", "poke", "()V");
  em_code := None;
  em_method_idx := 5;
  em_CM := cm
|}.

Definition field (name descriptor : string) (v : option pyval) : EncodedField := {|
  ef_class_name := "Lfoo/Bar;";
  ef_name := name;
  ef_descriptor := descriptor;
  proto := descriptor;
  ef_access_flags := 0x2;
  init_value := option_map (fun v => {| value := v |}) v;
  ef_field_idx := 0
|}.

(** The annotations directory: the parameters of method 4 have a
    reference list at offset 9, with two entries. *)
Definition adi : AnnotationsDirectoryItem := {|
  adi_class_annotations_off := 0;
  adi_field_annotations := [];
  adi_method_annotations := [];
  adi_parameter_annotations := [{| get_idx := 4; get_annotations_off := 9 |}]
|}.

(** The [DvMethod] of a method of the sample. *)
Definition method_of (fails : pass -> option exn) (em : EncodedMethod)
    (a : option AnnotationsDirectoryItem) : DvMethod :=
  DvMethod.fresh (C := collab fails)
    {| get_method := em;
       get_basic_blocks := match em_code em with Some _ => [tt] | None => [] end;
       ma_exceptions := tt |} a
    (match DvMethod.extract_annotations em a
             (params_of (em_descriptor em)) with
     | inr annots => annots
     | inl _ => ([], [])
     end).

Definition Bar : ClassDefItem := {|
  cd_name := "Lfoo/Bar;";
  cd_access_flags := 0x1;
  cd_methods := [sum; poke];
  cd_fields := [field "tag" "B" (Some (PyInt 254))];
  cd_interfaces := [];
  cd_superclassname := Some "Ljava/lang/Object;";
  annotations_directory_item := None;
  cd_CM := cm
|}.


(** The [DvClass] of a class of the sample. *)
Definition class_of (k : ClassDefItem) : DvClass :=
  match DvClass.__init__ (C := collab sound) k tt with
  | inr c => c
  | inl _ =>
      {| c_package := ""; c_name := ""; c_vma := tt; c_methods := [];
         c_fields := []; c_inner := false; c_access := []; c_prototype := "";
         c_interfaces := []; c_superclass := None; c_thisclass := "";
         c_adi := None; c_class_annotations := []; c_field_annotations := ∅ |}
  end.

(** A class whose name contains the name of [Bar]. *)
Definition Outer : ClassDefItem := {|
  cd_name := "Lapp/Lfoo/Bar;";
  cd_access_flags := 0x1;
  cd_methods := [];
  cd_fields := [];
  cd_interfaces := [];
  cd_superclassname := Some "Ljava/lang/Object;";
  annotations_directory_item := None;
  cd_CM := cm
|}.

(** A machine that lists [Outer] before [Bar]. *)
Definition machine : DvMachine.DvMachine := {|
  DvMachine.vma := tt;
  DvMachine.classes :=
    [("Lapp/Lfoo/Bar;", DvMachine.Raw Outer); ("Lfoo/Bar;", DvMachine.Raw Bar)]
|}.

(** [process] on the class [Bar] when the passes raise as [fails] says. *)
Definition bar_after (fails : pass -> option exn) (doAST : bool)
  : option exn * (DvClass * list DvClass.log_record) :=
  DvClass.process (C := collab fails) doAST (class_of Bar).



(** A class with a superclass and two interfaces. *)
Definition Task : ClassDefItem := {|
  cd_name := "Lfoo/Task;";
  cd_access_flags := 0x11;
  cd_methods := [];
  cd_fields := [field "count" "I" (Some (PyInt 3))];
  cd_interfaces := ["Ljava/lang/Runnable;"; "Ljava/io/Closeable;"];
  cd_superclassname := Some "Lfoo/Base;";
  annotations_directory_item := None;
  cd_CM := cm
|}.

(** A byte field whose stored value is no byte. *)
Definition wide : EncodedField := field "wide" "B" (Some (PyInt 256)).

(** A [String] field whose stored value is no [str]. *)
Definition label : EncodedField :=
  field "label" "Ljava/lang/String;" (Some (PyInt 7)).

(** [Bar] with the field [wide] after its own. *)
Definition Wide : ClassDefItem := {|
  cd_name := "Lfoo/Wide;";
  cd_access_flags := 0x1;
  cd_methods := [sum];
  cd_fields := [field "tag" "B" (Some (PyInt 254)); wide];
  cd_interfaces := [];
  cd_superclassname := Some "Ljava/lang/Object;";
  annotations_directory_item := None;
  cd_CM := cm
|}.


(** The value [{{1, 2}, {}}] of an element: an array of arrays of
    [int]. *)
Definition grid : AnnotationValue.obj :=
  AnnotationValue.EncodedValue AnnotationValue.VALUE_ARRAY
    (AnnotationValue.EncodedArray
       [AnnotationValue.EncodedValue AnnotationValue.VALUE_ARRAY
          (AnnotationValue.EncodedArray
             [AnnotationValue.EncodedValue AnnotationValue.VALUE_INT
                (AnnotationValue.Plain (PyInt 1));
              AnnotationValue.EncodedValue AnnotationValue.VALUE_INT
                (AnnotationValue.Plain (PyInt 2))]);
        AnnotationValue.EncodedValue AnnotationValue.VALUE_ARRAY
          (AnnotationValue.EncodedArray [])]).

(** A class manager with one annotation set, at offset 8, of one
    annotation with two elements. *)
Definition cm_tagged : ClassManager := {|
  set_ref_list_at := fun _ => [8; 0];
  set_item_at := fun off => if off =? 8 then [1] else [];
  annotation_at := fun _ =>
    {| get_type_idx := 0;
       get_obj :=
         [AnnotationValue.AnnotationElement 2 grid;
          AnnotationValue.AnnotationElement 1
            (AnnotationValue.EncodedValue AnnotationValue.VALUE_INT
               (AnnotationValue.Plain (PyInt 0)))] |};
  cm_get_type := fun _ => "Lfoo/Range;";
  cm_get_string := fun i => if i =? 1 then "min" else "values"
|}.

(** A class manager whose annotation has an element that holds a bare
    integer, which the frontend never builds. *)
Definition cm_torn : ClassManager := {|
  set_ref_list_at := fun _ => [8; 0];
  set_item_at := fun off => if off =? 8 then [1] else [];
  annotation_at := fun _ =>
    {| get_type_idx := 0;
       get_obj :=
         [AnnotationValue.AnnotationElement 1
            (AnnotationValue.Plain (PyInt 0))] |};
  cm_get_type := fun _ => "Lfoo/Range;";
  cm_get_string := fun _ => "min"
|}.

(** A class with an annotation of its own and one on its field 0. *)
Definition tagged_with (cm : ClassManager) (name : string) : ClassDefItem := {|
  cd_name := name;
  cd_access_flags := 0x1;
  cd_methods := [];
  cd_fields := [field "count" "I" (Some (PyInt 3))];
  cd_interfaces := [];
  cd_superclassname := Some "Ljava/lang/Object;";
  annotations_directory_item :=
    Some {| adi_class_annotations_off := 8;
            adi_field_annotations :=
              [{| get_idx := 0; get_annotations_off := 8 |};
               {| get_idx := 7; get_annotations_off := 8 |}];
            adi_method_annotations := [];
            adi_parameter_annotations := [] |};
  cd_CM := cm
|}.

Definition Torn : ClassDefItem := tagged_with cm_torn "Lfoo/Torn;".

(** [Bar] processed once with passes that return, then again with
    [simplify] raising. *)
Definition bar_again (doAST : bool)
  : option exn * (DvClass * list DvClass.log_record) :=
  DvClass.process (C := collab broken) doAST (bar_after sound doAST).2.1.

End Sample.


(** * Properties *)

(** ** The Python operations on examples *)

Example hex_examples :
  Py.hex 254 = "0xfe" /\ Py.hex (-2) = "-0x2" /\ Py.hex 0 = "0x0"
  /\ Py.hex (-128) = "-0x80" /\ Py.str_int (-12) = "-12".
Proof. repeat split; reflexivity. Qed.

Example slice_examples :
  Str.strip_ends "Lfoo/Bar;" = "foo/Bar" /\ Str.strip_ends "L" = ""
  /\ Str.drop_first "" = "" /\ Str.drop_last "Bar;" = "Bar".
Proof. repeat split; reflexivity. Qed.

Example split_examples :
  Str.rsplit1 "/" "La/b/C;" = ["La/b"; "C;"]
  /\ Str.rsplit1 "/" "LC;" = ["LC;"]
  /\ Str.find "/" "La/b" = 2 /\ Str.find "/" "LC;" = -1
  /\ Str.after_last ")" "(IJ)V" = "V".
Proof. repeat split; reflexivity. Qed.

Example contains_examples :
  Str.contains "foo" "Lfoo/Bar;" = true /\ Str.contains "" "LC;" = true
  /\ Str.contains "B" "ISC" = false /\ Str.contains "" "ISC" = true
  /\ Str.contains "Bar;x" "Lfoo/Bar;" = false.
Proof. repeat split; reflexivity. Qed.

Example equality_examples :
  py_eq (PyBool true) (PyStr "True") = false
  /\ py_eq (PyInt 1) (PyBool true) = true
  /\ py_eq (PyStr "True") (PyStr "True") = true
  /\ truthy (PyStr "") = false /\ truthy PyNone = false.
Proof. repeat split; reflexivity. Qed.

Example struct_examples :
  struct_pack_B (PyInt 254) = inr [Byte.xfe]
  /\ struct_unpack_b [Byte.xfe] = inr [-2]
  /\ (exists e, struct_pack_B (PyInt 256) = inl e)
  /\ (exists e, struct_pack_B (PyStr "1") = inl e).
Proof. repeat split; try reflexivity; by eexists. Qed.

(** ** The monad of [process] *)

Section Monad.
Context {T : ExtTypes} {C : Collab}.
Import DvMethod.

Lemma passes_run_app (t u : list step) :
  passes_run (t ++ u) = (passes_run t ++ passes_run u)%list.
Proof. unfold passes_run. apply omap_app. Qed.

Lemma runs_ret {A} (a : A) : runs [] (ret a).
Proof.
  intros s. exists []. simpl. rewrite app_nil_r. split; [done|].
  split; [done|]. done.
Qed.

Lemma runs_bind {A B} (l1 l2 : list pass) (m : M A) (k : A -> M B) :
  runs l1 m -> (forall a, runs l2 (k a)) -> runs (l1 ++ l2) (bind m k).
Proof.
  intros Hm Hk s. unfold bind.
  destruct (Hm s) as (d1 & Ht1 & Hp1 & Hok1).
  destruct (m s) as [[e|a] s1] eqn:Hms; simpl in *.
  - exists d1. split; [done|]. split.
    + by apply prefix_app_r.
    + intros ? [=].
  - specialize (Hok1 a eq_refl). subst d1.
    destruct (Hk a s1) as (d2 & Ht2 & Hp2 & Hok2).
    exists (l1 ++ d2)%list. split.
    + rewrite Ht2, Ht1. by rewrite app_assoc.
    + split; [by apply prefix_app|].
      intros b Hb. by rewrite (Hok2 b Hb).
Qed.

Lemma runs_bind_eq {A B} (l l1 l2 : list pass) (m : M A) (k : A -> M B) :
  runs l1 m -> (forall a, runs l2 (k a)) -> l = (l1 ++ l2)%list ->
  runs l (bind m k).
Proof. intros ? ? ->. by apply runs_bind. Qed.

Lemma runs_emit_pass (p : pass) : runs [p] (emit (Run p)).
Proof.
  intros s. exists [p]. simpl. rewrite passes_run_app. done.
Qed.

Lemma runs_emit (st : step) : is_run st = None -> runs [] (emit st).
Proof.
  intros Hst s. exists []. simpl. rewrite passes_run_app. simpl.
  unfold passes_run at 2. simpl. rewrite Hst. done.
Qed.

Lemma runs_get_self : runs [] get_self.
Proof. intros s. exists []. simpl. by rewrite app_nil_r. Qed.

Lemma runs_update (f : DvMethod -> DvMethod) : runs [] (update f).
Proof. intros s. exists []. simpl. by rewrite app_nil_r. Qed.

Lemma runs_lift {A} (r : exn + A) : runs [] (lift r).
Proof. intros s. exists []. simpl. by rewrite app_nil_r. Qed.

Lemma runs_check (r : option exn) : runs [] (check r).
Proof. apply runs_lift. Qed.

Lemma runs_eq {A} (l l' : list pass) (m : M A) : l = l' -> runs l m -> runs l' m.
Proof. by intros ->. Qed.

(** One step of the proof that a block of [process] calls its passes in
    order: the rule of the head construct. *)
Ltac runs_step :=
  first
    [ apply runs_ret
    | apply runs_emit_pass
    | apply runs_emit; reflexivity
    | apply runs_get_self
    | apply runs_update
    | apply runs_lift
    | apply runs_check
    | eapply runs_bind_eq; [ | intros ?; cbv beta | ]
    | match goal with
      | |- runs _ (match ?x with _ => _ end) => destruct x; cbv beta iota
      end ].

Ltac runs_block := eapply runs_eq; [ | repeat runs_step ]; reflexivity.

Lemma runs_run_graph {A} (p : pass) (f : Graph -> outcome A Graph) (g : Graph) :
  runs [p] (run_graph p f g).
Proof. unfold run_graph. runs_block. Qed.

Lemma runs_run_du p f (g : Graph) (du : DefUses) (ud : UseDefs) :
  runs [p] (run_du p f g du ud).
Proof. unfold run_du. runs_block. Qed.

Lemma runs_run_vdu p f (g : Graph) (du : DefUses) (ud : UseDefs) :
  runs [p] (run_vdu p f g du ud).
Proof. unfold run_vdu. runs_block. Qed.

Lemma runs_png (g : Graph) (dir : string) : runs [] (png g dir).
Proof. unfold png. runs_block. Qed.

Lemma runs_emit_method (doAST : bool) (g : option Graph) :
  runs [] (emit_method doAST g).
Proof. unfold emit_method. runs_block. Qed.

Lemma runs_decompile (me : DvMethod) (start_block : BasicBlock) :
  runs pipeline (decompile me start_block).
Proof.
  unfold decompile.
  eapply runs_eq;
    [ | repeat first [ apply runs_run_graph | apply runs_run_du
                     | apply runs_run_vdu | apply runs_png | runs_step ] ];
    reflexivity.
Qed.

Lemma preserves_ret {A X} (f : DvMethod -> X) (a : A) : preserves f (ret a).
Proof. done. Qed.

Lemma preserves_bind {A B X} (f : DvMethod -> X) (m : M A) (k : A -> M B) :
  preserves f m -> (forall a, preserves f (k a)) -> preserves f (bind m k).
Proof.
  intros Hm Hk s. unfold bind. specialize (Hm s).
  destruct (m s) as [[e|a] s1]; simpl in *; [done|].
  by rewrite (Hk a s1).
Qed.

Lemma preserves_emit {X} (f : DvMethod -> X) (st : step) : preserves f (emit st).
Proof. done. Qed.

Lemma preserves_get_self {X} (f : DvMethod -> X) : preserves f get_self.
Proof. done. Qed.

Lemma preserves_lift {A X} (f : DvMethod -> X) (r : exn + A) : preserves f (lift r).
Proof. done. Qed.

Lemma preserves_update {X} (f : DvMethod -> X) (g : DvMethod -> DvMethod) :
  (forall m, f (g m) = f m) -> preserves f (update g).
Proof. intros Hg s. apply Hg. Qed.

Ltac preserves_step :=
  first
    [ apply preserves_ret
    | apply preserves_emit
    | apply preserves_get_self
    | apply preserves_lift
    | apply preserves_update; reflexivity
    | apply preserves_bind; [ | intros ?; cbv beta ]
    | match goal with
      | |- preserves _ (match ?x with _ => _ end) => destruct x; cbv beta iota
      end ].

(** The pipeline assigns neither [self.writer] nor [self.ast]. *)
Lemma decompile_keeps_writer (me : DvMethod) (start_block : BasicBlock) :
  preserves m_writer (decompile me start_block).
Proof.
  unfold decompile, run_graph, run_du, run_vdu, png, check.
  repeat preserves_step.
Qed.

Lemma decompile_keeps_ast (me : DvMethod) (start_block : BasicBlock) :
  preserves m_ast (decompile me start_block).
Proof.
  unfold decompile, run_graph, run_du, run_vdu, png, check.
  repeat preserves_step.
Qed.

(** Emitting the method does not assign [self.graph]. *)
Lemma emit_method_keeps_graph (doAST : bool) (g : option Graph) :
  preserves m_graph (emit_method doAST g).
Proof. unfold emit_method, check. repeat preserves_step. Qed.

(** [process] on a method with code is the pipeline, then the writer. *)
Lemma process_with_code (doAST : bool) (s : pstate) (b : BasicBlock) :
  m_start_block (self s) = Some b ->
  process doAST s
  = bind (decompile (self s) b) (fun g => emit_method doAST (Some g)) s.
Proof. intros Hb. unfold process, bind at 1, get_self. simpl. by rewrite Hb. Qed.

Lemma process_no_code (doAST : bool) (s : pstate) :
  m_start_block (self s) = None ->
  process doAST s = emit_method doAST None s.
Proof. intros Hb. unfold process, bind at 1, get_self. simpl. by rewrite Hb. Qed.

(** Below the last element of a prefix, the prefix reads as the list. *)
Lemma prefix_below {A} (l p : list A) (i j : nat) (x : A) :
  l `prefix_of` p -> l !! i = Some x -> (j <= i)%nat -> l !! j = p !! j.
Proof.
  intros [k ->] Hi Hj. apply lookup_lt_Some in Hi.
  rewrite lookup_app_l; [done | lia].
Qed.

End Monad.

(** ** The orchestrator: [DvMethod.process] *)

Section Orchestrator.
Context {T : ExtTypes} {C : Collab}.
Import DvMethod.

(** The registration of the temporaries: every key of [def_uses] that is
    not a register is bound to its upper-cased name, and the registers
    keep their entry. *)
Lemma register_temporaries_reg (keys : list (var * Z)) (v : gmap var var_entry)
    (n : Z) :
  register_temporaries keys v !! Reg n = v !! Reg n.
Proof.
  unfold register_temporaries. revert v.
  induction keys as [|[[r|s] i] keys IH]; intros v; simpl; [done|done|].
  rewrite IH. by apply lookup_insert_ne.
Qed.

Lemma register_temporaries_tmp (keys : list (var * Z)) (v : gmap var var_entry)
    (s : string) (i : Z) :
  (Tmp s, i) ∈ keys ->
  register_temporaries keys v !! Tmp s = Some (Upper (Str.upper s)).
Proof.
  unfold register_temporaries.
  assert (Hkeep : forall keys (v : gmap var var_entry),
            v !! Tmp s = Some (Upper (Str.upper s)) ->
            fold_left
              (fun v (k : var * Z) =>
                 match k.1 with
                 | Tmp s => <[Tmp s := Upper (Str.upper s)]> v
                 | Reg _ => v
                 end) keys v !! Tmp s = Some (Upper (Str.upper s))).
  { clear. intros keys. induction keys as [|[[r|s'] j] keys IH]; intros v Hv;
      simpl; [done | by apply IH |].
    apply IH. destruct (decide (s' = s)) as [->|Hne].
    - apply lookup_insert_eq.
    - rewrite lookup_insert_ne by congruence. done. }
  revert v. induction keys as [|[[r|s'] j] keys IH]; intros v Hin.
  - by apply elem_of_nil in Hin.
  - apply elem_of_cons in Hin as [[=] | Hin]. simpl. by apply IH.
  - apply elem_of_cons in Hin as [[= <- <-] | Hin]; simpl.
    + apply Hkeep. apply lookup_insert_eq.
    + by apply IH.
Qed.

Lemma agrees_ret (g : Graph) : agrees g (ret g) (fun env => inr (g, env)).
Proof. intros s Hg. unfold refines. by cbn. Qed.

Lemma agrees_png (g0 g : Graph) (dir : string) (k : M Graph)
    (spec : (gmap var var_entry) -> exn + (Graph * (gmap var var_entry))) :
  agrees g0 k spec -> agrees g0 (bind (png g dir) (fun _ => k)) spec.
Proof.
  intros Hk s Hg. unfold agrees, refines in *. unfold png, bind. destruct debug eqn:Hd.
  - cbn. exact (Hk s Hg).
  - unfold check, bind, emit, get_self, lift. cbn.
    destruct (create_png _ _ g dir) as [e|]; cbn.
    + destruct (spec _) as [e0|[g1 env]]; [|done]. by exists e.
    + specialize (Hk {| self := self s; trace := trace s ++ [CreatePng dir] |} Hg).
      exact Hk.
Qed.

Lemma agrees_run_graph {A} (g0 : Graph) (p : pass)
    (f : Graph -> outcome A Graph) (g : Graph) (k : A * Graph -> M Graph)
    (spec : A -> Graph -> (gmap var var_entry) -> exn + (Graph * (gmap var var_entry))) :
  (forall a g', agrees g' (k (a, g')) (spec a g')) ->
  agrees g0 (bind (run_graph p f g) k)
         (fun env => and_then (f g) (fun a g' => spec a g' env)).
Proof.
  intros Hk s Hg. unfold agrees, refines in *. unfold run_graph, bind, emit, update, lift, ret, and_then.
  cbn. destruct (f g) as [[e|a] g']; cbn; [by exists e|].
  apply (Hk a g' {| self := set_graph (Some g') (self s);
                    trace := trace s ++ [Run p] |}).
  done.
Qed.

Lemma agrees_run_du (g0 : Graph) (p : pass)
    (f : Graph -> DefUses -> UseDefs -> outcome unit (Graph * DefUses * UseDefs))
    (g : Graph) (du : DefUses) (ud : UseDefs)
    (k : Graph * DefUses * UseDefs -> M Graph)
    (spec : Graph * DefUses * UseDefs -> (gmap var var_entry) -> exn + (Graph * (gmap var var_entry))) :
  (forall g' du' ud', agrees g' (k (g', du', ud')) (spec (g', du', ud'))) ->
  agrees g0 (bind (run_du p f g du ud) k)
         (fun env => and_then (f g du ud) (fun _ r => spec r env)).
Proof.
  intros Hk s Hg. unfold agrees, refines in *. unfold run_du, bind, emit, update, lift, ret, and_then.
  cbn. destruct (f g du ud) as [[e|[]] [[g' du'] ud']]; cbn; [by exists e|].
  apply (Hk g' du' ud' {| self := set_graph (Some g') (self s);
                          trace := trace s ++ [Run p] |}).
  done.
Qed.

Lemma agrees_run_vdu (g0 : Graph) (p : pass)
    (f : Graph -> (gmap var var_entry) -> DefUses -> UseDefs ->
         outcome unit (Graph * (gmap var var_entry) * DefUses * UseDefs))
    (g : Graph) (du : DefUses) (ud : UseDefs)
    (k : Graph * DefUses * UseDefs -> M Graph)
    (spec : Graph * (gmap var var_entry) * DefUses * UseDefs -> exn + (Graph * (gmap var var_entry))) :
  (forall g' du' ud',
     agrees g' (k (g', du', ud')) (fun env => spec (g', env, du', ud'))) ->
  agrees g0 (bind (run_vdu p f g du ud) k)
         (fun env => and_then (f g env du ud) (fun _ r => spec r)).
Proof.
  intros Hk s Hg. unfold agrees, refines in *. unfold run_vdu, bind, emit, update, lift, ret, get_self, and_then.
  cbn. destruct (f g _ du ud) as [[e|[]] [[[g' env'] du'] ud']]; cbn; [by exists e|].
  apply (Hk g' du' ud'
           {| self := set_var_to_name env' (set_graph (Some g') (self s));
              trace := trace s ++ [Run p] |}).
  done.
Qed.

(** The registration of the temporaries, and the pass that is handed
    the naming environment next. *)
Lemma agrees_register (g0 : Graph) (keys : list (var * Z)) (p : pass)
    (f : Graph -> gmap var var_entry -> DefUses -> UseDefs ->
         outcome unit (Graph * gmap var var_entry * DefUses * UseDefs))
    (g : Graph) (du : DefUses) (ud : UseDefs)
    (k : Graph * DefUses * UseDefs -> M Graph)
    (spec : Graph * gmap var var_entry * DefUses * UseDefs
            -> exn + (Graph * gmap var var_entry)) :
  (forall g' du' ud',
     agrees g' (k (g', du', ud')) (fun env => spec (g', env, du', ud'))) ->
  agrees g0
    (bind (emit (Run RegisterTemporaries))
       (fun _ => bind (update (fun m => set_var_to_name
                                 (register_temporaries keys (m_var_to_name m)) m))
                   (fun _ => bind (run_vdu p f g du ud) k)))
    (fun env =>
       and_then (f g (register_temporaries keys env) du ud) (fun _ r => spec r)).
Proof.
  intros Hk s Hg. unfold bind at 1 2, emit at 1, update at 1. cbn [fst snd].
  exact (agrees_run_vdu g0 p f g du ud k spec Hk
           {| self := set_var_to_name
                        (register_temporaries keys (m_var_to_name (self s)))
                        (self s);
              trace := trace s ++ [Run RegisterTemporaries] |} Hg).
Qed.

Lemma agrees_construct (b : BasicBlock) (v : gmap var var_entry)
    (ex : Exceptions) (k : Graph -> M Graph)
    (spec : Graph -> gmap var var_entry -> exn + (Graph * gmap var var_entry))
    (s : pstate) :
  (forall g0, agrees g0 (k g0) (spec g0)) ->
  refines
    (bind (emit (Run Construct))
       (fun _ =>
          let '(r, v') := construct b v ex in
          bind (update (set_var_to_name v'))
            (fun _ => bind (lift r)
               (fun graph => bind (update (set_graph (Some graph)))
                  (fun _ => k graph)))))
    (and_then (construct b v ex) spec) s.
Proof.
  intros Hk. unfold agrees, refines in *. unfold and_then, bind, emit, update, lift. cbn.
  destruct (construct b v ex) as [[e|g0] v0]; cbn; [by exists e|].
  apply (Hk g0 {| self := set_graph (Some g0) (set_var_to_name v0 (self s));
                  trace := trace s ++ [Run Construct] |}).
  done.
Qed.

(** The body of [process] for a method with code against the fixed
    pipeline. *)
Lemma decompile_refines (me : DvMethod) (b : BasicBlock) (s : pstate) :
  refines (decompile me b) (fixed_pipeline me b) s.
Proof.
  unfold fixed_pipeline, decompile.
  apply agrees_construct; intros g0.
  apply agrees_png.
  apply (agrees_run_graph g0 BuildDefUse (fun g => build_def_use g (m_lparams me)));
    intros [use_defs def_uses] g; cbv beta iota.
  apply agrees_run_vdu; intros g1 du1 ud1; cbv beta iota.
  apply agrees_run_du; intros g2 du2 ud2; cbv beta iota.
  apply agrees_run_du; intros g3 du3 ud3; cbv beta iota.
  apply agrees_run_vdu; intros g4 du4 ud4; cbv beta iota.
  apply agrees_run_du; intros g5 du5 ud5; cbv beta iota.
  apply agrees_register; intros g6 du6 ud6; cbv beta iota.
  apply agrees_run_graph; intros [] g7; cbv beta iota.
  apply agrees_run_graph; intros [] g8; cbv beta iota.
  apply agrees_run_graph; intros [] g9; cbv beta iota.
  apply agrees_png.
  apply agrees_run_graph; intros idoms g10; cbv beta iota.
  apply (agrees_run_graph g10 IdentifyStructures
           (fun g => identify_structures g idoms));
    intros [] g11; cbv beta iota.
  apply agrees_png. apply agrees_ret.
Qed.

(** What [emit_method] does, by the outcome of the writer. *)
Lemma emit_method_outcome (doAST : bool) (g : option Graph) (s : pstate) :
  emit_method doAST g s
  = if doAST then
      match JSONWriter_new g (self s) with
      | inl e =>
          (inl e, {| self := self s; trace := trace s ++ [NewJSONWriter g] |})
      | inr jw =>
          match JSONWriter_get_ast jw with
          | inl e =>
              (inl e, {| self := self s;
                         trace := (trace s ++ [NewJSONWriter g]) ++ [GetAst] |})
          | inr a =>
              (inr tt, {| self := set_ast (Some a) (self s);
                          trace := (trace s ++ [NewJSONWriter g]) ++ [GetAst] |})
          end
      end
    else
      match Writer_new g (self s) with
      | inl e => (inl e, {| self := self s; trace := trace s ++ [NewWriter g] |})
      | inr w =>
          ((write_method w).1,
           {| self := set_writer (Some (write_method w).2)
                        (set_writer (Some w) (self s));
              trace := (trace s ++ [NewWriter g]) ++ [WriteMethod] |})
      end.
Proof.
  unfold emit_method, bind, get_self, emit, lift, update. cbn. destruct doAST.
  - destruct (JSONWriter_new g (self s)) as [e|jw]; [done|].
    by destruct (JSONWriter_get_ast jw) as [e|a].
  - destruct (Writer_new g (self s)) as [e|w]; [done|]. cbn.
    by destruct (write_method w) as [[e|[]] w'].
Qed.

(** The AST of the method after [process]: assigned when [process]
    returns in AST mode, and left as it was otherwise. *)
Lemma run_ast (doAST : bool) (m : DvMethod) :
  match (run doAST m).1 with
  | inl _ => m_ast (self (run doAST m).2) = m_ast m
  | inr _ =>
      if doAST then is_Some (m_ast (self (run doAST m).2))
      else m_ast (self (run doAST m).2) = m_ast m
  end.
Proof.
  assert (Hemit : forall g s,
            match (emit_method doAST g s).1 with
            | inl _ => m_ast (self (emit_method doAST g s).2) = m_ast (self s)
            | inr _ =>
                if doAST then is_Some (m_ast (self (emit_method doAST g s).2))
                else m_ast (self (emit_method doAST g s).2) = m_ast (self s)
            end).
  { intros g s. rewrite emit_method_outcome. destruct doAST.
    - destruct (JSONWriter_new g (self s)) as [e|jw]; [done|].
      destruct (JSONWriter_get_ast jw) as [e|a]; [done | by eexists].
    - destruct (Writer_new g (self s)) as [e|w]; [done|]. cbn.
      by destruct (write_method w) as [[e|[]] w']. }
  unfold run. destruct (m_start_block m) as [b|] eqn:Hb.
  - rewrite (process_with_code doAST {| self := m; trace := [] |} b Hb).
    cbn [self]. unfold bind.
    pose proof (decompile_keeps_ast m b {| self := m; trace := [] |}) as Hk.
    destruct (decompile m b {| self := m; trace := [] |}) as [[e|g] s1];
      cbn [fst snd self] in *; [done|].
    rewrite <- Hk. apply Hemit.
  - rewrite (process_no_code doAST {| self := m; trace := [] |} Hb).
    apply (Hemit None {| self := m; trace := [] |}).
Qed.


(** C1. For a method with code, [process] does what the fixed pipeline
    of the specification does, each pass on what the pass before it left:
    construction of the CFG, def/use, splitting, dead code, register
    propagation, types, new-instance propagation, registration of the
    temporaries, declarations, if-node splitting, simplification, RPO,
    and structuring last, on the dominators.  When a pass of the pipeline
    raises, [process] raises (that exception, unless a picture of the
    graph failed before); when [process] returns, the pipeline has
    returned, its graph is in [self.graph], its naming environment in
    [self.var_to_name], and it is this graph that the writer or the AST
    builder was created on.  The passes that [process] has called at any
    point are an initial part of [pipeline], and all of it when [process]
    returns; structuring never comes without simplification before it,
    nor a propagation without the def/use construction before it. *)
Theorem process_runs_pipeline_in_order (doAST : bool) (m : DvMethod) (b : BasicBlock) :
  m_start_block m = Some b ->
  let ran := passes_run (trace (run doAST m).2) in
  ran `prefix_of` pipeline
  /\ (forall u, (run doAST m).1 = inr u -> ran = pipeline)
  /\ (forall i, ran !! i = Some IdentifyStructures ->
        exists j, (j < i)%nat /\ ran !! j = Some Simplify)
  /\ (forall i p, p = RegisterPropagation \/ p = NewInstancePropagation ->
        ran !! i = Some p ->
        exists j, (j < i)%nat /\ ran !! j = Some BuildDefUse)
  /\ (forall e, fixed_pipeline m b = inl e ->
        exists e', (run doAST m).1 = inl e' /\ (debug = true -> e' = e))
  /\ (forall u, (run doAST m).1 = inr u ->
        exists g env me',
          fixed_pipeline m b = inr (g, env)
          /\ m_graph me' = Some g /\ m_var_to_name me' = env
          /\ m_graph (self (run doAST m).2) = Some g
          /\ m_var_to_name (self (run doAST m).2) = env
          /\ (if doAST then
                exists jw a,
                  JSONWriter_new (Some g) me' = inr jw
                  /\ JSONWriter_get_ast jw = inr a
                  /\ m_ast (self (run doAST m).2) = Some a
              else
                exists w,
                  Writer_new (Some g) me' = inr w
                  /\ (write_method w).1 = inr tt
                  /\ m_writer (self (run doAST m).2)
                     = Some (write_method w).2))
  /\ (debug = true ->
      forall g env, fixed_pipeline m b = inr (g, env) ->
        exists me',
          m_graph me' = Some g /\ m_var_to_name me' = env
          /\ (run doAST m).1
             = if doAST then
                 match JSONWriter_new (Some g) me' with
                 | inl e => inl e
                 | inr jw =>
                     match JSONWriter_get_ast jw with
                     | inl e => inl e
                     | inr _ => inr tt
                     end
                 end
               else
                 match Writer_new (Some g) me' with
                 | inl e => inl e
                 | inr w => (write_method w).1
                 end).
Proof.
  intros Hb ran.
  assert (Hpre : ran `prefix_of` pipeline
                 /\ (forall u, (run doAST m).1 = inr u -> ran = pipeline)).
  { subst ran. unfold run. rewrite (process_with_code doAST {| self := m; trace := [] |} b Hb).
    destruct (runs_bind pipeline [] _ _ (runs_decompile m b)
                (fun g => runs_emit_method doAST (Some g))
                {| self := m; trace := [] |}) as (d & Hd & Hp & Hok).
    change (passes_run (trace {| self := m; trace := [] |})) with (@nil pass) in Hd.
    rewrite app_nil_l in Hd. cbn [self]. rewrite Hd. rewrite app_nil_r in Hp, Hok.
    split; [done|]. intros u Hu. by apply (Hok u). }
  destruct Hpre as [Hpre Hall]. split; [done|]. split; [done|].
  split; [|split].
  - intros i Hi.
    assert (Hin := Hi). rewrite (prefix_below _ _ _ i _ Hpre Hi) in Hin by lia.
    do 14 (destruct i as [|i]; [try discriminate Hin|]); [|discriminate Hin].
    exists 10%nat. split; [lia|].
    by rewrite (prefix_below _ _ _ 10 _ Hpre Hi) by lia.
  - intros i p Hp Hi.
    assert (Hin := Hi). rewrite (prefix_below _ _ _ i _ Hpre Hi) in Hin by lia.
    exists 1%nat.
    do 14 (destruct i as [|i];
           [destruct Hp as [-> | ->]; try discriminate Hin;
            (split; [lia|]); by rewrite (prefix_below _ _ _ 1 _ Hpre Hi) by lia|]).
    discriminate Hin.
  - clear ran Hpre Hall. unfold run.
    rewrite (process_with_code doAST {| self := m; trace := [] |} b Hb).
    cbn [self]. unfold bind.
    pose proof (decompile_refines m b {| self := m; trace := [] |}) as Href.
    unfold refines in Href.
    destruct (decompile m b {| self := m; trace := [] |}) as [[e0|g'] s1].
    + cbn [fst snd] in *. split; [|split].
      * intros e He. rewrite He in Href.
        destruct Href as (e' & [= <-] & Hd). by exists e0.
      * intros u [=].
      * intros Hd g env Hfix. rewrite Hfix in Href. congruence.
    + cbn [fst snd] in *. split; [|split].
      * intros e He. rewrite He in Href. by destruct Href as (e' & [=] & _).
      * intros u Hu. destruct (fixed_pipeline m b) as [e|[g env]].
        { by destruct Href as (e' & [=] & _). }
        destruct Href as (-> & Hg & Hv). exists g, env, (self s1).
        split; [done|]. split; [done|]. split; [done|].
        rewrite emit_method_outcome in *. destruct doAST.
        -- destruct (JSONWriter_new (Some g) (self s1)) as [e|jw] eqn:Hjw;
             [done|].
           destruct (JSONWriter_get_ast jw) as [e|a] eqn:Ha; [done|].
           cbn. split; [done|]. split; [done|]. by exists jw, a.
        -- destruct (Writer_new (Some g) (self s1)) as [e|w] eqn:Hw; [done|].
           cbn in *. split; [done|]. split; [done|]. exists w.
           split; [done|]. split; [|done]. by destruct u.
      * intros Hd g env Hfix. rewrite Hfix in Href.
        destruct Href as (-> & Hg & Hv). exists (self s1).
        split; [done|]. split; [done|].
        rewrite emit_method_outcome. destruct doAST.
        -- destruct (JSONWriter_new (Some g) (self s1)) as [e|jw]; [done|].
           by destruct (JSONWriter_get_ast jw) as [e|a].
        -- by destruct (Writer_new (Some g) (self s1)) as [e|w].
Qed.

(** C2. For a method without code ([start_block] is [None]), [process]
    calls no pass and leaves [self.graph] as it was, [None] after
    [__init__]; in text mode it creates a [Writer] on the [None] graph
    and calls [write_method], in AST mode a [JSONWriter] on the [None]
    graph and [get_ast], and it stores what they give. *)
Theorem process_without_code (doAST : bool) (m : DvMethod) :
  m_start_block m = None ->
  passes_run (trace (run doAST m).2) = []
  /\ m_graph (self (run doAST m).2) = m_graph m
  /\ (forall ma a annots, m = fresh ma a annots ->
        m_graph (self (run doAST m).2) = None)
  /\ (if doAST then
        match JSONWriter_new None m with
        | inl e =>
            run doAST m = (inl e, {| self := m; trace := [NewJSONWriter None] |})
        | inr jw =>
            match JSONWriter_get_ast jw with
            | inl e =>
                run doAST m
                = (inl e, {| self := m; trace := [NewJSONWriter None; GetAst] |})
            | inr a =>
                run doAST m
                = (inr tt, {| self := set_ast (Some a) m;
                              trace := [NewJSONWriter None; GetAst] |})
            end
        end
      else
        match Writer_new None m with
        | inl e =>
            run doAST m = (inl e, {| self := m; trace := [NewWriter None] |})
        | inr w =>
            run doAST m
            = ((write_method w).1,
               {| self := set_writer (Some (write_method w).2) m;
                  trace := [NewWriter None; WriteMethod] |})
        end).
Proof.
  intros Hb.
  assert (Hrun : run doAST m = emit_method doAST None {| self := m; trace := [] |})
    by (apply (process_no_code doAST {| self := m; trace := [] |}); exact Hb).
  assert (Hg : m_graph (self (run doAST m).2) = m_graph m)
    by (rewrite Hrun; apply (emit_method_keeps_graph doAST None)).
  split; [|split; [exact Hg|split]].
  - rewrite Hrun.
    destruct (runs_emit_method doAST None {| self := m; trace := [] |})
      as (d & Hd & Hp & _).
    apply prefix_nil_inv in Hp. subst d. exact Hd.
  - intros ma a annots ->. exact Hg.
  - rewrite Hrun. unfold emit_method, bind, get_self, emit, lift, update. simpl.
    destruct doAST.
    + destruct (JSONWriter_new None m) as [e|jw]; [done|].
      destruct (JSONWriter_get_ast jw) as [e|a]; done.
    + destruct (Writer_new None m) as [e|w]; [done|].
      simpl. destruct (write_method w) as [[e|[]] w']; done.
Qed.

End Orchestrator.

Section OrchestratorExamples.
#[local] Existing Instance Sample.types.

(** The passes of the sample write their name on the graph, and the
    passes that are handed the naming environment tell whether the
    temporaries were registered: the graph that [process] leaves on [sum]
    is the pipeline, in its order. *)
Lemma process_runs_pipeline_in_order_witness :
  m_start_block (Sample.method_of Sample.sound Sample.sum None) = Some tt
  /\ DvMethod.passes_run
       (DvMethod.trace
          (DvMethod.run (C := Sample.collab Sample.sound) false
             (Sample.method_of Sample.sound Sample.sum None)).2)
     = DvMethod.pipeline
  /\ m_graph
       (DvMethod.self
          (DvMethod.run (C := Sample.collab Sample.sound) false
             (Sample.method_of Sample.sound Sample.sum None)).2)
     = Some DvMethod.pipeline.
Proof.
  pose proof (process_runs_pipeline_in_order
                (C := Sample.collab Sample.sound) false
                (Sample.method_of Sample.sound Sample.sum None) tt eq_refl)
    as (_ & Hall & _ & _ & _ & Hflow & _).
  assert (Hret : (DvMethod.run (C := Sample.collab Sample.sound) false
                    (Sample.method_of Sample.sound Sample.sum None)).1 = inr tt)
    by (vm_compute; reflexivity).
  split; [reflexivity|]. split; [exact (Hall tt Hret)|].
  destruct (Hflow tt Hret) as (g & env & me' & Hfix & _ & _ & Hg & _).
  pose proof (f_equal (fun r : exn + (list pass * gmap var var_entry) =>
                         match r with inr (g, _) => g | inl _ => [] end) Hfix)
    as Hpasses.
  vm_compute in Hpasses. rewrite <- Hpasses in Hg. exact Hg.
Defined.

Lemma process_without_code_witness :
  m_start_block (Sample.method_of Sample.sound Sample.poke None) = None
  /\ m_graph
       (DvMethod.self
          (DvMethod.run (C := Sample.collab Sample.sound) false
             (Sample.method_of Sample.sound Sample.poke None)).2)
     = None.
Proof.
  split; [reflexivity|].
  exact (proj1 (proj2 (proj2 (process_without_code
                                (C := Sample.collab Sample.sound) false
                                (Sample.method_of Sample.sound Sample.poke None)
                                eq_refl)))
           (@Build_MethodAnalysis Sample.types Sample.poke [] tt) None ([], [])
           eq_refl).
Defined.

End OrchestratorExamples.

(** ** The parameter registers: [DvMethod.__init__] *)

Section Parameters.
Context {T : ExtTypes} {C : Collab}.
Import DvMethod.

Lemma bind_params_lparams (start n : Z) (pts : list string) (lp : list Z)
    (v : gmap var var_entry) :
  (bind_params start n pts lp v).1
  = (lp ++ expected_registers get_type_size (start + n) pts)%list.
Proof.
  revert n lp v. induction pts as [|t pts IH]; intros n lp v; simpl.
  - by rewrite app_nil_r.
  - rewrite IH, <- app_assoc. simpl. do 3 f_equal. lia.
Qed.

(** With types of positive size the registers go up from the first one. *)
Lemma expected_registers_bounds (s : Z) (pts : list string) (r : Z) :
  Forall (fun t => 0 < get_type_size t) pts ->
  r ∈ expected_registers get_type_size s pts ->
  s <= r < s + foldr (fun t n => get_type_size t + n) 0 pts.
Proof.
  intros Hpos. revert s. induction Hpos as [|t pts Ht Hpos IH]; intros s Hr; simpl in *.
  - by apply elem_of_nil in Hr.
  - assert (Hsum : 0 <= foldr (fun t n => get_type_size t + n) 0 pts).
    { clear -Hpos. induction Hpos; simpl; lia. }
    apply elem_of_cons in Hr as [-> | Hr]; [lia|].
    apply IH in Hr. lia.
Qed.

(** The loop does not touch the registers below the one it is at. *)
Lemma bind_params_below (start n : Z) (pts : list string) (lp : list Z)
    (v : gmap var var_entry) (x : var) :
  Forall (fun t => 0 < get_type_size t) pts ->
  (forall r, x = Reg r -> r < start + n) ->
  (bind_params start n pts lp v).2 !! x = v !! x.
Proof.
  intros Hpos. revert n lp v.
  induction Hpos as [|t pts Ht Hpos IH]; intros n lp v Hx; simpl; [done|].
  rewrite IH.
  - apply lookup_insert_ne. intros <-. specialize (Hx _ eq_refl). lia.
  - intros r Hr. specialize (Hx r Hr). lia.
Qed.

Lemma bind_params_lookup (start n : Z) (pts : list string) (lp : list Z)
    (v : gmap var var_entry) (k : nat) (t : string) (r : Z) :
  Forall (fun t => 0 < get_type_size t) pts ->
  pts !! k = Some t ->
  expected_registers get_type_size (start + n) pts !! k = Some r ->
  (bind_params start n pts lp v).2 !! Reg r = Some (Param r t).
Proof.
  intros Hpos. revert n lp v k.
  induction Hpos as [|t' pts Ht Hpos IH]; intros n lp v k Hk Hr; [done|].
  destruct k as [|k]; simpl in *.
  - injection Hk as ->. injection Hr as <-.
    rewrite bind_params_below; [apply lookup_insert_eq | done |].
    intros r [= <-]. lia.
  - apply (IH _ _ _ k); [done|].
    by replace (start + (n + get_type_size t')) with (start + n + get_type_size t') by lia.
Qed.

(** The keys of [var_to_name] after the loop: those before it and the
    registers of the parameters. *)
Lemma bind_params_keys (start n : Z) (pts : list string) (lp : list Z)
    (v : gmap var var_entry) (x : var) :
  is_Some ((bind_params start n pts lp v).2 !! x)
  <-> is_Some (v !! x)
      \/ exists r, r ∈ expected_registers get_type_size (start + n) pts /\ x = Reg r.
Proof.
  revert n lp v. induction pts as [|t pts IH]; intros n lp v; simpl.
  - split; [by left|]. intros [?|(r & Hr & _)]; [done|]. by apply elem_of_nil in Hr.
  - rewrite IH, lookup_insert_is_Some.
    replace (start + (n + get_type_size t)) with (start + n + get_type_size t) by lia.
    split.
    + intros [[<- | [_ Hv]] | (r & Hr & ->)].
      * right. exists (start + n). split; [apply list_elem_of_here | done].
      * by left.
      * right. exists r. split; [by apply list_elem_of_further | done].
    + intros [Hv | (r & Hr & ->)].
      * destruct (decide (Reg (start + n) = x)); [by left; left | by left; right].
      * apply elem_of_cons in Hr as [-> | Hr]; [by left; left|].
        right. by exists r.
Qed.

(** C5. For a method with code, [__init__] numbers the parameters from
    register [registers_size - ins_size]: a method that is not static
    binds this first register to a [ThisParam], the explicit parameters
    follow, each one after the registers of the type before it, and every
    one of these registers, and no other, is in [lparams] and is a key of
    [var_to_name] with its [Param]; they lie in the last [ins_size]
    registers when the receiver and the types need [ins_size] registers. *)
Theorem parameters_occupy_last_registers (ma : MethodAnalysis)
    (adi : option AnnotationsDirectoryItem)
    (annots : list annotation * list (list annotation)) (code : DalvikCode) :
  em_code (get_method ma) = Some code ->
  Forall (fun t => 0 < get_type_size t) (m_params_type (fresh ma adi annots)) ->
  let m := fresh ma adi annots in
  let start := registers_size code - ins_size code in
  let this := negb (Str.mem "static" (m_access m)) in
  let params :=
    expected_registers get_type_size (if this then start + 1 else start)
                       (m_params_type m) in
  m_lparams m = ((if this then [start] else []) ++ params)%list
  /\ (this = true ->
      m_var_to_name m !! Reg start = Some (ThisParam start (m_cls_name m)))
  /\ (forall k t r,
        m_params_type m !! k = Some t -> params !! k = Some r ->
        m_var_to_name m !! Reg r = Some (Param r t))
  /\ (forall x, is_Some (m_var_to_name m !! x)
                <-> exists r, r ∈ m_lparams m /\ x = Reg r)
  /\ (forall r, r ∈ m_lparams m ->
        start <= r
        < start + registers_needed get_type_size this (m_params_type m))
  /\ (registers_needed get_type_size this (m_params_type m) = ins_size code ->
      forall r, r ∈ m_lparams m ->
        registers_size code - ins_size code <= r < registers_size code).
Proof.
  intros Hcode Hpos. cbv zeta. unfold fresh in *.
  cbn [m_lparams m_var_to_name m_params_type m_access m_cls_name] in *.
  unfold bind_registers, registers_needed. rewrite Hcode.
  set (pts := get_params_type (em_descriptor (get_method ma))) in *.
  set (start := registers_size code - ins_size code).
  set (cls := em_class_name (get_method ma)).
  assert (Hsum : 0 <= foldr (fun t n => get_type_size t + n) 0 pts).
  { clear -Hpos. induction Hpos; simpl; lia. }
  destruct (Str.mem "static" (get_access_method (em_access_flags (get_method ma))));
    cbn [negb].
  - (* static *)
    assert (Hbounds : forall r,
              r ∈ (bind_params start 0 pts [] ∅).1 ->
              start <= r < start + (0 + foldr (fun t n => get_type_size t + n) 0 pts)).
    { intros r. rewrite bind_params_lparams, Z.add_0_r, app_nil_l. intros Hr.
      apply expected_registers_bounds in Hr; [lia | done]. }
    split; [by rewrite bind_params_lparams, Z.add_0_r|].
    split; [done|]. split; [|split; [|split; [exact Hbounds|]]].
    + intros k t r Hk Hr. apply (bind_params_lookup _ 0 _ _ _ k); try done.
      by rewrite Z.add_0_r.
    + intros x. rewrite bind_params_keys, bind_params_lparams, Z.add_0_r.
      rewrite lookup_empty, app_nil_l. split.
      * intros [[]%is_Some_None | Hr]. done.
      * intros Hr. by right.
    + intros Hins r Hr. apply Hbounds in Hr. rewrite Hins in Hr. lia.
  - (* a receiver in the first register *)
    assert (Hbounds : forall r,
              r ∈ (bind_params (start + 1) 0 pts [start]
                     (<[Reg start := ThisParam start cls]> ∅)).1 ->
              start <= r < start + (1 + foldr (fun t n => get_type_size t + n) 0 pts)).
    { intros r. rewrite bind_params_lparams, Z.add_0_r.
      intros [->%list_elem_of_singleton | Hr]%elem_of_app; [lia|].
      apply expected_registers_bounds in Hr; [lia | done]. }
    split; [by rewrite bind_params_lparams, Z.add_0_r|].
    split; [|split; [|split; [|split; [exact Hbounds|]]]].
    + intros _. rewrite bind_params_below; [apply lookup_insert_eq | done |].
      intros r [= <-]. lia.
    + intros k t r Hk Hr. apply (bind_params_lookup _ 0 _ _ _ k); try done.
      by rewrite Z.add_0_r.
    + intros x. rewrite bind_params_keys, bind_params_lparams, Z.add_0_r.
      rewrite lookup_insert_is_Some, lookup_empty. split.
      * intros [[<- | [_ []%is_Some_None]] | (r & Hr & ->)].
        -- exists start. split; [|done]. apply elem_of_app. left.
           apply list_elem_of_here.
        -- exists r. split; [|done]. apply elem_of_app. by right.
      * intros (r & [->%list_elem_of_singleton | Hr]%elem_of_app & ->).
        -- by left; left.
        -- right. by exists r.
    + intros Hins r Hr. apply Hbounds in Hr. rewrite Hins in Hr. lia.
Qed.

End Parameters.

Section ParametersExamples.
#[local] Existing Instance Sample.types.

Lemma parameters_occupy_last_registers_witness :
  m_lparams (Sample.method_of Sample.sound Sample.sum None) = [2; 3; 4; 6].
Proof.
  refine (eq_trans
    (proj1 (parameters_occupy_last_registers (C := Sample.collab Sample.sound)
              {| get_method := Sample.sum; get_basic_blocks := [tt];
                 ma_exceptions := tt |} None ([], []) Sample.code eq_refl _)) _).
  - repeat constructor.
  - reflexivity.
Defined.

End ParametersExamples.

(** ** The parameter annotations: [DvMethod.__init__] *)

Section ParamAnnotations.
Context {T : ExtTypes} {C : Collab}.
Import DvMethod.

Lemma check_param_annotations_short (extracted : list (list annotation))
    (params_type : list string) :
  length params_type = S (length extracted) ->
  check_param_annotations extracted params_type = [] :: extracted.
Proof.
  intros Hlen. unfold check_param_annotations. rewrite Hlen.
  replace (Z.of_nat (length extracted) =? Z.of_nat (S (length extracted)))
    with false by (symmetry; apply Z.eqb_neq; lia).
  replace (Z.of_nat (S (length extracted)) - Z.of_nat (length extracted) =? 1)
    with true by (symmetry; apply Z.eqb_eq; lia).
  done.
Qed.

Lemma check_param_annotations_other (extracted : list (list annotation))
    (params_type : list string) :
  length extracted <> length params_type ->
  length params_type <> S (length extracted) ->
  check_param_annotations extracted params_type
  = repeat [] (length params_type).
Proof.
  intros Hne Hshort. unfold check_param_annotations.
  replace (Z.of_nat (length extracted) =? Z.of_nat (length params_type))
    with false by (symmetry; apply Z.eqb_neq; lia).
  replace (Z.of_nat (length params_type) - Z.of_nat (length extracted) =? 1)
    with false by (symmetry; apply Z.eqb_neq; lia).
  done.
Qed.

Lemma check_param_annotations_same (extracted : list (list annotation))
    (params_type : list string) :
  length extracted = length params_type ->
  check_param_annotations extracted params_type = extracted.
Proof.
  intros Hlen. unfold check_param_annotations. rewrite Hlen.
  by rewrite Z.eqb_refl.
Qed.

(** What [__init__] returns is the object with its attributes assigned,
    the annotations being those that the extraction returned. *)
Lemma init_fresh (ma : MethodAnalysis) (adi : option AnnotationsDirectoryItem)
    (m : DvMethod) :
  __init__ ma adi = inr m ->
  exists annots,
    extract_annotations (get_method ma) adi
      (get_params_type (em_descriptor (get_method ma))) = inr annots
    /\ m = fresh ma adi annots.
Proof.
  unfold __init__.
  destruct (extract_annotations _ adi _) as [e|annots]; [done|].
  intros Hm. exists annots. split; [done|].
  destruct debug; [by injection Hm|].
  destruct (method2png _ ma); [done | by injection Hm].
Qed.

(** C8. When the annotations directory has parameter annotations for the
    method and their extraction returns, [__init__] keeps the
    per-parameter lists as follows: an extraction that is shorter than
    the parameter types by exactly one gets an empty list inserted at
    position 0, any other extraction of a different length is replaced by
    one empty list per parameter, and an extraction of the right length
    is kept. *)
Theorem param_annotations_length_mismatch (ma : MethodAnalysis)
    (a : AnnotationsDirectoryItem) (extracted : list (list annotation))
    (m : DvMethod) :
  let method := get_method ma in
  let selected :=
    List.filter (fun x => get_idx x =? em_method_idx method)
                (adi_parameter_annotations a) in
  selected <> [] ->
  get_parameter_annotations (em_CM method) selected = inr extracted ->
  __init__ ma (Some a) = inr m ->
  (length (m_params_type m) = S (length extracted) ->
   m_param_annotations m = [] :: extracted)
  /\ (length extracted <> length (m_params_type m) ->
      length (m_params_type m) <> S (length extracted) ->
      m_param_annotations m = repeat [] (length (m_params_type m)))
  /\ (length extracted = length (m_params_type m) ->
      m_param_annotations m = extracted).
Proof.
  intros method selected Hsel Hex Hinit.
  assert (Hm : m_param_annotations m
               = check_param_annotations extracted (m_params_type m)).
  { destruct (init_fresh ma (Some a) m Hinit) as (annots & Hann & ->).
    unfold fresh. cbn [m_param_annotations m_params_type].
    unfold extract_annotations in Hann. fold method in Hann.
    fold selected in Hann. rewrite Hex in Hann.
    destruct (get_annotations (em_CM method) _) as [e|mas]; [done|].
    destruct selected as [|x l]; [done|]. cbn in Hann. by injection Hann as <-. }
  rewrite Hm. split; [|split].
  - apply check_param_annotations_short.
  - apply check_param_annotations_other.
  - apply check_param_annotations_same.
Qed.

End ParamAnnotations.

Section ParamAnnotationsExamples.
#[local] Existing Instance Sample.types.

Lemma param_annotations_length_mismatch_witness :
  m_param_annotations (Sample.method_of Sample.sound Sample.sum (Some Sample.adi))
  = [[]; []; []].
Proof.
  refine (proj1 (param_annotations_length_mismatch
                   (C := Sample.collab Sample.sound)
                   (@Build_MethodAnalysis Sample.types Sample.sum [tt] tt)
                   Sample.adi [[]; []]
                   (Sample.method_of Sample.sound Sample.sum (Some Sample.adi))
                   _ _ _) _).
  - discriminate.
  - reflexivity.
  - reflexivity.
  - reflexivity.
Defined.

End ParamAnnotationsExamples.

(** ** Field initialisers *)

Section Fields.
Context {T : ExtTypes} {C : Collab}.

(** The two's-complement reading of a stored byte. *)
Lemma signed_byte_int (b : Z) :
  0 <= b <= 255 ->
  signed_byte (PyInt b) = inr (if b <? 128 then b else b - 256).
Proof.
  intros Hb. unfold signed_byte, struct_pack_B, as_int.
  replace ((0 <=? b) && (b <=? 255)) with true
    by (symmetry; apply andb_true_iff; split; apply Z.leb_le; lia).
  destruct (Byte.of_N (Z.to_N b)) as [x|] eqn:Hx.
  - apply Byte.to_of_N in Hx. unfold struct_unpack_b.
    by rewrite Hx, Z2N.id by lia.
  - apply Byte.of_N_None_iff in Hx. lia.
Qed.

(** Outside [0, 255] [struct.pack] raises. *)
Lemma signed_byte_out_of_range (z : Z) :
  ~ 0 <= z <= 255 -> exists e, signed_byte (PyInt z) = inl e.
Proof.
  intros Hz. unfold signed_byte, struct_pack_B, as_int.
  replace ((0 <=? z) && (z <=? 255)) with false; [by eexists|].
  symmetry. apply andb_false_iff.
  destruct (decide (0 <= z)); [right | left]; [apply Z.leb_gt | apply Z.leb_gt]; lia.
Qed.

(** Decoding undoes the storage of a signed byte as [x mod 256]. *)
Lemma signed_byte_round_trip (x : Z) :
  -128 <= x <= 127 -> signed_byte (PyInt (x mod 256)) = inr x.
Proof.
  intros Hx. assert (0 <= x mod 256 < 256) by (apply Z.mod_pos_bound; lia).
  rewrite signed_byte_int by lia.
  destruct (decide (0 <= x)).
  - rewrite Z.mod_small by lia.
    by replace (x <? 128) with true by (symmetry; apply Z.ltb_lt; lia).
  - replace (x mod 256) with (x + 256)
      by (apply (Z.mod_unique _ _ (-1)); lia).
    replace (x + 256 <? 128) with false by (symmetry; apply Z.ltb_ge; lia).
    f_equal. lia.
Qed.



(** What the code does for a field of descriptor [Z]: the AST literal
    of an initial value other than [None] is [literal_bool] of the
    comparison of the stored value with the string ['True']: true for that
    string alone, false for every integer and for both [bool] values. *)
Theorem boolean_field_compares_with_text (field : EncodedField) (v : pyval) :
  ef_descriptor field = "Z" ->
  init_value field = Some {| value := v |} ->
  v <> PyNone ->
  field_expr field = inr (Some (literal_bool (py_eq v (PyStr "True"))))
  /\ (py_eq v (PyStr "True") = true <-> v = PyStr "True").
Proof.
  intros Hd Hi Hv. split.
  - unfold field_expr. rewrite Hi, Hd. cbn [value]. by destruct v.
  - destruct v as [|[]|z|s]; simpl; try (split; [discriminate | discriminate]).
    split; [intros ->%String.eqb_eq; done | intros [= ->]; apply String.eqb_refl].
Qed.


End Fields.

Section FieldsExamples.
#[local] Existing Instance Sample.types.


(** C6.  A [boolean] field whose stored constant is [True], as the
    frontend stores it, and one whose stored constant is the integer [1]:
    [get_field_ast] asks for [literal_bool(False)], since the comparison
    with the string ['True'] fails, where the claim has the literal
    decoded from the value; [get_source] prints the stored value. *)
Lemma boolean_field_true_decodes_to_false :
  field_expr (Sample.field "on" "Z" (Some (PyBool true)))
  = inr (Some (literal_bool false))
  /\ field_expr (Sample.field "on" "Z" (Some (PyInt 1)))
     = inr (Some (literal_bool false))
  /\ (exists fa,
        get_field_ast (C := Sample.collab Sample.sound)
          (Sample.field "on" "Z" (Some (PyBool true))) [] = inr fa
        /\ fa_expr fa = Some "false")
  /\ DvClass.field_source (C := Sample.collab Sample.sound)
       (Sample.field "on" "Z" (Some (PyBool true)))
     = inr ("    private boolean on = True;" +:+ nl).
Proof.
  split; [reflexivity|]. split; [reflexivity|].
  split; [eexists; split; reflexivity | reflexivity].
Qed.

Lemma boolean_field_compares_with_text_witness :
  field_expr (Sample.field "on" "Z" (Some (PyStr "True")))
  = inr (Some (literal_bool true)).
Proof.
  refine (proj1 (boolean_field_compares_with_text
                   (Sample.field "on" "Z" (Some (PyStr "True")))
                   (PyStr "True") eq_refl eq_refl _)).
  discriminate.
Defined.


End FieldsExamples.

(** ** The AST of a class: [DvClass.get_ast] *)

Section ClassAst.
Context {T : ExtTypes} {C : Collab}.
Import DvClass.

Lemma elem_of_ast_methods (ms : list method_slot) (a : method_ast) :
  a ∈ omap ast_of_slot ms
  <-> exists m, Decompiled m ∈ ms /\ m_ast m = Some a.
Proof.
  rewrite list_elem_of_omap. split.
  - intros ([em|m] & Hin & Ha); [done|]. by exists m.
  - intros (m & Hin & Ha). by exists (Decompiled m).
Qed.

(** What [process_method] does to the AST of the entry it is about: a
    call that raises leaves it as it was, a call that returns gives the
    entry an AST in AST mode and leaves it as it was in text mode. *)
Lemma process_method_ast (i : nat) (doAST : bool) (c : DvClass)
    (slot : method_slot) :
  c_methods c !! i = Some slot ->
  exists slot',
    c_methods (process_method (Z.of_nat i) doAST c).2 !! i = Some slot'
    /\ match (process_method (Z.of_nat i) doAST c).1 with
       | Some _ => ast_of_slot slot' = ast_of_slot slot
       | None =>
           if doAST then is_Some (ast_of_slot slot')
           else ast_of_slot slot' = ast_of_slot slot
       end.
Proof.
  intros Hi.
  assert (Hrun : forall m,
            m_ast m = ast_of_slot slot ->
            exists slot',
              c_methods (run_process doAST i m c).2 !! i = Some slot'
              /\ match (run_process doAST i m c).1 with
                 | Some _ => ast_of_slot slot' = ast_of_slot slot
                 | None =>
                     if doAST then is_Some (ast_of_slot slot')
                     else ast_of_slot slot' = ast_of_slot slot
                 end).
  { intros m Hm. unfold run_process.
    pose proof (run_ast doAST m) as Hast.
    destruct (DvMethod.run doAST m) as [[e|[]] s]; cbn [fst snd] in *;
      (eexists; split;
       [apply list_lookup_insert_eq; by apply lookup_lt_Some in Hi|]);
      unfold ast_of_slot at 1, DvMethod.get_ast.
    - by rewrite Hast.
    - destruct doAST; [done|]. cbn [ast_of_slot]. unfold DvMethod.get_ast.
      by rewrite Hast. }
  unfold process_method, py_getitem.
  replace (Z.of_nat i <? 0) with false by (symmetry; apply Z.ltb_ge; lia).
  replace (0 <=? Z.of_nat i) with true by (symmetry; apply Z.leb_le; lia).
  rewrite Nat2Z.id, Hi. destruct slot as [em|m].
  - destruct (vma_get_method (c_vma c) em) as [e|ma]; [by exists (Encoded em)|].
    destruct (DvMethod.__init__ ma (c_adi c)) as [e|m] eqn:Hm;
      [by exists (Encoded em)|].
    apply Hrun. by destruct (init_fresh ma (c_adi c) m Hm) as (annots & _ & ->).
  - by apply Hrun.
Qed.

(** C10, as the code has it.  The dictionary that [get_ast] returns has
    the nine keys [rawname], [name], [super], [flags], [isInterface],
    [interfaces], [annotations], [fields] and [methods], once each; under
    [methods] is the list, in the order of [self.methods], of the ASTs of
    the entries that are a [DvMethod] with an AST, and of no other:
    an entry that was never processed has none, and [process_method]
    gives one to the entry when it returns in AST mode and otherwise
    (in text mode, or when it raises) leaves the entry with the AST it
    had, or without any; [get_ast] returns whenever the AST of every
    field can be built. *)
Theorem class_ast_keys_and_methods (c : DvClass) :
  (forall d, get_ast c = inr d ->
     map fst d = ast_keys
     /\ dict_get "methods" d = Some (AMethods (omap ast_of_slot (c_methods c))))
  /\ NoDup ast_keys
  /\ (forall a, a ∈ omap ast_of_slot (c_methods c)
                <-> exists m, Decompiled m ∈ c_methods c /\ m_ast m = Some a)
  /\ (forall em, ast_of_slot (Encoded em) = None)
  /\ (forall m, m_ast m = None -> ast_of_slot (Decompiled m) = None)
  /\ (forall fields,
        collect (fun f => get_field_ast f
                            (default [] (c_field_annotations c !! ef_field_idx f)))
                (c_fields c) = inr fields ->
        exists d, get_ast c = inr d)
  /\ (forall (i : nat) doAST slot,
        c_methods c !! i = Some slot ->
        exists slot',
          c_methods (process_method (Z.of_nat i) doAST c).2 !! i = Some slot'
          /\ match (process_method (Z.of_nat i) doAST c).1 with
             | Some _ => ast_of_slot slot' = ast_of_slot slot
             | None =>
                 if doAST then is_Some (ast_of_slot slot')
                 else ast_of_slot slot' = ast_of_slot slot
             end).
Proof.
  split; [|split; [|split; [|split; [|split; [|split]]]]].
  - intros d. unfold get_ast.
    destruct (collect _ (c_fields c)) as [e|fields]; [done|].
    intros [= <-]. split; reflexivity.
  - apply (bool_decide_unpack _). by vm_compute.
  - apply elem_of_ast_methods.
  - done.
  - intros m Hm. exact Hm.
  - intros fields Hf. unfold get_ast. rewrite Hf. by eexists.
  - intros i doAST slot. apply process_method_ast.
Qed.

End ClassAst.

Section ClassAstExamples.
#[local] Existing Instance Sample.types.

(** [Bar] processed in AST mode, then again with [simplify] raising on
    [sum]: the processing of [sum] failed, with a warning, and the class
    AST still lists two methods. *)
Lemma failed_method_stays_in_class_ast :
  (Sample.bar_again true).1 = None
  /\ (exists m, (Sample.bar_again true).2.2
                = [DvClass.Warning (Decompiled m) (Exception "ValueError")])
  /\ exists d l,
       DvClass.get_ast (C := Sample.collab Sample.broken)
         (Sample.bar_again true).2.1 = inr d
       /\ DvClass.dict_get "methods" d = Some (DvClass.AMethods l)
       /\ length l = 2%nat.
Proof.
  split; [by vm_compute|]. split; [eexists; by vm_compute|].
  eexists _, _. split; [by vm_compute|]. split; by vm_compute.
Qed.

Lemma class_ast_keys_and_methods_witness :
  match DvClass.get_ast (C := Sample.collab Sample.sound)
          (Sample.class_of Sample.Bar) with
  | inr d => map fst d = DvClass.ast_keys
  | inl _ => False
  end.
Proof.
  destruct (DvClass.get_ast (C := Sample.collab Sample.sound)
              (Sample.class_of Sample.Bar)) as [e|d] eqn:Hd.
  - vm_compute in Hd. discriminate Hd.
  - exact (proj1 (proj1 (class_ast_keys_and_methods
                           (C := Sample.collab Sample.sound)
                           (Sample.class_of Sample.Bar)) d Hd)).
Defined.

End ClassAstExamples.

(** ** Decoding the annotations *)

Section Decoding.
Import AnnotationValue.

(** A comprehension raises as soon as its body raises on an element. *)
Lemma collect_raises {A B} (f : A -> exn + B) (l : list A) (x : A) (e : exn) :
  x ∈ l -> f x = inl e -> exists e', collect f l = inl e'.
Proof.
  intros Hin Hx. induction l as [|y l IH]; [by apply elem_of_nil in Hin|].
  simpl. apply elem_of_cons in Hin as [<- | Hin].
  - rewrite Hx. by eexists.
  - destruct (f y); [by eexists|].
    destruct (IH Hin) as [e' ->]. by eexists.
Qed.

Lemma collect_returns {A B} (f : A -> exn + B) (l : list A) :
  (forall x, x ∈ l -> exists y, f x = inr y) ->
  exists ys, collect f l = inr ys /\ length ys = length l.
Proof.
  induction l as [|x l IH]; intros Hall; [by exists []|].
  destruct (Hall x) as [y Hy]; [apply list_elem_of_here|].
  destruct IH as (ys & Hys & Hlen).
  { intros x' Hx'. apply Hall. by apply list_elem_of_further. }
  exists (y :: ys). simpl. rewrite Hy, Hys. split; [done|]. simpl. lia.
Qed.

(** Induction on the objects of the frontend, through the lists that
    they hold. *)
Lemma obj_induction (P : AnnotationValue.obj -> Prop) :
  (forall t v, P v -> P (EncodedValue t v)) ->
  (forall vs, Forall P vs -> P (EncodedArray vs)) ->
  (forall t els, Forall P els -> P (EncodedAnnotation t els)) ->
  (forall n v, P v -> P (AnnotationElement n v)) ->
  (forall l, Forall P l -> P (PyList l)) ->
  (forall v, P (Plain v)) ->
  forall o, P o.
Proof.
  intros HEV HEA HAn HEl HL HP. fix IH 1. intros [t v|vs|t els|n v|l|v].
  - apply HEV, IH.
  - apply HEA. induction vs as [|x vs IHvs]; constructor; [apply IH | exact IHvs].
  - apply HAn. induction els as [|x els IHels]; constructor; [apply IH | exact IHels].
  - apply HEl, IH.
  - apply HL. induction l as [|x l IHl]; constructor; [apply IH | exact IHl].
  - apply HP.
Qed.

Local Abbreviation returns_value cm o :=
  (well_formed o = true ->
   (exists r, get_annotation_value cm o = inr r)
   /\ (forall dim : Z, exists r, get_annotation_type o dim = inr r)).

Lemma well_formed_returns (cm : CM) (o : obj) :
  returns_value cm o
  /\ match o with
     | EncodedArray vs => Forall (fun x => returns_value cm x) vs
     | EncodedAnnotation _ els =>
         Forall (fun x => match x with
                          | AnnotationElement _ v => returns_value cm v
                          | _ => True
                          end) els
     | AnnotationElement _ v => returns_value cm v
     | _ => True
     end.
Proof.
  induction o as [t v IH|vs IH|t els IH|n v IH|l IH|v] using obj_induction.
  - split; [|exact I]. intros Hwf. destruct IH as [IHv IHc]. split.
    + cbn [get_annotation_value].
      destruct t;
        try (destruct v; try discriminate Hwf; by eexists).
      * destruct v as [t' v'|vs|t' els|n v'|l|v']; try discriminate Hwf.
        cbn [well_formed] in Hwf. cbn [get_annotation_value].
        destruct (collect_returns (get_annotation_value cm) vs)
          as (ys & -> & _); [|by eexists].
        intros x Hx. rewrite Forall_forall in IHc.
        apply (IHc x Hx). rewrite forallb_forall in Hwf.
        apply Hwf. by apply list_elem_of_In.
      * destruct v as [t' v'|vs|t' els|n v'|l|v']; try discriminate Hwf.
        cbn [well_formed] in Hwf. cbn [get_annotation_value].
        destruct (collect_returns (get_annotation_arg cm) els)
          as (ys & -> & _); [|by eexists].
        intros x Hx. rewrite Forall_forall in IHc. specialize (IHc x Hx).
        rewrite forallb_forall in Hwf. apply list_elem_of_In in Hx.
        specialize (Hwf x Hx). cbv beta in Hwf.
        destruct x as [tx vx|vs'|tx els'|n vx|l|vx]; try discriminate Hwf.
        destruct vx as [tx vx|vs'|tx els'|n' vx|l|vx]; try discriminate Hwf.
        destruct (IHc Hwf) as [[r Hr] Hty]. destruct (Hty 0) as [ty Hty0].
        cbn [get_annotation_arg]. rewrite Hr, Hty0. by eexists.
    + intros dim. destruct t; try by eexists.
      destruct v as [t' v'|[|x vs]|t' els|n v'|l|v']; try discriminate Hwf;
        [by eexists|].
      cbn [get_annotation_type]. cbn [well_formed forallb] in Hwf.
      apply andb_true_iff in Hwf as [Hx _].
      apply Forall_cons in IHc as [IHx _].
      apply (IHx Hx).
  - split; [discriminate|]. eapply Forall_impl; [exact IH|].
    intros x [Hx _]. exact Hx.
  - split; [discriminate|]. eapply Forall_impl; [exact IH|].
    intros x [Hx Hc]. by destruct x.
  - split; [discriminate|]. apply IH.
  - split; [discriminate | exact I].
  - split; [discriminate | exact I].
Qed.

(** An element of the frontend decodes. *)
Lemma frontend_element_returns (cm : CM) (x : obj) :
  element_ok x = true -> exists r, get_annotation_arg cm x = inr r.
Proof.
  destruct x as [t v|vs|t els|n v|l|v]; try done.
  destruct v as [t' v'|vs|t' els|n' v'|l|v']; try done.
  cbn [element_ok]. intros Hwf.
  destruct (proj1 (well_formed_returns cm (EncodedValue t' v')) Hwf)
    as [[r Hr] Hty].
  destruct (Hty 0) as [ty Hty0].
  cbn [get_annotation_arg]. rewrite Hr, Hty0. by eexists.
Qed.

End Decoding.

Section DecodingTables.
Context {T : ExtTypes} {C : Collab}.

(** With the elements of the frontend, the annotations of a set decode,
    one per item of the set. *)
Lemma annotations_of_set_returns (cm : ClassManager) (off : Z) :
  frontend_elements cm ->
  exists l, annotations_of_set cm off = inr l
            /\ length l = length (set_item_at cm off).
Proof.
  intros Hcm. unfold annotations_of_set. apply collect_returns.
  intros a _. unfold annotation_of.
  destruct (collect_returns
              (AnnotationValue.get_annotation_arg (names_of cm))
              (get_obj (annotation_at cm a))) as (objs & -> & _); [|by eexists].
  intros x Hx. apply frontend_element_returns. by apply (Hcm a).
Qed.

Lemma get_annotations_returns (cm : ClassManager) (offsets : list Z) :
  frontend_elements cm -> exists l, get_annotations cm offsets = inr l.
Proof.
  intros Hcm. unfold get_annotations.
  destruct (collect_returns (annotations_of_set cm)
              (List.filter (fun x => negb (x =? 0)) offsets)) as (sets & -> & _);
    [|by eexists].
  intros off _. destruct (annotations_of_set_returns cm off Hcm) as (l & -> & _).
  by eexists.
Qed.



Lemma field_annotations_returns (cm : ClassManager) (idxs : list Z)
    (l : list AnnotationOff) (m : gmap Z (list annotation)) :
  frontend_elements cm ->
  exists m', DvClass.field_annotations_loop cm idxs l m = inr m'.
Proof.
  intros Hcm. revert m. induction l as [|x l IH]; intros m; [by eexists|].
  cbn [DvClass.field_annotations_loop].
  destruct (existsb _ idxs); [|apply IH].
  destruct (get_annotations_returns cm [get_annotations_off x] Hcm) as [a ->].
  apply IH.
Qed.

(** The annotations of a class decode. *)
Lemma init_annotations_returns (k : ClassDefItem) :
  frontend_elements (cd_CM k) ->
  exists annots, DvClass.init_annotations k = inr annots.
Proof.
  intros Hcm. unfold DvClass.init_annotations.
  destruct (annotations_directory_item k) as [a|]; [|by eexists].
  destruct (get_annotations_returns (cd_CM k) [adi_class_annotations_off a] Hcm)
    as [ca ->].
  destruct (field_annotations_returns (cd_CM k) (map ef_field_idx (cd_fields k))
              (adi_field_annotations a) ∅ Hcm) as [fa Hfa].
  unfold DvClass.field_annotations_of. rewrite Hfa. by eexists.
Qed.

End DecodingTables.

(** ** Looking a class up: [DvMachine.get_class] *)

Section Machine.
Context {T : ExtTypes} {C : Collab}.
Import DvMachine.

(** [rsplit] gives two parts when the separator occurs. *)
Lemma rsplit1_found (c : ascii) (s : string) :
  0 <= Str.find c s -> exists p n, Str.rsplit1 c s = [p; n].
Proof.
  induction s as [|a r IH]; simpl; [lia|].
  destruct (Ascii.eqb a c) eqn:Ha.
  - intros _. destruct (Str.rsplit1 c r) as [|p [|n [|? ?]]]; by eauto.
  - destruct (Str.find c r <? 0) eqn:Hf; [lia|]. intros _.
    apply Z.ltb_ge in Hf. destruct (IH Hf) as (p & n & ->). by eauto.
Qed.

(** [DvClass.__init__] raises what the decoding of the annotations
    raises and nothing else: the unpacking of [rsplit] is guarded by
    [find]. *)
Lemma DvClass_init_outcome (k : ClassDefItem) (v : Analysis) :
  match DvClass.init_annotations k with
  | inl e => DvClass.__init__ k v = inl e
  | inr annots =>
      exists c, DvClass.__init__ k v = inr c
                /\ c_class_annotations c = annots.1
                /\ c_field_annotations c = annots.2
  end.
Proof.
  unfold DvClass.__init__.
  destruct (0 <? Str.find "/" (cd_name k)) eqn:Hf.
  - apply Z.ltb_lt in Hf.
    destruct (rsplit1_found "/" (cd_name k)) as (p & n & ->); [lia|].
    destruct (DvClass.init_annotations k); [done | by eexists].
  - destruct (DvClass.init_annotations k); [done | by eexists].
Qed.

(** With the annotation elements of the frontend, [DvClass.__init__]
    does not raise. *)
Lemma DvClass_init_returns (k : ClassDefItem) (v : Analysis) :
  frontend_elements (cd_CM k) -> exists c, DvClass.__init__ k v = inr c.
Proof.
  intros Hcm. pose proof (DvClass_init_outcome k v) as Hout.
  destruct (init_annotations_returns k Hcm) as [annots Hann].
  rewrite Hann in Hout. destruct Hout as (c & Hc & _). by exists c.
Qed.

(** Assigning to a key of the dictionary keeps the place of its item. *)
Lemma dict_set_in_place {V} (name : string) (x v : V)
    (pre post : list (string * V)) :
  name ∉ map fst pre ->
  dict_set name v (pre ++ (name, x) :: post) = (pre ++ (name, v) :: post)%list.
Proof.
  induction pre as [|[k y] pre IH]; simpl; intros Hpre.
  - by rewrite String.eqb_refl.
  - apply not_elem_of_cons in Hpre as [Hk Hpre].
    replace (String.eqb k name) with false
      by (symmetry; apply String.eqb_neq; congruence).
    by rewrite IH.
Qed.

(** The loop passes the names that do not contain the query. *)
Lemma get_class_loop_skip (class_name : string)
    (pre rest : list (string * class_slot)) (machine : DvMachine) :
  Forall (fun e => Str.contains class_name e.1 = false) pre ->
  get_class_loop class_name (pre ++ rest) machine
  = get_class_loop class_name rest machine.
Proof.
  induction 1 as [|[name klass] pre Hn Hpre IH]; simpl; [done|].
  simpl in Hn. by rewrite Hn.
Qed.

(** C7. [get_class] goes through the class map in its order and stops at
    the first name that contains the query as a substring: it returns
    that class, wrapped into a [DvClass] that also replaces it in the map
    when it was not one yet, whatever comes later in the map, an entry
    named exactly by the query included; with no such name it returns
    [None].  The wrapping is [DvClass.__init__], which returns when the
    annotation elements of the class are the frontend's; what it raises
    otherwise, [get_class] raises, and the map stays as it was. *)
Theorem get_class_first_substring_match (class_name : string) (machine : DvMachine) :
  (Forall (fun e => Str.contains class_name e.1 = false) (classes machine) ->
   get_class class_name machine = (inr None, machine))
  /\ (forall pre name klass post,
        classes machine = (pre ++ (name, klass) :: post)%list ->
        Forall (fun e => Str.contains class_name e.1 = false) pre ->
        Str.contains class_name name = true ->
        match klass with
        | Wrapped dvclass =>
            get_class class_name machine = (inr (Some dvclass), machine)
        | Raw k =>
            (frontend_elements (cd_CM k) ->
             exists dvclass,
               DvClass.__init__ k (vma machine) = inr dvclass
               /\ get_class class_name machine
                  = (inr (Some dvclass),
                     {| vma := vma machine;
                        classes :=
                          dict_set name (Wrapped dvclass) (classes machine) |})
               /\ (name ∉ map fst pre ->
                   dict_set name (Wrapped dvclass) (classes machine)
                   = (pre ++ (name, Wrapped dvclass) :: post)%list))
            /\ (forall dvclass,
                  DvClass.__init__ k (vma machine) = inr dvclass ->
                  get_class class_name machine
                  = (inr (Some dvclass),
                     {| vma := vma machine;
                        classes :=
                          dict_set name (Wrapped dvclass) (classes machine) |}))
            /\ (forall e,
                  DvClass.__init__ k (vma machine) = inl e ->
                  get_class class_name machine = (inl e, machine))
        end).
Proof.
  split.
  - intros Hno. unfold get_class.
    rewrite <- (app_nil_r (classes machine)) at 1.
    by rewrite get_class_loop_skip.
  - intros pre name klass post Hcl Hpre Hname.
    assert (Hloop : get_class class_name machine
                    = get_class_loop class_name ((name, klass) :: post) machine).
    { unfold get_class. rewrite Hcl. by apply get_class_loop_skip. }
    simpl in Hloop. rewrite Hname in Hloop.
    destruct klass as [k|dvclass]; [|done]. split; [|split].
    + intros Hcm.
      destruct (DvClass_init_returns k (vma machine) Hcm) as [dvclass Hinit].
      exists dvclass. rewrite Hinit in Hloop. split; [done|]. split; [done|].
      intros Hfresh. rewrite Hcl. by apply dict_set_in_place.
    + intros dvclass Hinit. by rewrite Hinit in Hloop.
    + intros e Hinit. by rewrite Hinit in Hloop.
Qed.

End Machine.

Section MachineExamples.
#[local] Existing Instance Sample.types.

(** The class managers of the sample hold elements of the frontend. *)
Lemma cm_frontend_sample :
  frontend_elements Sample.cm /\ frontend_elements Sample.cm_tagged.
Proof.
  split; intros off x Hx.
  - by apply elem_of_nil in Hx.
  - cbn in Hx.
    repeat (apply elem_of_cons in Hx as [-> | Hx]; [reflexivity|]).
    by apply elem_of_nil in Hx.
Qed.

(** The query [Lfoo/Bar;] names the second class of the sample machine
    exactly, and [get_class] returns the first, whose name contains it. *)
Lemma get_class_first_substring_match_witness :
  exists dvclass,
    DvClass.__init__ (C := Sample.collab Sample.sound) Sample.Outer tt = inr dvclass
    /\ DvMachine.get_class (C := Sample.collab Sample.sound) "Lfoo/Bar;"
                           Sample.machine
       = (inr (Some dvclass),
          {| DvMachine.vma := tt;
             DvMachine.classes :=
               DvMachine.dict_set "Lapp/Lfoo/Bar;" (DvMachine.Wrapped dvclass)
                 (DvMachine.classes Sample.machine) |})
    /\ c_thisclass dvclass = "Lapp/Lfoo/Bar;".
Proof.
  destruct (proj1 (proj2 (get_class_first_substring_match
                            (C := Sample.collab Sample.sound) "Lfoo/Bar;"
                            Sample.machine)
                     [] "Lapp/Lfoo/Bar;" (DvMachine.Raw Sample.Outer)
                     [("Lfoo/Bar;", DvMachine.Raw Sample.Bar)]
                     eq_refl (Forall_nil_2 _) eq_refl)
              (proj1 cm_frontend_sample))
    as (dvclass & Hinit & Hget & _).
  exists dvclass. split; [exact Hinit|]. split; [exact Hget|].
  vm_compute in Hinit. injection Hinit as <-. reflexivity.
Defined.

End MachineExamples.

(** ** Failing methods: [DvClass.process] *)

Section Isolation.
Context {T : ExtTypes} {C : Collab}.
Import DvClass.

(** [process_method] replaces at most one entry of [methods]. *)
Lemma process_method_length (num : Z) (doAST : bool) (c : DvClass) :
  length (c_methods (process_method num doAST c).2) = length (c_methods c).
Proof.
  unfold process_method, run_process.
  destruct (py_getitem (c_methods c) num) as [[i [em|m]]|]; [| |done].
  - destruct (vma_get_method (c_vma c) em) as [e|ma]; [done|].
    destruct (DvMethod.__init__ ma (c_adi c)) as [e|m]; [done|].
    destruct (DvMethod.run doAST m) as [r s]. simpl. apply length_insert.
  - destruct (DvMethod.run doAST m) as [r s]. simpl. apply length_insert.
Qed.

Lemma process_all_length (idxs : list nat) (doAST : bool) (c : DvClass) :
  length (c_methods (process_all idxs doAST c)) = length (c_methods c).
Proof.
  unfold process_all. revert c. induction idxs as [|i idxs IH]; intros c; [done|].
  cbn [fold_left]. rewrite IH. apply process_method_length.
Qed.

(** When every exception is an [Exception], the loop goes through all
    the indices it is given and logs one warning per raising call. *)
Lemma process_loop_all (idxs : list nat) (doAST : bool) (c : DvClass)
    (log : list log_record) :
  Forall (fun i => (i < length (c_methods c))%nat) idxs ->
  raises_only_Exception idxs doAST c = true ->
  process_loop idxs doAST c log
  = (None, (process_all idxs doAST c, (log ++ warnings idxs doAST c)%list)).
Proof.
  revert c log. induction idxs as [|i idxs IH]; intros c log Hlt Hexn.
  - simpl. by rewrite app_nil_r.
  - apply Forall_cons in Hlt as [Hi Hlt].
    unfold process_all.
    cbn [process_loop warnings raises_only_Exception fold_left] in *.
    pose proof (process_method_length (Z.of_nat i) doAST c) as Hlen.
    destruct (process_method (Z.of_nat i) doAST c) as [r c'].
    cbn [snd] in *. apply andb_true_iff in Hexn as [He Hexn].
    assert (Hlt' : Forall (fun i => (i < length (c_methods c'))%nat) idxs)
      by by rewrite Hlen.
    destruct r as [e|].
    + rewrite He.
      destruct (c_methods c' !! i) as [m|] eqn:Hm.
      * rewrite IH by done. unfold process_all. by rewrite <- app_assoc.
      * apply lookup_ge_None in Hm. lia.
    + by rewrite IH by done.
Qed.

(** An exception that is not an [Exception] leaves the loop at once. *)
Lemma process_loop_propagates (i : nat) (rest : list nat) (doAST : bool)
    (c c' : DvClass) (log : list log_record) (e : exn) :
  process_method (Z.of_nat i) doAST c = (Some e, c') ->
  is_Exception e = false ->
  process_loop (i :: rest) doAST c log = (Some e, (c', log)).
Proof. intros Hpm He. simpl. by rewrite Hpm, He. Qed.




End Isolation.

Section IsolationExamples.
#[local] Existing Instance Sample.types.


(** [Bar] processed again, [simplify] raising this time on [sum]: the
    warning is logged, and [sum] keeps the text and the AST that the
    first processing gave it. *)
Example reprocessed_method_keeps_its_text :
  (Sample.bar_again false).1 = None
  /\ (exists m, (Sample.bar_again false).2.2
                = [DvClass.Warning (Decompiled m) (Exception "ValueError")])
  /\ DvClass.get_source (C := Sample.collab Sample.broken)
       (Sample.bar_again false).2.1
     = inr ("package foo;" +:+ nl +:+ "public class Bar {" +:+ nl
              +:+ "    private byte tag = -0x2;" +:+ nl
              +:+ "J sum() { }" +:+ nl
              +:+ "V poke() { }" +:+ nl +:+ "}" +:+ nl).
Proof.
  split; [by vm_compute|]. split; [eexists; by vm_compute | by vm_compute].
Qed.


End IsolationExamples.


(** * Further properties *)

(** ** The string operations *)

Section Strings.

Lemma append_cons (x : ascii) (a b : string) :
  String x a +:+ b = String x (a +:+ b).
Proof. reflexivity. Qed.

Lemma append_nil_l (b : string) : "" +:+ b = b.
Proof. reflexivity. Qed.

Lemma append_assoc (a b c : string) : (a +:+ b) +:+ c = a +:+ (b +:+ c).
Proof.
  induction a as [|x a IH]; [done|]. by rewrite !append_cons, IH.
Qed.

Lemma append_nil_r (a : string) : a +:+ "" = a.
Proof. induction a as [|x a IH]; [done|]. by rewrite append_cons, IH. Qed.



(** [find] is negative exactly when the character does not occur. *)
Lemma find_range (c : ascii) (s : string) : -1 <= Str.find c s.
Proof.
  induction s as [|a s IH]; simpl; [lia|].
  destruct (Ascii.eqb a c); [lia|]. destruct (Str.find c s <? 0); lia.
Qed.



Lemma rsplit1_none (c : ascii) (s : string) :
  Str.find c s = -1 -> Str.rsplit1 c s = [s].
Proof.
  induction s as [|a s IH]; simpl; [done|].
  destruct (Ascii.eqb a c); [lia|].
  destruct (Str.find c s <? 0) eqn:E; [|pose proof (find_range c s); lia].
  intros _. rewrite IH; [done|].
  apply Z.ltb_lt in E. pose proof (find_range c s). lia.
Qed.


End Strings.


(** ** The class wrapper: [DvClass.__init__] *)

Section ClassInit.
Context {T : ExtTypes} {C : Collab}.






End ClassInit.


(** ** What [DvMethod.process] leaves behind *)

Section ProcessResult.
Context {T : ExtTypes} {C : Collab}.
Import DvMethod.

Lemma ensures_bind {A B} (P : pstate -> Prop) (R : A -> pstate -> Prop)
    (Q : B -> pstate -> Prop) (m : M A) (k : A -> M B) :
  ensures P m R -> (forall a, ensures (R a) (k a) Q) -> ensures P (bind m k) Q.
Proof.
  intros Hm Hk s b s' HP. unfold bind.
  destruct (m s) as [[e|a] s1] eqn:Hms; [done|].
  intros Hks. exact (Hk a s1 b s' (Hm s a s1 HP Hms) Hks).
Qed.

(** Only the end of a sequence matters for what holds when it returns. *)
Lemma ensures_bind_tail {A B} (P : pstate -> Prop)
    (Q : B -> pstate -> Prop) (m : M A) (k : A -> M B) :
  (forall a, ensures (fun _ => True) (k a) Q) -> ensures P (bind m k) Q.
Proof.
  intros Hk. apply (ensures_bind P (fun _ _ => True)); [|done].
  by intros s a s' _ _.
Qed.

Lemma ensures_run_graph {A} (P : pstate -> Prop) (p : pass)
    (f : Graph -> outcome A Graph) (g : Graph) :
  ensures P (run_graph p f g) (fun r s => m_graph (self s) = Some r.2).
Proof.
  intros s r s' _. unfold run_graph, bind, emit, update, lift, ret. simpl.
  destruct (f g) as [[e|a] g']; simpl; [done|]. by intros [= <- <-].
Qed.

Ltac keeps :=
  repeat first
    [ apply preserves_ret
    | apply preserves_emit
    | apply preserves_get_self
    | apply preserves_lift
    | apply preserves_update; reflexivity
    | apply preserves_bind; [ | intros ?; cbv beta ]
    | match goal with
      | |- preserves _ (match ?x with _ => _ end) => destruct x; cbv beta iota
      end ].

Lemma preserves_png {X} (f : DvMethod -> X) (g : Graph) (dir : string) :
  preserves f (png g dir).
Proof. unfold png, check. keeps. Qed.

(** When the pipeline returns, the graph it returns is [self.graph]. *)
Lemma decompile_returns_self_graph (me : DvMethod) (b : BasicBlock) :
  ensures (fun _ => True) (decompile me b)
          (fun g s => m_graph (self s) = Some g).
Proof.
  unfold decompile.
  do 19 (apply ensures_bind_tail; intros ?; cbv beta;
         repeat match goal with
                | |- ensures _ (match ?x with _ => _ end) _ =>
                    destruct x; cbv beta iota
                end).
  eapply ensures_bind; [apply ensures_run_graph|].
  intros [res gS]. cbv beta iota. intros st gR st' Hg.
  pose proof (preserves_png m_graph gS "/tmp/dad/structured" st) as Hp.
  unfold bind, ret.
  destruct (png gS "/tmp/dad/structured" st) as [[err|[]] st1]; [done|].
  intros [= <- <-]. simpl in *. by rewrite Hp.
Qed.

(** What the writer step stores. *)
Lemma emit_method_stores (doAST : bool) (g g0 : option Graph) :
  ensures (fun s => m_graph (self s) = g0) (emit_method doAST g)
    (fun _ s =>
       m_graph (self s) = g0
       /\ (if doAST then is_Some (m_ast (self s))
           else is_Some (m_writer (self s)))
       /\ (if doAST then NewJSONWriter g else NewWriter g) ∈ trace s).
Proof.
  intros s u s' Hg. unfold emit_method, bind, get_self, emit, lift, update.
  simpl. destruct doAST.
  - destruct (JSONWriter_new g (self s)) as [e|jw]; [done|].
    destruct (JSONWriter_get_ast jw) as [e|a]; [done|].
    intros [= _ <-]. simpl. split; [done|]. split; [by eexists|].
    apply elem_of_app. left. apply elem_of_app. right. apply list_elem_of_here.
  - destruct (Writer_new g (self s)) as [e|w]; [done|]. simpl.
    destruct (write_method w) as [[e|[]] w']; [done|].
    intros [= _ <-]. simpl. split; [done|]. split; [by eexists|].
    apply elem_of_app. left. apply elem_of_app. right. apply list_elem_of_here.
Qed.

(** X4. When [process] returns normally its result is stored: the AST in
    [self.ast] in AST mode, the writer in [self.writer] otherwise; and
    for a method with code the graph that the writer was created on is
    the structured graph kept in [self.graph]. *)
Theorem process_stores_its_result (doAST : bool) (m : DvMethod) :
  (run doAST m).1 = inr tt ->
  (if doAST then is_Some (m_ast (self (run doAST m).2))
   else is_Some (m_writer (self (run doAST m).2)))
  /\ (is_Some (m_start_block m) ->
      exists g,
        m_graph (self (run doAST m).2) = Some g
        /\ (if doAST then NewJSONWriter (Some g) else NewWriter (Some g))
             ∈ trace (run doAST m).2).
Proof.
  unfold run. intros Hok.
  destruct (m_start_block m) as [b|] eqn:Hb.
  - rewrite (process_with_code doAST {| self := m; trace := [] |} b Hb) in *.
    cbn [self] in *. unfold bind in *.
    pose proof (decompile_returns_self_graph m b {| self := m; trace := [] |})
      as Hdec.
    destruct (decompile m b {| self := m; trace := [] |}) as [[e|g] s1];
      [done|].
    specialize (Hdec g s1 I eq_refl).
    pose proof (emit_method_stores doAST (Some g) (Some g) s1) as Hem.
    destruct (emit_method doAST (Some g) s1) as [[e|[]] sf]; [done|].
    destruct (Hem tt sf Hdec eq_refl) as (Hg & Hres & Htr).
    split; [done|]. intros _. by exists g.
  - rewrite (process_no_code doAST {| self := m; trace := [] |} Hb) in *.
    pose proof (emit_method_stores doAST None (m_graph m)
                  {| self := m; trace := [] |}) as Hem.
    destruct (emit_method doAST None _) as [[e|[]] sf]; [done|].
    destruct (Hem tt sf eq_refl eq_refl) as (Hg & Hres & Htr).
    split; [done|]. by intros [? [=]].
Qed.

(** X5. The two modes do not disturb each other: [process] in AST mode
    leaves [self.writer] as it was and [process] in text mode leaves
    [self.ast] as it was, whether it returns or raises, so the text and
    the AST of a method that was processed in both modes are both kept. *)
Theorem process_modes_are_independent (m : DvMethod) :
  m_writer (self (run true m).2) = m_writer m
  /\ m_ast (self (run false m).2) = m_ast m.
Proof.
  assert (Hw : forall g, preserves m_writer (emit_method true g))
    by (intros g; unfold emit_method; keeps).
  assert (Ha : forall g, preserves m_ast (emit_method false g))
    by (intros g; unfold emit_method, lift; keeps).
  unfold run. destruct (m_start_block m) as [b|] eqn:Hb.
  - rewrite !(process_with_code _ {| self := m; trace := [] |} b Hb).
    cbn [self]. split.
    + apply (preserves_bind m_writer); [apply decompile_keeps_writer | done].
    + apply (preserves_bind m_ast); [apply decompile_keeps_ast | done].
  - rewrite !(process_no_code _ {| self := m; trace := [] |} Hb).
    split; [apply Hw | apply Ha].
Qed.

(** X6. The registration of the temporaries binds every key of
    [def_uses] that is not an integer to its upper-cased name and changes
    nothing else: the registers and the names that are not keys keep
    their entry. *)
Theorem register_temporaries_lookup (keys : list (var * Z))
    (v : gmap var var_entry) :
  (forall n, register_temporaries keys v !! Reg n = v !! Reg n)
  /\ (forall s i, (Tmp s, i) ∈ keys ->
        register_temporaries keys v !! Tmp s = Some (Upper (Str.upper s)))
  /\ (forall s, (forall i, (Tmp s, i) ∉ keys) ->
        register_temporaries keys v !! Tmp s = v !! Tmp s).
Proof.
  split; [|split].
  - intros n. apply register_temporaries_reg.
  - intros s i. apply register_temporaries_tmp.
  - intros s. unfold register_temporaries. revert v.
    induction keys as [|[[r|s'] j] keys IH]; intros v Hno; [done| |]; simpl.
    + apply IH. intros i Hi. apply (Hno i). by apply list_elem_of_further.
    + rewrite IH.
      * apply lookup_insert_ne. intros [= ->]. apply (Hno j).
        apply list_elem_of_here.
      * intros i Hi. apply (Hno i). by apply list_elem_of_further.
Qed.


End ProcessResult.


(** ** Field initialisers: errors and agreement of the renderings *)

Section FieldErrors.
Context {T : ExtTypes} {C : Collab}.

(** [struct.pack] accepts exactly the integers of [0, 255]. *)
Lemma signed_byte_returns_iff (v : pyval) :
  (exists z, signed_byte v = inr z)
  <-> exists b, as_int v = Some b /\ 0 <= b <= 255.
Proof.
  unfold signed_byte, struct_pack_B. split.
  - intros [z Hz]. destruct (as_int v) as [b|]; [|done].
    exists b. split; [done|].
    destruct ((0 <=? b) && (b <=? 255)) eqn:E; [|done].
    apply andb_true_iff in E as [?%Z.leb_le ?%Z.leb_le]. lia.
  - intros (b & -> & Hb).
    replace ((0 <=? b) && (b <=? 255)) with true
      by (symmetry; apply andb_true_iff; split; apply Z.leb_le; lia).
    destruct (Byte.of_N (Z.to_N b)) as [x|] eqn:Hx.
    + by eexists.
    + apply Byte.of_N_None_iff in Hx. lia.
Qed.

(** X8. [get_field_ast] raises only what [struct.pack] raises on the
    stored value of a byte field that it refuses, or what the builder of
    [dast] raises on the call that [get_field_ast] makes; for a field
    without initial value, or whose initial value holds [None], no
    builder is called and [get_field_ast] returns with no expression; and
    when the builder returns a node, [get_field_ast] returns with this
    node as expression. *)
Theorem field_ast_outcome (field : EncodedField)
    (annotations : list annotation) :
  (forall e, get_field_ast field annotations = inl e ->
     (proto field = "B"
      /\ exists iv, init_value field = Some iv
                    /\ signed_byte (value iv) = inl e
                    /\ forall b, as_int (value iv) = Some b -> ~ 0 <= b <= 255)
     \/ (exists call, field_expr field = inr (Some call) /\ dast call = inl e))
  /\ ((init_value field = None
       \/ exists iv, init_value field = Some iv /\ value iv = PyNone) ->
      exists fa, get_field_ast field annotations = inr fa /\ fa_expr fa = None)
  /\ (forall call node,
        field_expr field = inr (Some call) -> dast call = inr node ->
        exists fa, get_field_ast field annotations = inr fa
                   /\ fa_expr fa = Some node).
Proof.
  split; [|split].
  - intros e. unfold get_field_ast.
    destruct (field_expr field) as [e'|[call|]] eqn:Hfe; [| |done].
    2: { destruct (dast call) as [e'|node] eqn:Hcall; [|done].
         intros [= ->]. right. by exists call. }
    intros [= ->]. left.
    unfold field_expr in Hfe.
    destruct (init_value field) as [iv|]; [|done].
    assert (Hres : proto field = "B" /\ signed_byte (value iv) = inl e).
    { destruct (value iv) eqn:Hv; [done| | |];
        repeat match type of Hfe with
               | (if ?c then _ else _) = _ => destruct c eqn:?; try done
               end;
        match goal with
        | H : String.eqb (proto field) "B" = true |- _ =>
            apply String.eqb_eq in H; split; [done|];
            by destruct (signed_byte _); [injection Hfe as ->|]
        end. }
    destruct Hres as [Hp Hs]. split; [done|]. exists iv. split; [done|].
    split; [done|]. intros b Hb Hrange.
    destruct (proj2 (signed_byte_returns_iff (value iv))) as [z Hz];
      [by exists b|]. congruence.
  - intros [Hnone | (iv & Hiv & Hv)]; unfold get_field_ast, field_expr.
    + rewrite Hnone. by eexists.
    + rewrite Hiv, Hv. by eexists.
  - intros call node Hfe Hcall. unfold get_field_ast. rewrite Hfe, Hcall.
    by eexists.
Qed.

(** X9. One byte field whose stored value [struct.pack] refuses makes
    the three renderings of the whole class raise: there is no isolation
    of fields as there is of methods. *)
Theorem bad_byte_field_fails_the_class (c : DvClass) (field : EncodedField)
    (z : Z) :
  field ∈ c_fields c ->
  ef_descriptor field = "B" -> proto field = "B" ->
  get_type "B" <> "String" ->
  init_value field = Some {| value := PyInt z |} ->
  ~ 0 <= z <= 255 ->
  (exists e, DvClass.get_ast c = inl e)
  /\ (exists e, DvClass.get_source c = inl e)
  /\ (exists e, DvClass.get_source_ext c = inl e).
Proof.
  intros Hin Hd Hp Hty Hi Hz.
  destruct (signed_byte_out_of_range z Hz) as [e He].
  apply String.eqb_neq in Hty. split; [|split].
  - unfold DvClass.get_ast.
    destruct (collect_raises
                (fun f => get_field_ast f
                   (default [] (c_field_annotations c !! ef_field_idx f)))
                (c_fields c) field e Hin) as [e' ->]; [|by eexists].
    unfold get_field_ast, field_expr. rewrite Hi, Hd, Hp. cbn [value].
    cbn [String.eqb Ascii.eqb Bool.eqb Str.contains String.prefix orb andb].
    by rewrite He.
  - unfold DvClass.get_source.
    destruct (collect_raises DvClass.field_source (c_fields c) field e Hin)
      as [e' ->]; [|by eexists].
    unfold DvClass.field_source, DvClass.value_source.
    rewrite Hi, Hd, Hty, Hp. cbn [value String.eqb Ascii.eqb Bool.eqb].
    by rewrite He.
  - unfold DvClass.get_source_ext.
    destruct (collect_raises DvClass.field_source_ext (c_fields c) field e Hin)
      as [e' ->]; [|by eexists].
    unfold DvClass.field_source_ext, DvClass.value_source_ext.
    rewrite Hi, Hd, Hty, Hp. cbn [value String.eqb Ascii.eqb Bool.eqb].
    by rewrite He.
Qed.

(** X10. The reading of a stored byte undoes the storage of a signed
    byte: a value of [-128, 127] stored as its residue modulo 256 is read
    back, and two stored bytes that read the same are the same. *)
Theorem byte_storage_round_trip :
  (forall x, -128 <= x <= 127 -> signed_byte (PyInt (x mod 256)) = inr x)
  /\ (forall b1 b2, 0 <= b1 <= 255 -> 0 <= b2 <= 255 ->
        signed_byte (PyInt b1) = signed_byte (PyInt b2) -> b1 = b2).
Proof.
  split.
  - intros x Hx. assert (0 <= x mod 256 < 256) by (apply Z.mod_pos_bound; lia).
    rewrite signed_byte_int by lia.
    destruct (decide (0 <= x)).
    + rewrite Z.mod_small by lia.
      by replace (x <? 128) with true by (symmetry; apply Z.ltb_lt; lia).
    + replace (x mod 256) with (x + 256)
        by (apply (Z.mod_unique _ _ (-1)); lia).
      replace (x + 256 <? 128) with false by (symmetry; apply Z.ltb_ge; lia).
      f_equal. lia.
  - intros b1 b2 H1 H2. rewrite !signed_byte_int by done.
    destruct (b1 <? 128) eqn:E1; destruct (b2 <? 128) eqn:E2;
      intros [= Heq];
      try apply Z.ltb_lt in E1; try apply Z.ltb_lt in E2;
      try apply Z.ltb_ge in E1; try apply Z.ltb_ge in E2; lia.
Qed.

(** X11. The two renderings agree on the initialiser of a field: what
    [get_source_ext] gives is [ = ] followed by what [get_source] gives,
    and [get_source_ext] raises where [get_source] does not only for a
    [String] field whose value is true and not a [str], which it cannot
    [encode]. *)
Theorem field_value_renderings_agree (f_type : string) (field : EncodedField)
    (v : pyval) :
  (forall s', DvClass.value_source_ext f_type field v = inr s' ->
     exists s, DvClass.value_source f_type field v = inr s
               /\ s' = " = " +:+ s)
  /\ (forall s, DvClass.value_source f_type field v = inr s ->
        DvClass.value_source_ext f_type field v = inr (" = " +:+ s)
        \/ (f_type = "String" /\ truthy v = true /\ forall t, v <> PyStr t)).
Proof.
  unfold DvClass.value_source, DvClass.value_source_ext.
  destruct (String.eqb f_type "String") eqn:Hty.
  - apply String.eqb_eq in Hty. destruct (truthy v) eqn:Hv.
    + split.
      * intros s'. destruct v; intros [= <-]. by eexists.
      * intros s [= <-]. destruct v; try (right; by repeat split). by left.
    + split; [intros s' [= <-]; by eexists | intros s [= <-]; by left].
  - destruct (String.eqb (proto field) "B").
    + destruct (signed_byte v); split;
        [done | done | intros s' [= <-]; by eexists | intros s [= <-]; by left].
    + split; [intros s' [= <-]; by eexists | intros s [= <-]; by left].
Qed.

End FieldErrors.


(** ** Indexing and replacing the methods: [DvClass.process_method] *)

Section ProcessMethod.
Context {T : ExtTypes} {C : Collab}.
Import DvClass.

Lemma py_getitem_nat {A} (l : list A) (i : nat) :
  py_getitem l (Z.of_nat i) = (fun x => (i, x)) <$> l !! i.
Proof.
  unfold py_getitem.
  replace (Z.of_nat i <? 0) with false by (symmetry; apply Z.ltb_ge; lia).
  replace (0 <=? Z.of_nat i) with true by (symmetry; apply Z.leb_le; lia).
  rewrite Nat2Z.id. by destruct (l !! i).
Qed.

(** X12. [process_method] indexes [methods] as Python does: an index
    from [-len] to [-1] counts from the end, and an index outside
    [-len, len) raises [IndexError] and leaves the class as it was. *)
Theorem process_method_index (num : Z) (doAST : bool) (c : DvClass) :
  (- Z.of_nat (length (c_methods c)) <= num < 0 ->
   process_method num doAST c
   = process_method (num + Z.of_nat (length (c_methods c))) doAST c)
  /\ (~ - Z.of_nat (length (c_methods c)) <= num
          < Z.of_nat (length (c_methods c)) ->
      process_method num doAST c
      = (Some (Exception "IndexError: list index out of range"), c)).
Proof.
  unfold process_method, py_getitem. split.
  - intros Hneg.
    replace (num <? 0) with true by (symmetry; apply Z.ltb_lt; lia).
    replace (num + Z.of_nat (length (c_methods c)) <? 0) with false
      by (symmetry; apply Z.ltb_ge; lia).
    done.
  - intros Hout. destruct (num <? 0) eqn:E.
    + apply Z.ltb_lt in E.
      replace (0 <=? num + Z.of_nat (length (c_methods c))) with false
        by (symmetry; apply Z.leb_gt; lia).
      done.
    + apply Z.ltb_ge in E.
      replace (0 <=? num) with true by (symmetry; apply Z.leb_le; lia).
      rewrite (proj2 (lookup_ge_None (c_methods c) (Z.to_nat num))) by lia.
      done.
Qed.

(** What [process_method] on index [i] changes: the entry [i] of
    [methods] at most, which never goes back from a [DvMethod] to the
    frontend's method and is a [DvMethod] whenever one can be built. *)
Lemma process_method_frame (i : nat) (doAST : bool) (c : DvClass) :
  let c' := (process_method (Z.of_nat i) doAST c).2 in
  c_vma c' = c_vma c /\ c_adi c' = c_adi c /\ c_fields c' = c_fields c
  /\ length (c_methods c') = length (c_methods c)
  /\ (forall j, j <> i -> c_methods c' !! j = c_methods c !! j)
  /\ (forall m, c_methods c !! i = Some (Decompiled m) ->
        exists m', c_methods c' !! i = Some (Decompiled m'))
  /\ (forall em ma m,
        c_methods c !! i = Some (Encoded em) ->
        vma_get_method (c_vma c) em = inr ma ->
        DvMethod.__init__ ma (c_adi c) = inr m ->
        exists m', c_methods c' !! i = Some (Decompiled m')).
Proof.
  unfold process_method. rewrite py_getitem_nat.
  destruct (c_methods c !! i) as [[em|m]|] eqn:Hi; simpl.
  - destruct (vma_get_method (c_vma c) em) as [e|ma] eqn:Hvm; simpl.
    { repeat split; try done. intros ??? [= <-] ?. congruence. }
    destruct (DvMethod.__init__ ma (c_adi c)) as [e|m] eqn:Hinit; simpl.
    { repeat split; try done. intros ??? [= <-] ? ?. congruence. }
    unfold run_process. destruct (DvMethod.run doAST m) as [r s]. simpl.
    apply lookup_lt_Some in Hi.
    repeat split; try done.
    + apply length_insert.
    + intros j Hj. by apply list_lookup_insert_ne.
    + intros ??? _ _ _. eexists. by apply list_lookup_insert_eq.
  - unfold run_process. destruct (DvMethod.run doAST m) as [r s]. simpl.
    apply lookup_lt_Some in Hi.
    repeat split; try done.
    + apply length_insert.
    + intros j Hj. by apply list_lookup_insert_ne.
    + intros ? _. eexists. by apply list_lookup_insert_eq.
  - repeat split; done.
Qed.

Lemma process_all_frame (idxs : list nat) (doAST : bool) (c : DvClass) :
  c_vma (process_all idxs doAST c) = c_vma c
  /\ c_adi (process_all idxs doAST c) = c_adi c
  /\ c_fields (process_all idxs doAST c) = c_fields c
  /\ (forall j, j ∉ idxs ->
        c_methods (process_all idxs doAST c) !! j = c_methods c !! j).
Proof.
  unfold process_all. revert c.
  induction idxs as [|i idxs IH]; intros c; [done|]. cbn [fold_left].
  destruct (process_method_frame i doAST c) as (Hv & Ha & Hf & _ & Hj & _).
  destruct (IH (process_method (Z.of_nat i) doAST c).2) as (Hv' & Ha' & Hf' & Hj').
  rewrite Hv', Ha', Hf'. repeat split; try done.
  intros j Hn. apply not_elem_of_cons in Hn as [Hne Hn].
  rewrite Hj' by done. by apply Hj.
Qed.

Lemma process_all_wraps (idxs : list nat) (doAST : bool) (c : DvClass) (i : nat) :
  NoDup idxs -> i ∈ idxs ->
  (forall m, c_methods c !! i = Some (Decompiled m) ->
     exists m', c_methods (process_all idxs doAST c) !! i = Some (Decompiled m'))
  /\ (forall em ma m,
        c_methods c !! i = Some (Encoded em) ->
        vma_get_method (c_vma c) em = inr ma ->
        DvMethod.__init__ ma (c_adi c) = inr m ->
        exists m', c_methods (process_all idxs doAST c) !! i
                   = Some (Decompiled m')).
Proof.
  revert c. induction idxs as [|j idxs IH]; intros c Hnd Hin;
    [by apply elem_of_nil in Hin|].
  apply NoDup_cons in Hnd as [Hj Hnd].
  destruct (process_method_frame j doAST c)
    as (Hv & Ha & _ & _ & Hother & Hkeep & Hbuild).
  change (process_all (j :: idxs) doAST c)
    with (process_all idxs doAST (process_method (Z.of_nat j) doAST c).2).
  set (c1 := (process_method (Z.of_nat j) doAST c).2) in *.
  apply elem_of_cons in Hin as [-> | Hin].
  - destruct (process_all_frame idxs doAST c1) as (_ & _ & _ & Hfr).
    rewrite Hfr by done. split; [apply Hkeep | apply Hbuild].
  - assert (Hne : i <> j) by (intros ->; done).
    destruct (IH c1 Hnd Hin) as [IH1 IH2]. split.
    + intros m Hm. apply (IH1 m). by rewrite Hother.
    + intros em ma m Hm Hma Hinit. apply (IH2 em ma m).
      * by rewrite Hother.
      * by rewrite Hv.
      * by rewrite Ha.
Qed.

(** X13. When no exception other than an [Exception] is raised,
    [process] leaves a [DvMethod] in every entry of [methods] for which
    one can be built, and in every entry that already held one; the
    fields of the class and the length of [methods] are unchanged. *)
Theorem process_wraps_the_methods (doAST : bool) (c : DvClass) :
  raises_only_Exception (seq 0 (length (c_methods c))) doAST c = true ->
  let c' := (process doAST c).2.1 in
  (process doAST c).1 = None
  /\ c_fields c' = c_fields c
  /\ length (c_methods c') = length (c_methods c)
  /\ (forall i m, c_methods c !! i = Some (Decompiled m) ->
        exists m', c_methods c' !! i = Some (Decompiled m'))
  /\ (forall i em ma m,
        c_methods c !! i = Some (Encoded em) ->
        vma_get_method (c_vma c) em = inr ma ->
        DvMethod.__init__ ma (c_adi c) = inr m ->
        exists m', c_methods c' !! i = Some (Decompiled m')).
Proof.
  intros Hexn. unfold process. rewrite process_loop_all; [| | done].
  2: { apply Forall_forall. intros i Hi. apply elem_of_seq in Hi. lia. }
  cbn [fst snd].
  destruct (process_all_frame (seq 0 (length (c_methods c))) doAST c)
    as (_ & _ & Hf & _).
  split; [done|]. split; [done|]. split; [apply process_all_length|].
  assert (Hseq : forall (i : nat) x, c_methods c !! i = Some x ->
                   i ∈ seq 0 (length (c_methods c))).
  { intros i x Hi. apply lookup_lt_Some in Hi. apply elem_of_seq. lia. }
  split.
  - intros i m Hi.
    exact (proj1 (process_all_wraps _ doAST c i (NoDup_seq _ _) (Hseq _ _ Hi)) m Hi).
  - intros i em ma m Hi.
    exact (proj2 (process_all_wraps _ doAST c i (NoDup_seq _ _) (Hseq _ _ Hi)) em ma m Hi).
Qed.

End ProcessMethod.


(** ** Looking classes up again: [DvMachine.get_class] *)

Section Lookup.
Context {T : ExtTypes} {C : Collab}.
Import DvMachine.

(** Where the loop of [get_class] stops. *)
Lemma get_class_loop_inv (class_name : string)
    (items : list (string * class_slot)) (machine : DvMachine) :
  Forall (fun e => Str.contains class_name e.1 = false) items
  \/ exists pre name klass post,
       items = (pre ++ (name, klass) :: post)%list
       /\ Forall (fun e => Str.contains class_name e.1 = false) pre
       /\ Str.contains class_name name = true.
Proof.
  induction items as [|[name klass] items IH]; [by left|].
  destruct (Str.contains class_name name) eqn:Hn.
  - right. by exists [], name, klass, items.
  - destruct IH as [Hno | (pre & n & k & post & -> & Hpre & Hn')].
    + left. by constructor.
    + right. exists ((name, klass) :: pre), n, k, post.
      split; [done|]. split; [by constructor | done].
Qed.

Lemma dict_set_keys {V} (name : string) (v : V) (d : list (string * V)) :
  name ∈ map fst d -> map fst (dict_set name v d) = map fst d.
Proof.
  induction d as [|[k x] d IH]; simpl; [by intros ?%elem_of_nil|].
  destruct (String.eqb k name) eqn:Hk; [done|].
  intros [->|Hin]%elem_of_cons.
  - by rewrite String.eqb_refl in Hk.
  - simpl. by rewrite IH.
Qed.



(** X15. [get_class] wraps a class once: with distinct names in the map,
    asking again with the same query returns the same [DvClass] and
    changes nothing. *)
Theorem get_class_again (class_name : string) (machine machine' : DvMachine)
    (dvclass : DvClass) :
  NoDup (get_classes machine) ->
  get_class class_name machine = (inr (Some dvclass), machine') ->
  get_class class_name machine' = (inr (Some dvclass), machine').
Proof.
  intros Hnd Hget.
  destruct (get_class_loop_inv class_name (classes machine) machine)
    as [Hno | (pre & name & klass & post & Hcl & Hpre & Hname)].
  - unfold get_class in Hget. rewrite <- (app_nil_r (classes machine)) in Hget at 1.
    by rewrite get_class_loop_skip in Hget.
  - assert (Hloop : get_class class_name machine
                    = get_class_loop class_name ((name, klass) :: post) machine).
    { unfold get_class. rewrite Hcl. by apply get_class_loop_skip. }
    simpl in Hloop. rewrite Hname in Hloop. rewrite Hget in Hloop.
    assert (Hfresh : name ∉ map fst pre).
    { unfold get_classes in Hnd. rewrite Hcl, map_app in Hnd.
      apply NoDup_app in Hnd as (_ & Hdis & _). intros Hin.
      apply (Hdis name Hin). apply list_elem_of_here. }
    assert (Hagain : forall m,
              classes m = (pre ++ (name, Wrapped dvclass) :: post)%list ->
              get_class class_name m = (inr (Some dvclass), m)).
    { intros m Hm. unfold get_class. rewrite Hm at 1.
      rewrite get_class_loop_skip by done. simpl. by rewrite Hname. }
    destruct klass as [k|dv].
    + destruct (DvClass.__init__ k (vma machine)) as [e|dv]; [done|].
      injection Hloop as -> ->. apply Hagain. cbn [classes].
      rewrite Hcl. by apply dict_set_in_place.
    + injection Hloop as -> ->. by apply Hagain.
Qed.

End Lookup.


(** ** All the classes: [DvMachine.process] and [DvMachine.get_ast] *)

Section Machine2.
Context {T : ExtTypes} {C : Collab}.
Import DvMachine.

Lemma dict_set_fresh {V} (name : string) (v : V) (d : list (string * V)) :
  name ∉ map fst d -> dict_set name v d = (d ++ [(name, v)])%list.
Proof.
  induction d as [|[k x] d IH]; simpl; [done|].
  intros [Hk Hd]%not_elem_of_cons.
  replace (String.eqb k name) with false
    by (symmetry; apply String.eqb_neq; congruence).
  by rewrite IH.
Qed.

Lemma dict_set_other {V} (name n : string) (v x : V) (d : list (string * V)) :
  n <> name -> (n, x) ∈ d -> (n, x) ∈ dict_set name v d.
Proof.
  intros Hne. induction d as [|[k y] d IH]; simpl; [by intros ?%elem_of_nil|].
  intros [[= <- <-]|Hin]%elem_of_cons.
  - replace (String.eqb n name) with false
      by (symmetry; by apply String.eqb_neq).
    apply list_elem_of_here.
  - destruct (String.eqb k name); apply list_elem_of_further; [done | by apply IH].
Qed.

Lemma wrap_vma (m m' : DvMachine) (k : class_slot) :
  vma m' = vma m -> wrap m' k = wrap m k.
Proof. intros Hv. destruct k; simpl; [by rewrite Hv | done]. Qed.

(** The loop of [process], from the items that remain. *)
Lemma process_loop_wraps (items done : list (string * class_slot))
    (machine machine' : DvMachine) (log log' : list DvClass.log_record) :
  classes machine = (done ++ items)%list ->
  NoDup (map fst (done ++ items)) ->
  process_loop items machine log = (None, (machine', log')) ->
  vma machine' = vma machine
  /\ exists items',
       classes machine' = (done ++ items')%list
       /\ Forall2
            (fun e e' =>
               e'.1 = e.1
               /\ exists dv, wrap machine e.2 = inr dv
                    /\ e'.2 = Wrapped (DvClass.process false dv).2.1)
            items items'.
Proof.
  revert done machine log.
  induction items as [|[name klass] items IH]; intros done machine log Hcl Hnd.
  - simpl. intros [= <- <-]. split; [done|]. exists []. by split.
  - cbn [process_loop].
    destruct (wrap machine klass) as [e|dv] eqn:Hwrap; [done|].
    destruct (DvClass.process false dv) as [r [dv' ws]] eqn:Hproc.
    destruct r as [e|]; [done|].
    set (m1 := {| vma := vma machine;
                  classes := dict_set name (Wrapped dv') (classes machine) |}).
    intros Hloop.
    assert (Hfresh : name ∉ map fst done).
    { rewrite map_app in Hnd. apply NoDup_app in Hnd as (_ & Hdis & _).
      intros Hin. apply (Hdis name Hin). apply list_elem_of_here. }
    assert (Hcl1 : classes m1
                   = ((done ++ [(name, Wrapped dv')]) ++ items)%list).
    { subst m1. cbn [classes]. rewrite Hcl, dict_set_in_place by done.
      by rewrite <- app_assoc. }
    assert (Hnd1 : NoDup (map fst ((done ++ [(name, Wrapped dv')]) ++ items))).
    { rewrite <- app_assoc. simpl. by rewrite !map_app in *. }
    destruct (IH _ m1 _ Hcl1 Hnd1 Hloop) as (Hv & items' & Hcl' & Hall).
    split; [done|]. exists ((name, Wrapped dv') :: items').
    split; [by rewrite Hcl', <- app_assoc|]. constructor.
    + split; [done|]. exists dv. split; [done|]. by rewrite Hproc.
    + eapply Forall2_impl; [exact Hall|].
      intros e e' (He & dv0 & Hw & He'). split; [done|]. exists dv0.
      split; [|done]. by rewrite <- (wrap_vma machine m1).
Qed.

(** X16. With distinct names in the map, when [process] returns normally
    every class of the map is a [DvClass], the one built from the class
    that was there and processed in text mode, under the same name and
    at the same place. *)
Theorem machine_process_wraps_every_class (machine machine' : DvMachine)
    (log : list DvClass.log_record) :
  NoDup (get_classes machine) ->
  process machine = (None, (machine', log)) ->
  get_classes machine' = get_classes machine
  /\ Forall2
       (fun e e' =>
          e'.1 = e.1
          /\ exists dv, wrap machine e.2 = inr dv
               /\ e'.2 = Wrapped (DvClass.process false dv).2.1)
       (classes machine) (classes machine').
Proof.
  intros Hnd Hproc.
  destruct (process_loop_wraps (classes machine) [] machine machine' [] log)
    as (_ & items' & Hcl & Hall); [done | done | done |].
  simpl in Hcl. rewrite Hcl. split; [|done].
  unfold get_classes. rewrite Hcl. clear -Hall.
  induction Hall as [|e e' l l' [He _] _ IH]; [done|]. simpl. by rewrite He, IH.
Qed.

(** What the loop of [get_ast] keeps, from the items that remain. *)
Lemma get_ast_loop_keys (items : list (string * class_slot))
    (machine machine' : DvMachine) (m0 : list (string * class_slot))
    (ret ret' : list (string * list (string * DvClass.ast_value)))
    (log log' : list DvClass.log_record) :
  NoDup (map fst m0) ->
  (forall e, e ∈ items -> e ∈ m0) ->
  NoDup (map fst ret ++ map fst items) ->
  map fst (classes machine) = map fst m0 ->
  (forall name k, (name, Raw k) ∈ m0 -> (name, Raw k) ∈ classes machine) ->
  get_ast_loop items machine ret log = (inr ret', (machine', log')) ->
  map fst ret' = (map fst ret ++ map fst items)%list
  /\ map fst (classes machine') = map fst m0
  /\ (forall name k, (name, Raw k) ∈ m0 -> (name, Raw k) ∈ classes machine').
Proof.
  intros Hm0. revert machine ret log.
  induction items as [|[name klass] items IH];
    intros machine ret log Hsub Hnd Hkeys Hraw.
  - simpl. intros [= <- <- <-]. by rewrite app_nil_r.
  - cbn [get_ast_loop].
    destruct (wrap machine klass) as [e|cls] eqn:Hwrap; [done|].
    destruct (DvClass.process true cls) as [r [cls' ws]] eqn:Hproc.
    destruct r as [e|]; [done|].
    destruct (DvClass.get_ast cls') as [e|ast]; [done|].
    intros Hloop.
    assert (Hfresh : name ∉ map fst ret).
    { apply NoDup_app in Hnd as (_ & Hdis & _). intros Hin.
      apply (Hdis name Hin). apply list_elem_of_here. }
    assert (Hin0 : (name, klass) ∈ m0) by (apply Hsub, list_elem_of_here).
    eapply IH in Hloop.
    + destruct Hloop as (Hret & Hk & Hr). split; [|done].
      rewrite Hret, dict_set_fresh, map_app by done. simpl.
      by rewrite <- app_assoc.
    + intros e He. apply Hsub. by apply list_elem_of_further.
    + rewrite dict_set_fresh, map_app by done. simpl.
      by rewrite <- app_assoc.
    + destruct klass; [done|]. cbn [classes]. rewrite <- Hkeys.
      apply dict_set_keys. rewrite Hkeys.
      by apply (list_elem_of_fmap_2 fst) in Hin0.
    + intros n k Hn. destruct klass as [kr|kw]; [by apply Hraw|].
      cbn [classes]. apply dict_set_other; [|by apply Hraw].
      intros ->.
      assert (Heq : Raw k = Wrapped kw); [|done].
      clear -Hm0 Hn Hin0. induction m0 as [|[n0 x] m0 IH]; [by apply elem_of_nil in Hn|].
      simpl in Hm0. apply NoDup_cons in Hm0 as [Hn0 Hm0].
      apply elem_of_cons in Hn as [[= <- <-]|Hn];
        apply elem_of_cons in Hin0 as [[= ]|Hin0]; try done.
      * destruct Hn0. by apply (list_elem_of_fmap_2 fst) in Hin0.
      * subst. destruct Hn0. by apply (list_elem_of_fmap_2 fst) in Hn.
      * by apply IH.
Qed.

(** X17. With distinct names in the map, the dictionary that [get_ast]
    returns has one entry per class, in the increasing order of the
    names; the machine keeps its names, and a class that was not a
    [DvClass] stays as it was: [get_ast] does not keep the wrappers it
    builds. *)
Theorem machine_get_ast_is_sorted (machine machine' : DvMachine)
    (ret : list (string * list (string * DvClass.ast_value)))
    (log : list DvClass.log_record) :
  NoDup (get_classes machine) ->
  get_ast machine = (inr ret, (machine', log)) ->
  map fst ret ≡ₚ get_classes machine
  /\ Sorted String.le (map fst ret)
  /\ get_classes machine' = get_classes machine
  /\ (forall name k, (name, Raw k) ∈ classes machine ->
        (name, Raw k) ∈ classes machine').
Proof.
  intros Hnd Hget. unfold get_ast in Hget.
  assert (Hperm : sorted_items (classes machine) ≡ₚ classes machine)
    by apply merge_sort_Permutation.
  apply get_ast_loop_keys with (m0 := classes machine) in Hget; try done.
  - destruct Hget as (Hret & Hk & Hr). simpl in Hret. rewrite Hret.
    split; [|split; [|done]].
    + unfold get_classes. by apply (fmap_Permutation fst) in Hperm.
    + apply (Sorted_fmap fst (fun a b => String.le a.1 b.1)); [done|].
      apply Sorted_merge_sort. intros a b. apply String.le_total.
  - intros e He. by rewrite <- Hperm.
  - simpl. unfold get_classes in Hnd.
    by rewrite (fmap_Permutation fst _ _ Hperm).
Qed.

End Machine2.


(** ** Annotations of classes, fields and parameters *)

Section AnnotationTables.
Context {T : ExtTypes} {C : Collab}.





(** The comprehension leaves alone the fields that the entries that
    remain are not about. *)
Lemma field_annotations_loop_other (cm : ClassManager) (idxs : list Z)
    (l : list AnnotationOff) (m0 m : gmap Z (list annotation)) (idx : Z) :
  (forall y, y ∈ l -> get_idx y <> idx) ->
  DvClass.field_annotations_loop cm idxs l m0 = inr m ->
  m !! idx = m0 !! idx.
Proof.
  revert m0. induction l as [|y l IH]; intros m0 Hno; simpl.
  - by intros [= <-].
  - assert (Hrest : forall z, z ∈ l -> get_idx z <> idx)
      by (intros z Hz; apply Hno; by apply list_elem_of_further).
    destruct (existsb _ idxs); [|by apply IH].
    destruct (get_annotations cm _) as [e|a]; [done|].
    intros Hm. rewrite (IH _ Hrest Hm).
    apply lookup_insert_ne. apply Hno. apply list_elem_of_here.
Qed.

Lemma field_annotations_loop_app (cm : ClassManager) (idxs : list Z)
    (l1 l2 : list AnnotationOff) (m0 : gmap Z (list annotation)) :
  DvClass.field_annotations_loop cm idxs (l1 ++ l2) m0
  = match DvClass.field_annotations_loop cm idxs l1 m0 with
    | inl e => inl e
    | inr m1 => DvClass.field_annotations_loop cm idxs l2 m1
    end.
Proof.
  revert m0. induction l1 as [|x l1 IH]; intros m0; [done|]. simpl.
  destruct (existsb _ idxs); [|apply IH].
  destruct (get_annotations cm _) as [e|a]; [done | apply IH].
Qed.

Lemma existsb_eqb_elem (z : Z) (l : list Z) :
  existsb (Z.eqb z) l = true <-> z ∈ l.
Proof.
  rewrite existsb_exists. split.
  - intros (x & Hx%list_elem_of_In & ->%Z.eqb_eq). done.
  - intros Hz. exists z. split; [by apply list_elem_of_In | apply Z.eqb_refl].
Qed.

(** X19. The field annotations of a class are kept by field index: when
    their extraction returns, an index has an entry only if it is the
    index of a field of the class and of an entry of the directory, whose
    annotations it holds, and the last entry of the directory for a field
    is the one that counts; when it raises, the exception is that of the
    annotations of an entry of the directory about a field of the
    class. *)
Theorem field_annotations_lookup (cm : ClassManager) (idxs : list Z)
    (l : list AnnotationOff) :
  (forall m, DvClass.field_annotations_of cm idxs l = inr m ->
     (forall idx a,
        m !! idx = Some a ->
        idx ∈ idxs
        /\ exists x, x ∈ l /\ get_idx x = idx
                     /\ get_annotations cm [get_annotations_off x] = inr a)
     /\ (forall pre x post,
           l = (pre ++ x :: post)%list ->
           get_idx x ∈ idxs ->
           (forall y, y ∈ post -> get_idx y <> get_idx x) ->
           exists a, get_annotations cm [get_annotations_off x] = inr a
                     /\ m !! get_idx x = Some a))
  /\ (forall e, DvClass.field_annotations_of cm idxs l = inl e ->
        exists x, x ∈ l /\ get_idx x ∈ idxs
                  /\ get_annotations cm [get_annotations_off x] = inl e).
Proof.
  unfold DvClass.field_annotations_of. split.
  - intros m Hm. split.
    + intros idx a.
      assert (Hgen : forall (m0 : gmap Z (list annotation)),
                DvClass.field_annotations_loop cm idxs l m0 = inr m ->
                m !! idx = Some a ->
                m0 !! idx = Some a
                \/ (idx ∈ idxs
                    /\ exists x, x ∈ l /\ get_idx x = idx
                         /\ get_annotations cm [get_annotations_off x] = inr a)).
      { clear Hm. induction l as [|y l IH]; intros m0; simpl.
        { intros [= <-]. by left. }
        assert (Hlift :
          forall m1, DvClass.field_annotations_loop cm idxs l m1 = inr m ->
            m !! idx = Some a ->
            m1 !! idx = Some a
            \/ (idx ∈ idxs
                /\ exists x, x ∈ y :: l /\ get_idx x = idx
                     /\ get_annotations cm [get_annotations_off x] = inr a)).
        { intros m1 Hm1 Ha. destruct (IH m1 Hm1 Ha) as [?|(Hi & x & Hx & Hr)];
            [by left|]. right. split; [done|]. exists x.
          split; [by apply list_elem_of_further | done]. }
        destruct (existsb (Z.eqb (get_idx y)) idxs) eqn:Hex; [|apply Hlift].
        destruct (get_annotations cm [get_annotations_off y]) as [e|ay] eqn:Hy;
          [done|].
        intros Hm Ha. destruct (Hlift _ Hm Ha) as [Hins|?]; [|by right].
        destruct (decide (get_idx y = idx)) as [Heq|Hne].
        - rewrite <- Heq, lookup_insert_eq in Hins. injection Hins as ->.
          right. split; [rewrite <- Heq; by apply existsb_eqb_elem|].
          exists y. split; [apply list_elem_of_here | done].
        - left. by rewrite lookup_insert_ne in Hins. }
      intros Ha. destruct (Hgen ∅ Hm Ha) as [He|]; [|done].
      by rewrite lookup_empty in He.
    + intros pre x post -> Hx Hpost.
      rewrite field_annotations_loop_app in Hm.
      destruct (DvClass.field_annotations_loop cm idxs pre ∅) as [e|m1]; [done|].
      simpl in Hm. apply existsb_eqb_elem in Hx. rewrite Hx in Hm.
      destruct (get_annotations cm [get_annotations_off x]) as [e|a]; [done|].
      exists a. split; [done|].
      rewrite (field_annotations_loop_other _ _ _ _ _ _ Hpost Hm).
      apply lookup_insert_eq.
  - intros e. generalize (∅ : gmap Z (list annotation)).
    induction l as [|y l IH]; intros m0; simpl; [done|].
    assert (Hlift :
      forall m1, DvClass.field_annotations_loop cm idxs l m1 = inl e ->
        exists x, x ∈ y :: l /\ get_idx x ∈ idxs
                  /\ get_annotations cm [get_annotations_off x] = inl e).
    { intros m1 Hm1. destruct (IH m1 Hm1) as (x & Hx & Hr). exists x.
      split; [by apply list_elem_of_further | done]. }
    destruct (existsb (Z.eqb (get_idx y)) idxs) eqn:Hex; [|apply Hlift].
    destruct (get_annotations cm [get_annotations_off y]) as [e'|ay] eqn:Hy;
      [|apply Hlift].
    intros [= ->]. exists y. split; [apply list_elem_of_here|].
    split; [by apply existsb_eqb_elem | done].
Qed.

End AnnotationTables.

(** ** The prototype in the two renderings *)

Section Prototype.
Context {T : ExtTypes} {C : Collab}.
Import DvClass.

Lemma concat_cons (x : string) (l : list string) :
  String.concat "" (x :: l) = x +:+ String.concat "" l.
Proof. destruct l; simpl; [by rewrite append_nil_r | done]. Qed.

Lemma concat_app (l1 l2 : list string) :
  String.concat "" (l1 ++ l2)
  = String.concat "" l1 +:+ String.concat "" l2.
Proof.
  induction l1 as [|x l1 IH]; [done|].
  change ((x :: l1) ++ l2)%list with (x :: (l1 ++ l2))%list.
  by rewrite !concat_cons, IH, append_assoc.
Qed.

(** The tokens of the interfaces spell the list with its commas. *)
Lemma interface_toks_text (l : list string) :
  String.concat "" (map tok_text (interface_toks true l))
  = Str.join ", " (map dotted l).
Proof.
  assert (Hrest : forall l,
            String.concat "" (map tok_text (interface_toks false l))
            = String.concat "" (map (fun i => ", " +:+ dotted i) l)).
  { clear. induction l as [|i l IH]; [done|].
    cbn [interface_toks map app].
    rewrite !concat_cons. cbn [tok_text]. by rewrite IH, append_assoc. }
  destruct l as [|i l]; [done|]. cbn [interface_toks map app].
  rewrite concat_cons, Hrest. cbn [tok_text]. clear.
  revert i. induction l as [|j l IH]; intros i.
  - simpl. by rewrite append_nil_r.
  - cbn [map]. rewrite concat_cons.
    change (Str.join ", " (dotted i :: dotted j :: map dotted l))
      with (dotted i +:+ ", " +:+ Str.join ", " (dotted j :: map dotted l)).
    by rewrite <- (IH j), append_assoc.
Qed.

(** X20. For a class whose prototype has the [class] keyword, as
    [__init__] gives to every class that is not an interface, the texts
    of the [PROTOTYPE] tokens of [get_source_ext], put together, are the
    prototype line of [get_source]: the prototype, the [extends] and
    [implements] clauses and the opening brace. *)
Theorem prototype_tokens_spell_the_prototype (c : DvClass)
    (items : list ext_item) :
  c_prototype c = Str.join " " (c_access c) +:+ " class " +:+ c_name c ->
  get_source_ext c = inr items ->
  exists toks,
    Item "PROTOTYPE" toks ∈ items
    /\ String.concat "" (map tok_text toks) = full_prototype c +:+ " {" +:+ nl.
Proof.
  intros Hproto. unfold get_source_ext. cbv zeta.
  destruct (collect field_source_ext (c_fields c)) as [e|fields]; [done|].
  intros [= <-]. eexists. split.
  { apply elem_of_app. right. apply list_elem_of_here. }
  cbn [map tok_text]. rewrite !concat_cons, !map_app, !concat_app.
  cbn [map tok_text String.concat].
  unfold full_prototype. rewrite Hproto.
  assert (Himpl :
    String.concat ""
      (map tok_text
         (if 0 <? Z.of_nat (length (c_interfaces c))
          then Tok "IMPLEMENTS" " implements "
                 :: interface_toks true (c_interfaces c)
          else []))
    = if 0 <? Z.of_nat (length (c_interfaces c))
      then " implements " +:+ Str.join ", " (map dotted (c_interfaces c))
      else "").
  { destruct (0 <? _); [|done]. cbn [map tok_text].
    by rewrite concat_cons, interface_toks_text. }
  rewrite Himpl. clear Himpl.
  destruct (c_superclass c) as [sc|].
  - destruct (negb (String.eqb sc "Ljava/lang/Object;")).
    + cbn [map tok_text]. rewrite !concat_cons. cbn [String.concat].
      rewrite append_nil_r.
      destruct (0 <? _); by rewrite ?append_nil_l, !append_assoc.
    + cbn [map String.concat].
      destruct (0 <? _); by rewrite ?append_nil_l, !append_assoc.
  - cbn [map String.concat].
    destruct (0 <? _); by rewrite ?append_nil_l, !append_assoc.
Qed.

End Prototype.

(** ** The values of annotations *)


(** ** The values of annotation elements *)

Section AnnotationValues.
Import AnnotationValue.

Local Abbreviation shifts o :=
  (forall dim k : Z,
     get_annotation_type o (dim + k)
     = match get_annotation_type o dim with
       | inl e => inl e
       | inr r => inr (shift k r)
       end).

Lemma annotation_type_shift_first (o : obj) :
  shifts o
  /\ match o with
     | EncodedArray (x :: _) => shifts x
     | _ => True
     end.
Proof.
  induction o as [t v IH|vs IH|t els IH|n v IH|l IH|v] using obj_induction;
    try (split; [intros dim k; reflexivity | exact I]).
  - split; [|exact I]. intros dim k.
    destruct t; try reflexivity.
    destruct v as [t' v'|[|x vs]|t' els|n v'|l|v']; try reflexivity.
    destruct IH as [_ IHx]. cbn [get_annotation_type].
    replace (dim + k + 1) with (dim + 1 + k) by lia. apply IHx.
  - split; [intros dim k; reflexivity|].
    destruct vs as [|x vs]; [exact I|].
    apply Forall_cons in IH as [[Hx _] _]. exact Hx.
Qed.

(** The starting dimension only offsets the dimension of the result. *)
Lemma annotation_type_shift (v : obj) : shifts v.
Proof. apply annotation_type_shift_first. Qed.

Local Abbreviation typed o :=
  (forall (dim : Z) (r : result),
     get_annotation_type o dim = inr r ->
     exists baset d, r = typen baset d /\ dim <= d).



(** X21. The type of an array value is decided by its first element
    alone, one dimension per level of nesting, whatever the other
    elements are; the starting dimension only offsets the result; an
    empty array has the base type [.null]. *)
Theorem array_type_follows_first_element (first : obj) (others : list obj)
    (depth : nat) (dim k : Z) :
  get_annotation_type (nest depth others first) dim
  = get_annotation_type first (dim + Z.of_nat depth)
  /\ get_annotation_type first (dim + k)
     = match get_annotation_type first dim with
       | inl e => inl e
       | inr r => inr (shift k r)
       end
  /\ get_annotation_type (EncodedValue VALUE_ARRAY (EncodedArray [])) dim
     = inr (typen ".null" dim).
Proof.
  split; [|split; [apply annotation_type_shift | reflexivity]].
  revert dim. induction depth as [|d IH]; intros dim.
  - simpl. by rewrite Z.add_0_r.
  - cbn [nest get_annotation_type]. rewrite IH. f_equal. lia.
Qed.


End AnnotationValues.

(** ** The further properties on the sample *)

Section FurtherExamples.
#[local] Existing Instance Sample.types.


(** The class [Torn], whose annotation has an element that holds a bare
    integer: [__init__] raises, and so does [get_class]. *)
Example torn_annotation_raises :
  DvClass.__init__ (C := Sample.collab Sample.sound) Sample.Torn tt
  = inl (Exception "UnboundLocalError: arg_type")
  /\ DvMachine.get_class (C := Sample.collab Sample.sound) "Torn"
       {| DvMachine.vma := tt;
          DvMachine.classes := [("Lfoo/Torn;", DvMachine.Raw Sample.Torn)] |}
     = (inl (Exception "UnboundLocalError: arg_type"),
        {| DvMachine.vma := tt;
           DvMachine.classes := [("Lfoo/Torn;", DvMachine.Raw Sample.Torn)] |}).
Proof. split; reflexivity. Qed.



Lemma process_stores_its_result_witness :
  is_Some (m_writer
             (DvMethod.self
                (DvMethod.run (C := Sample.collab Sample.sound) false
                   (Sample.method_of Sample.sound Sample.sum None)).2))
  /\ (is_Some (m_start_block (Sample.method_of Sample.sound Sample.sum None)) ->
      exists g,
        m_graph
          (DvMethod.self
             (DvMethod.run (C := Sample.collab Sample.sound) false
                (Sample.method_of Sample.sound Sample.sum None)).2) = Some g
        /\ DvMethod.NewWriter (Some g)
             ∈ DvMethod.trace
                 (DvMethod.run (C := Sample.collab Sample.sound) false
                    (Sample.method_of Sample.sound Sample.sum None)).2).
Proof.
  apply (process_stores_its_result (C := Sample.collab Sample.sound) false
           (Sample.method_of Sample.sound Sample.sum None)).
  vm_compute. reflexivity.
Defined.

(** A byte field that holds 256, and a [String] field that holds an
    integer: the first raise is that of [struct.pack], the second that of
    the builder. *)
Lemma field_ast_outcome_witness :
  ((proto Sample.wide = "B"
    /\ exists iv, init_value Sample.wide = Some iv
                  /\ signed_byte (value iv)
                     = inl (Exception "struct.error: ubyte format requires 0 <= number <= 255")
                  /\ forall b, as_int (value iv) = Some b -> ~ 0 <= b <= 255)
   \/ exists call,
        field_expr Sample.wide = inr (Some call)
        /\ dast (Collab := Sample.collab Sample.sound) call
           = inl (Exception "struct.error: ubyte format requires 0 <= number <= 255"))
  /\ ((proto Sample.label = "B"
       /\ exists iv, init_value Sample.label = Some iv
                     /\ signed_byte (value iv)
                        = inl (Exception "AttributeError: object has no attribute 'encode'")
                     /\ forall b, as_int (value iv) = Some b -> ~ 0 <= b <= 255)
      \/ exists call,
           field_expr Sample.label = inr (Some call)
           /\ dast (Collab := Sample.collab Sample.sound) call
              = inl (Exception "AttributeError: object has no attribute 'encode'")).
Proof.
  split.
  - apply (proj1 (field_ast_outcome (C := Sample.collab Sample.sound)
                    Sample.wide [])).
    vm_compute. reflexivity.
  - apply (proj1 (field_ast_outcome (C := Sample.collab Sample.sound)
                    Sample.label [])).
    vm_compute. reflexivity.
Defined.

Lemma bad_byte_field_fails_the_class_witness :
  (exists e, DvClass.get_ast (C := Sample.collab Sample.sound)
               (Sample.class_of Sample.Wide) = inl e)
  /\ (exists e, DvClass.get_source (C := Sample.collab Sample.sound)
                  (Sample.class_of Sample.Wide) = inl e)
  /\ (exists e, DvClass.get_source_ext (C := Sample.collab Sample.sound)
                  (Sample.class_of Sample.Wide) = inl e).
Proof.
  apply (bad_byte_field_fails_the_class (C := Sample.collab Sample.sound)
           (Sample.class_of Sample.Wide) Sample.wide 256).
  - change (Sample.wide
            ∈ [Sample.field "tag" "B" (Some (PyInt 254)); Sample.wide]).
    apply list_elem_of_further, list_elem_of_here.
  - reflexivity.
  - reflexivity.
  - vm_compute. discriminate.
  - reflexivity.
  - lia.
Defined.

Lemma field_value_renderings_agree_witness :
  DvClass.value_source_ext (C := Sample.collab Sample.sound) "byte"
    (Sample.field "tag" "B" None) (PyInt 254)
  = inr (" = " +:+ Py.hex (-2))
  \/ ("byte" = "String" /\ truthy (PyInt 254) = true
      /\ forall t, PyInt 254 <> PyStr t).
Proof.
  apply (proj2 (field_value_renderings_agree
                  (C := Sample.collab Sample.sound) "byte"
                  (Sample.field "tag" "B" None) (PyInt 254))).
  vm_compute. reflexivity.
Defined.

Lemma process_method_index_witness :
  DvClass.process_method (C := Sample.collab Sample.sound) (-1) false
    (Sample.class_of Sample.Bar)
  = DvClass.process_method (C := Sample.collab Sample.sound)
      (-1 + Z.of_nat (length (c_methods (Sample.class_of Sample.Bar)))) false
      (Sample.class_of Sample.Bar)
  /\ DvClass.process_method (C := Sample.collab Sample.sound) 2 false
       (Sample.class_of Sample.Bar)
     = (Some (Exception "IndexError: list index out of range"),
        Sample.class_of Sample.Bar).
Proof.
  split.
  - apply (proj1 (process_method_index (C := Sample.collab Sample.sound)
                    (-1) false (Sample.class_of Sample.Bar))).
    vm_compute. split; [discriminate | reflexivity].
  - apply (proj2 (process_method_index (C := Sample.collab Sample.sound)
                    2 false (Sample.class_of Sample.Bar))).
    vm_compute. intros [_ H]. discriminate H.
Defined.

Lemma process_wraps_the_methods_witness :
  let c := Sample.class_of Sample.Bar in
  let c' := (DvClass.process (C := Sample.collab Sample.broken) false c).2.1 in
  (DvClass.process (C := Sample.collab Sample.broken) false c).1 = None
  /\ c_fields c' = c_fields c
  /\ length (c_methods c') = length (c_methods c)
  /\ (forall i m, c_methods c !! i = Some (Decompiled m) ->
        exists m', c_methods c' !! i = Some (Decompiled m'))
  /\ (forall i em ma m,
        c_methods c !! i = Some (Encoded em) ->
        vma_get_method (Collab := Sample.collab Sample.broken) (c_vma c) em
        = inr ma ->
        DvMethod.__init__ (C := Sample.collab Sample.broken) ma (c_adi c)
        = inr m ->
        exists m', c_methods c' !! i = Some (Decompiled m')).
Proof.
  apply (process_wraps_the_methods (C := Sample.collab Sample.broken) false
           (Sample.class_of Sample.Bar)).
  vm_compute. reflexivity.
Defined.


Lemma get_class_again_witness :
  let machine' :=
    {| DvMachine.vma := tt;
       DvMachine.classes :=
         [("Lapp/Lfoo/Bar;", DvMachine.Wrapped (Sample.class_of Sample.Outer));
          ("Lfoo/Bar;", DvMachine.Raw Sample.Bar)] |} in
  DvMachine.get_class (C := Sample.collab Sample.sound) "Lfoo/Bar;" machine'
  = (inr (Some (Sample.class_of Sample.Outer)), machine').
Proof.
  apply (get_class_again (C := Sample.collab Sample.sound) "Lfoo/Bar;"
           Sample.machine).
  - apply (bool_decide_unpack _). by vm_compute.
  - vm_compute. reflexivity.
Defined.

Lemma machine_process_wraps_every_class_witness :
  exists machine' log,
    DvMachine.process (C := Sample.collab Sample.sound) Sample.machine
    = (None, (machine', log))
    /\ DvMachine.get_classes machine' = ["Lapp/Lfoo/Bar;"; "Lfoo/Bar;"]
    /\ Forall2
         (fun e e' =>
            e'.1 = e.1
            /\ exists dv,
                 DvMachine.wrap (C := Sample.collab Sample.sound)
                   Sample.machine e.2 = inr dv
                 /\ e'.2 = DvMachine.Wrapped
                             (DvClass.process (C := Sample.collab Sample.sound)
                                false dv).2.1)
         (DvMachine.classes Sample.machine) (DvMachine.classes machine').
Proof.
  destruct (DvMachine.process (C := Sample.collab Sample.sound) Sample.machine)
    as [[e|] [machine' log]] eqn:Hproc; [vm_compute in Hproc; discriminate|].
  exists machine', log. split; [reflexivity|].
  apply (machine_process_wraps_every_class (C := Sample.collab Sample.sound)
           Sample.machine machine' log); [|exact Hproc].
  apply (bool_decide_unpack _). by vm_compute.
Defined.

Lemma machine_get_ast_is_sorted_witness :
  exists ret machine' log,
    DvMachine.get_ast (C := Sample.collab Sample.sound) Sample.machine
    = (inr ret, (machine', log))
    /\ map fst ret ≡ₚ ["Lapp/Lfoo/Bar;"; "Lfoo/Bar;"]
    /\ Sorted String.le (map fst ret)
    /\ DvMachine.get_classes machine' = ["Lapp/Lfoo/Bar;"; "Lfoo/Bar;"]
    /\ (forall name k,
          (name, DvMachine.Raw k) ∈ DvMachine.classes Sample.machine ->
          (name, DvMachine.Raw k) ∈ DvMachine.classes machine').
Proof.
  destruct (DvMachine.get_ast (C := Sample.collab Sample.sound) Sample.machine)
    as [[e|ret] [machine' log]] eqn:Hget; [vm_compute in Hget; discriminate|].
  exists ret, machine', log. split; [reflexivity|].
  apply (machine_get_ast_is_sorted (C := Sample.collab Sample.sound)
           Sample.machine machine' ret log); [|exact Hget].
  apply (bool_decide_unpack _). by vm_compute.
Defined.

Lemma prototype_tokens_spell_the_prototype_witness :
  exists items toks,
    DvClass.get_source_ext (C := Sample.collab Sample.sound)
      (Sample.class_of Sample.Task) = inr items
    /\ DvClass.Item "PROTOTYPE" toks ∈ items
    /\ String.concat "" (map DvClass.tok_text toks)
       = "public final class Task extends foo.Base implements java.lang.Runnable, java.io.Closeable {"
         +:+ nl.
Proof.
  destruct (DvClass.get_source_ext (C := Sample.collab Sample.sound)
              (Sample.class_of Sample.Task)) as [e|items] eqn:Hsrc;
    [vm_compute in Hsrc; discriminate|].
  destruct (prototype_tokens_spell_the_prototype
              (C := Sample.collab Sample.sound)
              (Sample.class_of Sample.Task) items eq_refl Hsrc)
    as (toks & Hin & Htext).
  exists items, toks. split; [reflexivity|]. split; [exact Hin|].
  rewrite Htext. reflexivity.
Defined.

(** The directory of [Tagged] has an entry for field 0, which the class
    has, and one for field 7, which it has not. *)
Lemma field_annotations_lookup_witness :
  exists m a,
    DvClass.field_annotations_of Sample.cm_tagged [0]
      [{| get_idx := 0; get_annotations_off := 8 |};
       {| get_idx := 7; get_annotations_off := 8 |}] = inr m
    /\ get_annotations Sample.cm_tagged [8] = inr a
    /\ m !! 0 = Some a /\ m !! 7 = None /\ length a = 1%nat.
Proof.
  destruct (DvClass.field_annotations_of Sample.cm_tagged [0]
              [{| get_idx := 0; get_annotations_off := 8 |};
               {| get_idx := 7; get_annotations_off := 8 |}])
    as [e|m] eqn:Hm; [vm_compute in Hm; discriminate Hm|].
  destruct (proj2 (proj1 (field_annotations_lookup Sample.cm_tagged [0]
                            [{| get_idx := 0; get_annotations_off := 8 |};
                             {| get_idx := 7; get_annotations_off := 8 |}])
                     m Hm)
              [] {| get_idx := 0; get_annotations_off := 8 |}
              [{| get_idx := 7; get_annotations_off := 8 |}] eq_refl)
    as (a & Ha & Hlook).
  - apply list_elem_of_here.
  - intros y ->%list_elem_of_singleton. discriminate.
  - exists m, a. split; [reflexivity|]. split; [exact Ha|].
    split; [exact Hlook|].
    vm_compute in Hm. injection Hm as <-.
    vm_compute in Ha. injection Ha as <-. split; reflexivity.
Defined.


End FurtherExamples.
